(** * Shipment tracking for Delivery Notes: UPS, FedEx and Priority

    A shallow embedding of the three polling modules of [ups_integration]
    ([api.py], [fedex_integration.py], [priority_integration.py]) and the
    properties of their status normalisation.

    Python values coming from the carriers are arbitrary JSON, so they are
    kept as a JSON tree with Python's run-time errors made explicit.  The
    framework ([frappe]) and the standard library ([json], [uuid]) are
    external: what the modules read from them is gathered in [Env]. *)

From Stdlib Require Import ZArith List String Ascii Bool Lia DecimalString.
From Stdlib Require DecimalZ DecimalPos.
Import ListNotations.
Set Warnings "-register-all".
Local Open Scope list_scope.
Local Open Scope string_scope.

(* ================================================================== *)
(** ** Python values and their run-time errors *)
(* ================================================================== *)

Module Py.

(** The exceptions the modelled code can raise. *)
Inductive exn : Type :=
| KeyError
| IndexError
| TypeError
| AttributeError
| JSONDecodeError
| ConnectionError
| ValueError.

Inductive result (A : Type) : Type :=
| Ok (a : A)
| Raise (e : exn).
Arguments Ok {A} a.
Arguments Raise {A} e.

(** What [response.json()] can return, and what a document field can hold.
    JSON reals do not occur in the fields the modules read and are left
    out. *)
Inductive value : Type :=
| PNone
| PBool (b : bool)
| PInt (z : Z)
| PStr (s : string)
| PList (l : list value)
| PDict (kv : list (string * value)).

(** [bool(v)], the test of [if v:]. *)
Definition truthy (v : value) : bool :=
  match v with
  | PNone => false
  | PBool b => b
  | PInt z => negb (z =? 0)%Z
  | PStr s => negb (s =? "")
  | PList l => match l with [] => false | _ => true end
  | PDict kv => match kv with [] => false | _ => true end
  end.

(** [a == b] when one side is a scalar, which is every comparison and
    every dictionary key of the modules ([True == 1] as in Python). *)
Definition py_eq (a b : value) : bool :=
  match a, b with
  | PNone, PNone => true
  | PStr s, PStr t => (s =? t)
  | PInt x, PInt y => (x =? y)%Z
  | PBool x, PBool y => Bool.eqb x y
  | PBool x, PInt y => (Z.b2z x =? y)%Z
  | PInt x, PBool y => (x =? Z.b2z y)%Z
  | _, _ => false
  end.

Definition hashable (v : value) : bool :=
  match v with
  | PList _ | PDict _ => false
  | _ => true
  end.

Fixpoint assoc (k : string) (kv : list (string * value)) : option value :=
  match kv with
  | [] => None
  | (k', v) :: rest => if k' =? k then Some v else assoc k rest
  end.

(** [v[k]] with a string key. *)
Definition getitem (v : value) (k : string) : result value :=
  match v with
  | PDict kv => match assoc k kv with
                | Some x => Ok x
                | None => Raise KeyError
                end
  | _ => Raise TypeError
  end.

(** [v[0]]. *)
Definition getitem0 (v : value) : result value :=
  match v with
  | PList (x :: _) => Ok x
  | PList [] => Raise IndexError
  | PStr (String c _) => Ok (PStr (String c ""))
  | PStr EmptyString => Raise IndexError
  | PDict _ => Raise KeyError
  | _ => Raise TypeError
  end.

(** [v.get(k)]. *)
Definition get (v : value) (k : string) : result value :=
  match v with
  | PDict kv => Ok (match assoc k kv with Some x => x | None => PNone end)
  | _ => Raise AttributeError
  end.

(** [v.keys()]. *)
Definition keys (v : value) : result (list string) :=
  match v with
  | PDict kv => Ok (map fst kv)
  | _ => Raise AttributeError
  end.

(** [k in ks] for a list of keys. *)
Definition mem (k : string) (ks : list string) : bool :=
  existsb (String.eqb k) ks.

(** [len(v)]. *)
Definition len (v : value) : result nat :=
  match v with
  | PList l => Ok (List.length l)
  | PDict kv => Ok (List.length kv)
  | PStr s => Ok (String.length s)
  | _ => Raise TypeError
  end.

(** A [dict] built by the code itself, keyed by scalars. *)
Definition dict : Type := list (value * value).

Fixpoint dict_find (m : dict) (k : value) : option value :=
  match m with
  | [] => None
  | (k', v) :: rest => if py_eq k' k then Some v else dict_find rest k
  end.

(** [m.update({k: v})]: the last write for a key wins. *)
Fixpoint dict_update (m : dict) (k v : value) : dict :=
  match m with
  | [] => [(k, v)]
  | (k', v') :: rest =>
      if py_eq k' k then (k', v) :: rest else (k', v') :: dict_update rest k v
  end.

(** [m[k]]. *)
Definition dict_getitem (m : dict) (k : value) : result value :=
  if hashable k then
    match dict_find m k with
    | Some v => Ok v
    | None => Raise KeyError
    end
  else Raise TypeError.

(** [m.get(k)]. *)
Definition dict_get (m : dict) (k : value) : result value :=
  if hashable k then
    Ok (match dict_find m k with Some v => v | None => PNone end)
  else Raise TypeError.

(** [a or b]. *)
Definition or_ (a b : value) : value := if truthy a then a else b.

(** [for x in v]: what the loop runs over. *)
Fixpoint chars (s : string) : list value :=
  match s with
  | EmptyString => []
  | String c rest => PStr (String c "") :: chars rest
  end.

Definition iter (v : value) : result (list value) :=
  match v with
  | PList l => Ok l
  | PDict kv => Ok (map (fun p => PStr (fst p)) kv)
  | PStr s => Ok (chars s)
  | _ => Raise TypeError
  end.

(** [dict(v)] for a value that is not a mapping: [v] is run over, and each
    element, run over in its turn, has to give two values, a key that can
    be hashed and its value; a later element with the same key replaces
    the earlier one. *)
Definition pair_of (item : value) : result (value * value) :=
  match iter item with
  | Raise e => Raise e
  | Ok [k; v] => if hashable k then Ok (k, v) else Raise TypeError
  | Ok _ => Raise ValueError
  end.

Fixpoint dict_of_pairs (items : list value) (m : dict) : result dict :=
  match items with
  | [] => Ok m
  | item :: rest =>
      match pair_of item with
      | Ok (k, v) => dict_of_pairs rest (dict_update m k v)
      | Raise e => Raise e
      end
  end.

(** The entries of a [dict] under their string keys, which are the ones
    that a lookup by a string can find. *)
Fixpoint string_keys (m : dict) : list (string * value) :=
  match m with
  | [] => []
  | (PStr k, v) :: rest => (k, v) :: string_keys rest
  | _ :: rest => string_keys rest
  end.

Definition decimal (z : Z) : string := NilZero.string_of_int (Z.to_int z).

Definition nl : string := String (ascii_of_nat 10) "".

(** [str(v)] as an f-string interpolates it, for the scalars; the text of
    a container is Python's [repr], supplied from outside. *)
Definition format (repr : value -> string) (v : value) : string :=
  match v with
  | PNone => "None"
  | PBool true => "True"
  | PBool false => "False"
  | PInt z => decimal z
  | PStr s => s
  | _ => repr v
  end.

End Py.
Export Py.

(* ================================================================== *)
(** ** The framework: documents, settings, clock, log, cache *)
(* ================================================================== *)

Module Frappe.

(** One row of the child table [custom_tracking_details]. *)
Record TrackingDetail : Type := mkDetail {
  tracking_id : value;
  status_code : value;
  status_description : value
}.

(** The fields of a Delivery Note that the modules read or write. *)
Record DeliveryNote : Type := mkDN {
  name : string;
  posting_date : string;
  set_warehouse : value;
  tracking_number : value;
  custom_tracking : value;
  custom_tracking_code : value;
  custom_last_api_call : value;
  custom_last_date_for_processing_status : value;
  custom_incident_first_date : value;
  custom_tracking_details : list TrackingDetail
}.

Definition set_tracking_number (v : value) (d : DeliveryNote) : DeliveryNote :=
  mkDN (name d) (posting_date d) (set_warehouse d) v (custom_tracking d)
       (custom_tracking_code d) (custom_last_api_call d)
       (custom_last_date_for_processing_status d)
       (custom_incident_first_date d) (custom_tracking_details d).

Definition set_custom_tracking (v : value) (d : DeliveryNote) : DeliveryNote :=
  mkDN (name d) (posting_date d) (set_warehouse d) (tracking_number d) v
       (custom_tracking_code d) (custom_last_api_call d)
       (custom_last_date_for_processing_status d)
       (custom_incident_first_date d) (custom_tracking_details d).

Definition set_custom_tracking_code (v : value) (d : DeliveryNote) : DeliveryNote :=
  mkDN (name d) (posting_date d) (set_warehouse d) (tracking_number d)
       (custom_tracking d) v (custom_last_api_call d)
       (custom_last_date_for_processing_status d)
       (custom_incident_first_date d) (custom_tracking_details d).

Definition set_custom_last_api_call (v : value) (d : DeliveryNote) : DeliveryNote :=
  mkDN (name d) (posting_date d) (set_warehouse d) (tracking_number d)
       (custom_tracking d) (custom_tracking_code d) v
       (custom_last_date_for_processing_status d)
       (custom_incident_first_date d) (custom_tracking_details d).

Definition set_custom_last_date_for_processing_status (v : value)
    (d : DeliveryNote) : DeliveryNote :=
  mkDN (name d) (posting_date d) (set_warehouse d) (tracking_number d)
       (custom_tracking d) (custom_tracking_code d) (custom_last_api_call d) v
       (custom_incident_first_date d) (custom_tracking_details d).

Definition set_custom_incident_first_date (v : value) (d : DeliveryNote)
    : DeliveryNote :=
  mkDN (name d) (posting_date d) (set_warehouse d) (tracking_number d)
       (custom_tracking d) (custom_tracking_code d) (custom_last_api_call d)
       (custom_last_date_for_processing_status d) v (custom_tracking_details d).

(** [doc.append("custom_tracking_details", row)]. *)
Definition append_custom_tracking_details (r : TrackingDetail) (d : DeliveryNote)
    : DeliveryNote :=
  mkDN (name d) (posting_date d) (set_warehouse d) (tracking_number d)
       (custom_tracking d) (custom_tracking_code d) (custom_last_api_call d)
       (custom_last_date_for_processing_status d)
       (custom_incident_first_date d) (custom_tracking_details d ++ [r])%list.

(** An HTTP request handed to [requests.request]. *)
Record Request : Type := mkRequest {
  req_method : string;
  req_url : string;
  req_headers : list (string * value);
  req_params : list (string * string);
  req_data : list (string * string);
  req_auth : option (string * string);
  req_json : value
}.

(** What [requests.request] does: it raises, or answers with a status
    code, a body and, when the body is JSON, its decoding. *)
Inductive Reply : Type :=
| ConnectionFailed
| Response (status_code : Z) (content : string) (json : option value).

(** The stored state a poll works on: the Delivery Note as saved, the
    Error Log, the Integration Request log (service name and status), the
    token cache (value and lifetime in seconds) and the requests sent. *)
Record DB : Type := mkDB {
  doc : DeliveryNote;
  error_log : list (string * string);
  request_log : list (string * string);
  cache : list (string * (value * option Z));
  sent : list Request
}.

(** What the modules take from the framework and the standard library. *)
Record Env : Type := mkEnv {
  cint : value -> Z;                      (* frappe.utils.cint *)
  today : string;                         (* frappe.utils.today() *)
  now : string;                           (* frappe.utils.now() *)
  add_to_date : string -> Z -> string;    (* add_to_date(d, days=n) *)
  strftime : string -> string -> string;  (* getdate(d).strftime(fmt) *)
  uuid4 : string;                         (* str(uuid.uuid4()) *)
  get_traceback : string;                 (* frappe.get_traceback() *)
  json_loads : string -> option value;    (* None: JSONDecodeError *)
  json_dumps : option Z -> value -> string;   (* json.dumps(v, indent=n) *)
  repr : value -> string;
  http : Request -> Reply                 (* the carrier, behind requests *)
}.

(** State and exceptions: a computation runs on the stored state and
    either returns or raises; what was saved before a raise stays. *)
Definition M (A : Type) : Type := DB -> DB * result A.

Definition ret {A} (a : A) : M A := fun s => (s, Ok a).

Definition bind {A B} (c : M A) (f : A -> M B) : M B :=
  fun s => match c s with
           | (s', Ok a) => f a s'
           | (s', Raise e) => (s', Raise e)
           end.

Definition lift {A} (r : result A) : M A := fun s => (s, r).

Definition raise {A} (e : exn) : M A := fun s => (s, Raise e).

(** [frappe.get_doc("Delivery Note", dn)]. *)
Definition get_doc : M DeliveryNote := fun s => (s, Ok (doc s)).

(** [document.save()]. *)
Definition save (d : DeliveryNote) : M unit :=
  fun s => (mkDB d (error_log s) (request_log s) (cache s) (sent s), Ok tt).

(** [frappe.log_error(title=..., message=...)]. *)
Definition log_error (title message : string) : M unit :=
  fun s => (mkDB (doc s) (error_log s ++ [(title, message)])%list (request_log s)
                 (cache s) (sent s),
            Ok tt).

(** [create_request_log(log_args, service_name=..., status=...)]. *)
Definition create_request_log (service_name status : string) : M unit :=
  fun s => (mkDB (doc s) (error_log s) (request_log s ++ [(service_name, status)])%list
                 (cache s) (sent s),
            Ok tt).

(** [frappe.cache().get_value(key)]. *)
Fixpoint cache_find (key : string) (c : list (string * (value * option Z)))
    : value :=
  match c with
  | [] => PNone
  | (k, (v, _)) :: rest => if k =? key then v else cache_find key rest
  end.

Definition cache_get_value (key : string) : M value :=
  fun s => (s, Ok (cache_find key (cache s))).

(** [frappe.cache().set_value(key, v, expires_in_sec=t)]. *)
Definition cache_set_value (key : string) (v : value) (expires_in_sec : option Z)
    : M unit :=
  fun s => (mkDB (doc s) (error_log s) (request_log s)
                 ((key, (v, expires_in_sec)) :: cache s) (sent s),
            Ok tt).

(** [requests.request(...)]: the request goes out and the carrier answers. *)
Definition requests_request (env : Env) (r : Request) : M Reply :=
  fun s => (mkDB (doc s) (error_log s) (request_log s) (cache s) (sent s ++ [r])%list,
            Ok (http env r)).

(** [frappe.msgprint(...)]: shown to the user, nothing stored. *)
Definition msgprint : M unit := fun s => (s, Ok tt).

(** [try: c except Exception: h]. *)
Definition try_except {A} (c : M A) (h : M A) : M A :=
  fun s => match c s with
           | (s', Ok a) => (s', Ok a)
           | (s', Raise _) => h s'
           end.

(** [headers.update({k: v})]. *)
Fixpoint headers_update (h : list (string * value)) (k : string) (v : value)
    : list (string * value) :=
  match h with
  | [] => [(k, v)]
  | (k', v') :: rest =>
      if k' =? k then (k', v) :: rest else (k', v') :: headers_update rest k v
  end.

Fixpoint header (k : string) (h : list (string * value)) : option value :=
  match h with
  | [] => None
  | (k', v) :: rest => if k' =? k then Some v else header k rest
  end.

(** The [error] that the [make_api_request] of [api.py] and of
    [fedex_integration.py] returns: the decoded body or the traceback (a
    [str]), or the one-element tuple built for an empty body. *)
Inductive ApiError : Type :=
| ErrStr (s : string)
| ErrTuple (s : string).

Definition error_truthy (e : option ApiError) : bool :=
  match e with
  | None => false
  | Some (ErrStr s) => negb (s =? "")
  | Some (ErrTuple _) => true
  end.

(** The error as [json.dumps] sees it (a tuple is written as an array). *)
Definition error_value (e : option ApiError) : value :=
  match e with
  | None => PNone
  | Some (ErrStr s) => PStr s
  | Some (ErrTuple s) => PList [PStr s]
  end.

(** The error as an f-string interpolates it. *)
Definition error_text (e : ApiError) : string :=
  match e with
  | ErrStr s => s
  | ErrTuple s => "('" ++ s ++ "',)"
  end.

(** [frappe._dict(v)], a [dict] whose attributes are its keys: a JSON
    object as it is, and any other value as [dict] builds a mapping from a
    sequence of pairs, or raises. *)
Definition attrs (v : value) : result (list (string * value)) :=
  match v with
  | PDict kv => Ok kv
  | _ =>
      match iter v with
      | Raise e => Raise e
      | Ok items =>
          match dict_of_pairs items [] with
          | Raise e => Raise e
          | Ok m => Ok (string_keys m)
          end
      end
  end.

Definition _dict (v : value) : M (list (string * value)) := lift (attrs v).

(** [data.k] on a [frappe._dict]: [None] for a missing key. *)
Definition attr (kv : list (string * value)) (k : string) : value :=
  match Py.assoc k kv with
  | Some v => v
  | None => PNone
  end.

End Frappe.
Export Frappe.

Declare Scope py_scope.
Delimit Scope py_scope with py.
Notation "x <- c ;; k" := (Frappe.bind c (fun x => k))
  (at level 61, c at next level, right associativity) : py_scope.
Notation "c ;;; k" := (Frappe.bind c (fun _ => k))
  (at level 61, right associativity) : py_scope.
Local Open Scope py_scope.

(* ================================================================== *)
(** ** api.py: UPS *)
(* ================================================================== *)

Module UPS.

(** A row of [status_code_description] in Parcel Service Settings. *)
Record StatusCodeRow : Type := mkRow {
  status_code : value;
  ups_description : value;
  jammy_description : value
}.

(** The fields of Parcel Service Settings that [api.py] reads. *)
Record Settings : Type := mkSettings {
  ups_oauth_url : string;
  ups_account_number : string;
  client_id : string;
  client_secret : string;
  ups_app_name : string;
  locale : string;
  ups_server_url : string;
  track_by_reference_number_url : string;
  track_by_inquiry_number_url : string;
  check_no_of_days_api : Z;
  ref_number_type : string;
  status_code_description : list StatusCodeRow
}.

Definition ACCESS_TOKEN_KEY : string := "ups_api_access_token".

Section WithEnv.

Variable env : Env.
Variable settings : Settings.

(** [make_api_request]; no caller passes [files], so the attachments at
    its end are never made, and every caller passes [log_args]. *)
Definition make_api_request (method url : string)
    (headers : list (string * value)) (json_data : value)
    (params : list (string * string)) (success_codes : list Z)
    (service_name : string) : M (value * option ApiError) :=
  r <- try_except
         (response <- requests_request env
                        (mkRequest method url headers params [] None json_data) ;;
          match response with
          | ConnectionFailed => raise ConnectionError
          | Response code content json =>
              if existsb (Z.eqb code) success_codes then
                match json with
                | Some result => ret (result, None)
                | None => raise JSONDecodeError
                end
              else
                let error :=
                  if negb (content =? "") then ErrStr content
                  else ErrTuple ("status_code: " ++ decimal code) in
                log_error "MFC API failed."
                  ("Status: " ++ decimal code ++ " " ++ nl ++ nl ++ "Url: " ++ url
                   ++ " " ++ nl ++ nl ++ "Error: " ++ error_text error) ;;;
                ret (PDict [], Some error)
          end)
         (ret (PDict [], Some (ErrStr (get_traceback env)))) ;;
  create_request_log service_name
    (if error_truthy (snd r) then "Failed" else "Completed") ;;;
  ret r.

(** [UPSClient.get_auth_token]: the token, or [None] after logging when
    anything in the [try] raised. *)
Definition get_auth_token : M value :=
  try_except
    (response <- requests_request env
                   (mkRequest "POST" (ups_oauth_url settings)
                      [("Content-Type", PStr "application/x-www-form-urlencoded");
                       ("x-merchant-id", PStr (ups_account_number settings))]
                      [] [("grant_type", "client_credentials")]
                      (Some (client_id settings, client_secret settings))
                      PNone) ;;
     match response with
     | ConnectionFailed => raise ConnectionError
     | Response _ _ None => raise JSONDecodeError
     | Response _ _ (Some j) =>
         data <- _dict j ;;
         cache_set_value ACCESS_TOKEN_KEY (attr data "access_token")
           (Some (cint env (attr data "expires_in") - 300)%Z) ;;;
         ret (attr data "access_token")
     end)
    (log_error "UPS OAuth token connection failed." (get_traceback env) ;;;
     ret PNone).

(** [UPSClient()]: the headers of the client, from [__initialize_auth]. *)
Definition UPSClient : M (list (string * value)) :=
  cached <- cache_get_value ACCESS_TOKEN_KEY ;;
  access_token <- (if negb (truthy cached) then get_auth_token else ret cached) ;;
  ret [("Authorization", PStr ("Bearer " ++ format (repr env) access_token))].

(** The loop that fills [code_status_map]. *)
Definition code_status_map : dict :=
  fold_left (fun m status => dict_update m (status_code status)
                                           (jammy_description status))
            (status_code_description settings) [].

(** The loop that finds [parent_jammy_status_code]: the last row whose
    code equals [cint(code)], the empty string when there is none. *)
Definition parent_jammy_status_code (code : value) : value :=
  fold_left (fun acc status =>
               if py_eq (status_code status) (PInt (cint env code))
               then jammy_description status else acc)
            (status_code_description settings) (PStr "").

(** The loop over [packages] that appends the child rows. *)
Fixpoint append_packages (packages : list value) (dn_doc : DeliveryNote)
    : result DeliveryNote :=
  match packages with
  | [] => Ok dn_doc
  | package :: rest =>
      match getitem package "trackingNumber" with
      | Raise e => Raise e
      | Ok tid =>
      match getitem package "currentStatus" with
      | Raise e => Raise e
      | Ok cs =>
      match getitem cs "code" with
      | Raise e => Raise e
      | Ok code =>
      match dict_getitem code_status_map (PInt (cint env code)) with
      | Raise e => Raise e
      | Ok desc =>
          append_packages rest
            (append_custom_tracking_details (mkDetail tid code desc) dn_doc)
      end end end end
  end.

Definition set_data_in_delivery_note (delivery_note : string) (result : value)
    (error : option ApiError) (tracking_method : string) : M unit :=
  dn_doc <- get_doc ;;
  if error_truthy error then
    log_error "UPS Get Details API Key Error"
      (json_dumps env None (error_value error)) ;;;
    save (set_custom_tracking (PStr "ERPNext Exception") dn_doc) ;;;
    msgprint
  else
    track <- lift (getitem result "trackResponse") ;;
    shipment <- lift (getitem track "shipment") ;;
    shipment0 <- lift (getitem0 shipment) ;;
    ks <- lift (keys shipment0) ;;
    if mem "warnings" ks then
      save (set_custom_tracking (PStr "DN Not Found In UPS") dn_doc) ;;;
      warnings <- lift (getitem shipment0 "warnings") ;;
      warning0 <- lift (getitem0 warnings) ;;
      _ <- lift (getitem warning0 "message") ;;
      msgprint
    else
      packages <- lift (getitem shipment0 "package") ;;
      n <- lift (len packages) ;;
      if (0 <? n)%nat then
        if tracking_method =? "By Reference" then
          package0 <- lift (getitem0 packages) ;;
          parent_ups_tracking_id <- lift (getitem package0 "trackingNumber") ;;
          status0 <- lift (getitem package0 "currentStatus") ;;
          parent_ups_tracking_code <- lift (getitem status0 "code") ;;
          dn_doc <- get_doc ;;
          let dn_doc := set_tracking_number parent_ups_tracking_id dn_doc in
          let dn_doc := set_custom_tracking_code parent_ups_tracking_code dn_doc in
          let dn_doc :=
            set_custom_tracking (parent_jammy_status_code parent_ups_tracking_code)
                                dn_doc in
          let dn_doc := set_custom_last_api_call (PStr (now env)) dn_doc in
          l <- lift (iter packages) ;;
          dn_doc <- lift (append_packages l dn_doc) ;;
          save dn_doc ;;;
          msgprint
        else if tracking_method =? "By Tracking ID" then
          dn_doc <- get_doc ;;
          package0 <- lift (getitem0 packages) ;;
          package_activities <- lift (getitem package0 "activity") ;;
          m <- lift (len package_activities) ;;
          if (0 <? m)%nat then
            activity0 <- lift (getitem0 package_activities) ;;
            status <- lift (getitem activity0 "status") ;;
            updated_status_code <- lift (getitem status "statusCode") ;;
            upadated_status_description <-
              lift (dict_getitem code_status_map
                      (PInt (cint env updated_status_code))) ;;
            let dn_doc := set_custom_tracking_code updated_status_code dn_doc in
            let dn_doc := set_custom_tracking upadated_status_description dn_doc in
            let dn_doc := set_custom_last_api_call (PStr (now env)) dn_doc in
            save dn_doc ;;;
            msgprint
          else ret tt
        else ret tt
      else ret tt.

(** The [if]/[elif] of [get_ups_tracking_data] that picks the lookup: the
    endpoint, the query parameters added to [locale], and the
    [tracking_method] handed on to [set_data_in_delivery_note]. *)
Definition lookup (reference_number : string) (delivery_note_doc : DeliveryNote)
    : string * list (string * string) * string :=
  if py_eq (tracking_number delivery_note_doc) PNone then
    (ups_server_url settings ++ track_by_reference_number_url settings
       ++ reference_number,
     [("locale", locale settings);
      ("fromPickUpDate",
       strftime env (add_to_date env (today env) (- check_no_of_days_api settings))
                "%Y%m%d");
      ("toPickUpDate", strftime env (today env) "%Y%m%d");
      ("refNumType", ref_number_type settings)],
     "By Reference")
  else
    (ups_server_url settings ++ track_by_inquiry_number_url settings
       ++ format (repr env) (tracking_number delivery_note_doc),
     [("locale", locale settings);
      ("returnSignature", "false");
      ("returnMilestones", "false");
      ("returnPOD", "false")],
     "By Tracking ID").

Definition get_ups_tracking_data (delivery_note : string) : M unit :=
  headers <- UPSClient ;;
  let headers := headers_update headers "transId" (PStr (uuid4 env)) in
  let headers :=
    headers_update headers "transactionSrc" (PStr (ups_app_name settings)) in
  let reference_number := delivery_note in
  delivery_note_doc <- get_doc ;;
  let '(ENDPOINT_URL, params, tracking_method) :=
    lookup reference_number delivery_note_doc in
  r <- make_api_request "GET" ENDPOINT_URL headers (PDict []) params [200%Z]
         "UPS Tracking Details" ;;
  set_data_in_delivery_note reference_number (fst r) (snd r) tracking_method.

End WithEnv.

End UPS.

(* ================================================================== *)
(** ** fedex_integration.py: FedEx *)
(* ================================================================== *)

Module FedEx.

(** Rows of [tracking_code_description], [error_code_description] and
    [account_number_details] in Parcel Service Settings. *)
Record TrackingCodeRow : Type := mkTrackingCode {
  fedex_status_code : value;
  tracking_jammy_description : value
}.

Record ErrorCodeRow : Type := mkErrorCode {
  fedex_error_code : value;
  error_jammy_description : value
}.

Record AccountNumberRow : Type := mkAccount {
  source_warehouse : value;
  account_number : value
}.

(** The fields of Parcel Service Settings that [fedex_integration.py]
    reads. *)
Record Settings : Type := mkSettings {
  fedex_server_url : string;
  fedex_oauth_token_url : string;
  fedex_client_id : string;
  fedex_client_secret : string;
  x_locale : value;
  account_number_details : list AccountNumberRow;
  fedex_track_by_reference_number_url : string;
  fedex_track_by_tracking_id : string;
  reference_type : value;
  check_for_no_of_days : Z;
  include_detailed_scans_in_response : value;
  include_detailed_scan : value;
  tracking_code_description : list TrackingCodeRow;
  error_code_description : list ErrorCodeRow
}.

Definition ACCESS_TOKEN_KEY : string := "fedex_access_token".

Section WithEnv.

Variable env : Env.
Variable settings : Settings.

(** [FedExIntegration.get_auth_token]. *)
Definition get_auth_token : M value :=
  try_except
    (response <- requests_request env
                   (mkRequest "POST"
                      (fedex_server_url settings ++ fedex_oauth_token_url settings)
                      [("Content-Type", PStr "application/x-www-form-urlencoded")]
                      []
                      [("grant_type", "client_credentials");
                       ("client_id", fedex_client_id settings);
                       ("client_secret", fedex_client_secret settings)]
                      None PNone) ;;
     match response with
     | ConnectionFailed => raise ConnectionError
     | Response _ _ None => raise JSONDecodeError
     | Response _ _ (Some j) =>
         data <- _dict j ;;
         let expire_time := cint env (attr data "expires_in") in
         cache_set_value ACCESS_TOKEN_KEY (attr data "access_token")
           (Some (expire_time - 300)%Z) ;;;
         ret (attr data "access_token")
     end)
    (log_error "FedEx OAuth Token Generation Failed" (get_traceback env) ;;;
     ret PNone).

(** [FedExIntegration()]: the headers of the client. *)
Definition FedExIntegration : M (list (string * value)) :=
  cached <- cache_get_value ACCESS_TOKEN_KEY ;;
  access_token <- (if negb (truthy cached) then get_auth_token else ret cached) ;;
  ret [("Authorization", PStr ("Bearer " ++ format (repr env) access_token))].

(** [make_api_request], called with the default [success_codes] and
    without [params] and [files]. *)
Definition make_api_request (method url : string)
    (headers : list (string * value)) (json_data : value)
    (service_name : string) : M (value * option ApiError) :=
  r <- try_except
         (response <- requests_request env
                        (mkRequest method url headers [] [] None json_data) ;;
          match response with
          | ConnectionFailed => raise ConnectionError
          | Response code content json =>
              if existsb (Z.eqb code) [200; 201]%Z then
                match json with
                | Some result => ret (result, None)
                | None => raise JSONDecodeError
                end
              else
                let error :=
                  if negb (content =? "") then ErrStr content
                  else ErrTuple ("status_code: " ++ decimal code) in
                log_error "FedEx API Failed"
                  ("Status: " ++ decimal code ++ " " ++ nl ++ nl ++ "Url: " ++ url
                   ++ " " ++ nl ++ nl ++ "Error: " ++ error_text error) ;;;
                ret (PDict [], Some error)
          end)
         (ret (PDict [], Some (ErrStr (get_traceback env)))) ;;
  create_request_log service_name
    (if error_truthy (snd r) then "Failed" else "Completed") ;;;
  ret r.

(** [create_map_with_description]: [(success_map, error_map)]. *)
Definition success_map : dict :=
  fold_left (fun m sc => dict_update m (fedex_status_code sc)
                                       (tracking_jammy_description sc))
            (tracking_code_description settings) [].

Definition error_map : dict :=
  fold_left (fun m err => dict_update m (fedex_error_code err)
                                        (error_jammy_description err))
            (error_code_description settings) [].

(** [json.loads(error)]. *)
Definition loads (error : option ApiError) : M value :=
  match error with
  | Some (ErrStr s) =>
      match json_loads env s with
      | Some v => ret v
      | None => raise JSONDecodeError
      end
  | _ => raise TypeError
  end.

(** [track_results.get('trackResults')[0]]. *)
Definition first_track_result (track_results : value) : M value :=
  l <- lift (get track_results "trackResults") ;;
  lift (getitem0 l).

(** [success_map.get(first.get('statusCode')) or
     first.get('latestStatusDetail').get('description')]. *)
Definition status_of (track_results : value) : M value :=
  first <- first_track_result track_results ;;
  status_code <- lift (get first "statusCode") ;;
  mapped <- lift (dict_get success_map status_code) ;;
  if truthy mapped then ret mapped
  else
    first <- first_track_result track_results ;;
    detail <- lift (get first "latestStatusDetail") ;;
    lift (get detail "description").

(** The [if]/[elif] on [custom_last_date_for_processing_status]. *)
Definition processing_rule (document : DeliveryNote) : DeliveryNote :=
  if py_eq (custom_tracking document) (PStr "Processing")
     && py_eq (custom_last_date_for_processing_status document) PNone
  then set_custom_last_date_for_processing_status (PStr (today env)) document
  else if negb (py_eq (custom_tracking document) (PStr "Processing"))
  then set_custom_last_date_for_processing_status PNone document
  else document.

Definition update_delivery_note_with_fedex_details (dn : string)
    (response : value) (error : option ApiError) (api_type : string) : M unit :=
  document <- get_doc ;;
  if error_truthy error then
    error <- loads error ;;
    log_error "FedEx Tracking API Failed"
      ("Delivery Note: " ++ dn ++ " " ++ nl ++ "Error Details: " ++ nl ++ " "
       ++ json_dumps env (Some 4%Z) error ++ nl) ;;;
    save (set_custom_tracking (PStr "Exception") document) ;;;
    msgprint
  else if truthy response then
    output <- lift (get response "output") ;;
    complete <- (if truthy output then
                   output <- lift (getitem response "output") ;;
                   lift (get output "completeTrackResults")
                 else ret output) ;;
    if truthy complete then
      output <- lift (get response "output") ;;
      complete <- lift (get output "completeTrackResults") ;;
      track_results <- lift (getitem0 complete) ;;
      no_detail <- (if truthy track_results then
                      first <- first_track_result track_results ;;
                      ks <- lift (keys first) ;;
                      ret (negb (mem "latestStatusDetail" ks))
                    else ret false) ;;
      if no_detail then
        first <- first_track_result track_results ;;
        err <- lift (get first "error") ;;
        code <- lift (get err "code") ;;
        let document := set_custom_tracking_code code document in
        first <- first_track_result track_results ;;
        err <- lift (get first "error") ;;
        code <- lift (get err "code") ;;
        status <- lift (dict_get error_map code) ;;
        let document := set_custom_tracking status document in
        save document ;;;
        msgprint
      else if truthy track_results && (api_type =? "By Reference") then
        let document := set_custom_last_api_call (PStr (now env)) document in
        tn <- lift (get track_results "trackingNumber") ;;
        let document := set_tracking_number tn document in
        first <- first_track_result track_results ;;
        detail <- lift (get first "latestStatusDetail") ;;
        code <- lift (get detail "code") ;;
        let document := set_custom_tracking_code code document in
        status <- status_of track_results ;;
        let document := set_custom_tracking status document in
        let document := processing_rule document in
        save document ;;;
        msgprint
      else if truthy track_results && (api_type =? "By Tracking ID") then
        let document := set_custom_last_api_call (PStr (now env)) document in
        first <- first_track_result track_results ;;
        detail <- lift (get first "latestStatusDetail") ;;
        code <- lift (get detail "code") ;;
        let document := set_custom_tracking_code code document in
        status <- status_of track_results ;;
        let document := set_custom_tracking status document in
        let document := processing_rule document in
        save document ;;;
        msgprint
      else ret tt
    else ret tt
  else ret tt.

(** The loop that picks [accountNumber]: the first row of the source
    warehouse, [None] when there is none. *)
Fixpoint find_account (rows : list AccountNumberRow) (source : value) : value :=
  match rows with
  | [] => PNone
  | acc :: rest =>
      if py_eq (source_warehouse acc) source then account_number acc
      else find_account rest source
  end.

(** The [if]/[elif] of [fetch_fedex_tracking_details] that picks the
    lookup: [api_type], the endpoint, the headers and the payload. *)
Definition lookup (dn : string) (doc : DeliveryNote)
    (headers : list (string * value)) (accountNumber : value)
    : string * string * list (string * value) * value :=
  if py_eq (tracking_number doc) PNone then
    ("By Reference",
     fedex_server_url settings ++ fedex_track_by_reference_number_url settings,
     headers_update headers "x-customer-transaction-id" (PStr (uuid4 env)),
     PDict [("referencesInformation",
             PDict [("type", or_ (reference_type settings)
                                 (PStr "SHIPPER_REFERENCE"));
                    ("value", PStr dn);
                    ("accountNumber", accountNumber);
                    ("carrierCode", PStr "FXFR");
                    ("shipDateBegin",
                     PStr (strftime env (add_to_date env (posting_date doc) (-2))
                                    "%Y-%m-%d"));
                    ("shipDateEnd",
                     PStr (strftime env
                             (add_to_date env (posting_date doc)
                                          (check_for_no_of_days settings))
                             "%Y-%m-%d"))]);
            ("includeDetailedScans",
             or_ (include_detailed_scans_in_response settings) (PStr "True"))])
  else
    ("By Tracking ID",
     fedex_server_url settings ++ fedex_track_by_tracking_id settings,
     headers,
     PDict [("includeDetailedScans",
             or_ (include_detailed_scan settings) (PStr "True"));
            ("trackingInfo",
             PList [PDict [("trackingNumberInfo",
                            PDict [("trackingNumber", tracking_number doc)])]])]).

Definition fetch_fedex_tracking_details (dn : string) : M unit :=
  headers <- FedExIntegration ;;
  let headers := headers_update headers "content-type" (PStr "application/json") in
  let headers :=
    headers_update headers "x-locale" (or_ (x_locale settings) (PStr "en_US")) in
  doc <- get_doc ;;
  let accountNumber :=
    find_account (account_number_details settings) (set_warehouse doc) in
  let '(api_type, ENDPOINT_URL, headers, payload) :=
    lookup dn doc headers accountNumber in
  r <- make_api_request "POST" ENDPOINT_URL headers payload "FedEx Tracking API" ;;
  update_delivery_note_with_fedex_details dn (fst r) (snd r) api_type.

End WithEnv.

End FedEx.

(* ================================================================== *)
(** ** priority_integration.py: Priority *)
(* ================================================================== *)

Module Priority.

(** Rows of [response_code_details] and [error_code_details] in Parcel
    Service Settings. *)
Record ResponseCodeRow : Type := mkResponseCode {
  success_response_code : value;
  priority_status_description : value;
  success_jammy_description : value
}.

Record ErrorCodeRow : Type := mkErrorCode {
  response_code : value;
  priority_error_code_description : value;
  jammy_description : value
}.

(** The fields of Parcel Service Settings that [priority_integration.py]
    reads. *)
Record Settings : Type := mkSettings {
  priority_api_key : value;
  priority_base_url : string;
  priority_tracking_url : string;
  shipment_identifier_type : value;
  response_code_details : list ResponseCodeRow;
  error_code_details : list ErrorCodeRow
}.

(** The [error] that this module's [make_api_request] returns: the
    traceback (a [str]), or a [dict] with the status code and, when the
    body is not empty, its text. *)
Inductive ApiError : Type :=
| ErrTraceback (s : string)
| ErrDict (content : option string) (code : Z).

Definition error_truthy (e : option ApiError) : bool :=
  match e with
  | None => false
  | Some (ErrTraceback s) => negb (s =? "")
  | Some (ErrDict _ _) => true
  end.

(** [isinstance(error, dict)]. *)
Definition is_dict (e : option ApiError) : bool :=
  match e with
  | Some (ErrDict _ _) => true
  | _ => false
  end.

(** [error.get('code')] on a [dict] error. *)
Definition error_code (e : option ApiError) : value :=
  match e with
  | Some (ErrDict _ code) => PInt code
  | _ => PNone
  end.

Definition error_value (e : option ApiError) : value :=
  match e with
  | None => PNone
  | Some (ErrTraceback s) => PStr s
  | Some (ErrDict (Some content) code) =>
      PDict [("content", PStr content); ("code", PInt code)]
  | Some (ErrDict None code) => PDict [("code", PInt code)]
  end.

Definition ACCESS_TOKEN_KEY : string := "priority_access_token".

Section WithEnv.

Variable env : Env.
Variable settings : Settings.

(** [PriorityIntegration.get_auth_token]: the key of the settings. *)
Definition get_auth_token : M value :=
  try_except
    (let access_token := priority_api_key settings in
     cache_set_value ACCESS_TOKEN_KEY access_token None ;;;
     ret access_token)
    (log_error "Priority OAuth Token Generation Failed" (get_traceback env) ;;;
     ret PNone).

(** [PriorityIntegration()]: the headers of the client. *)
Definition PriorityIntegration : M (list (string * value)) :=
  cached <- cache_get_value ACCESS_TOKEN_KEY ;;
  access_token <- (if negb (truthy cached) then get_auth_token else ret cached) ;;
  ret [("X-API-KEY", PStr (format (repr env) access_token))].

(** [make_api_request], called with the default [success_codes] and
    without [params] and [files]. *)
Definition make_api_request (method url : string)
    (headers : list (string * value)) (json_data : value)
    (service_name : string) : M (value * option ApiError) :=
  r <- try_except
         (response <- requests_request env
                        (mkRequest method url headers [] [] None json_data) ;;
          match response with
          | ConnectionFailed => raise ConnectionError
          | Response code content json =>
              if existsb (Z.eqb code) [200; 201]%Z then
                match json with
                | Some result => ret (result, None)
                | None => raise JSONDecodeError
                end
              else
                let error :=
                  if negb (content =? "") then ErrDict (Some content) code
                  else ErrDict None code in
                log_error "Priority API Failed"
                  ("Status: " ++ decimal code ++ " " ++ nl ++ nl ++ "Url: " ++ url
                   ++ " " ++ nl ++ nl ++ "Error: "
                   ++ repr env (error_value (Some error))) ;;;
                ret (PDict [], Some error)
          end)
         (ret (PDict [], Some (ErrTraceback (get_traceback env)))) ;;
  create_request_log service_name
    (if error_truthy (snd r) then "Failed" else "Completed") ;;;
  ret r.

(** [create_map_with_description]: [(success_map, error_map)]. *)
Definition success_map : dict :=
  fold_left (fun m rc => dict_update m (priority_status_description rc)
                                       (success_jammy_description rc))
            (response_code_details settings) [].

Definition error_map : dict :=
  fold_left (fun m em =>
               dict_update m (response_code em)
                 (PDict [("priority_error_description",
                          priority_error_code_description em);
                         ("jammy_description", jammy_description em)]))
            (error_code_details settings) [].

(** The inner [if] on [custom_incident_first_date]. *)
Definition incident_rule (document : DeliveryNote) : DeliveryNote :=
  if py_eq (custom_incident_first_date document) PNone then
    set_custom_incident_first_date (PStr (today env)) document
  else document.

Definition update_delivery_note_with_priority_details (dn : string)
    (response : value) (error : option ApiError) : M unit :=
  document <- get_doc ;;
  if error_truthy error then
    if is_dict error then
      if py_eq (error_code error) (PInt 401) then
        desc <- lift (dict_get error_map
                        (PStr (format (repr env) (error_code error)))) ;;
        log_error "Priority Tracking API Failed"
          ("Delivery Note: " ++ dn ++ " " ++ nl ++ "Error Details: " ++ nl ++ " "
           ++ json_dumps env (Some 4%Z) desc ++ nl) ;;;
        status <- lift (get desc "jammy_description") ;;
        save (set_custom_tracking status document) ;;;
        msgprint
      else
        desc <- lift (dict_get error_map
                        (PStr (format (repr env) (error_code error)))) ;;
        log_error "Priority Tracking API Failed"
          ("Delivery Note: " ++ dn ++ " " ++ nl ++ "Error Details: " ++ nl ++ " "
           ++ json_dumps env (Some 2%Z) (error_value error) ++ nl) ;;;
        status <- lift (get desc "jammy_description") ;;
        let document := set_custom_tracking status document in
        let document :=
          if py_eq (error_code error) (PInt 500) then incident_rule document
          else document in
        save document ;;;
        msgprint
    else
      log_error "Priority Tracking API Failed"
        ("Delivery Note: " ++ dn ++ " " ++ nl ++ "Error Details: " ++ nl ++ " "
         ++ format (repr env) (error_value error) ++ nl) ;;;
      save (set_custom_tracking (PStr "Exception") document) ;;;
      msgprint
  else if truthy response then
    shipments <- lift (get response "shipments") ;;
    if truthy shipments then
      shipments <- lift (get response "shipments") ;;
      track_results <- lift (getitem0 shipments) ;;
      if truthy track_results then
        tn <- lift (get track_results "id") ;;
        let document := set_tracking_number tn document in
        let document := set_custom_tracking_code (PStr "200") document in
        raw <- lift (get track_results "status") ;;
        status <- lift (dict_get success_map raw) ;;
        let document := set_custom_tracking status document in
        let document := set_custom_last_api_call (PStr (now env)) document in
        save document ;;;
        msgprint
      else ret tt
    else ret tt
  else ret tt.

Definition fetch_priority_tracking_details (dn : string) : M unit :=
  headers <- PriorityIntegration ;;
  let headers := headers_update headers "Content-Type" (PStr "application/json") in
  let ENDPOINT_URL := priority_base_url settings ++ priority_tracking_url settings in
  let json := PDict [("identifierType", shipment_identifier_type settings);
                     ("identifierValue", PStr dn)] in
  r <- make_api_request "POST" ENDPOINT_URL headers json "Priority Tracking API" ;;
  update_delivery_note_with_priority_details dn (fst r) (snd r).

End WithEnv.

End Priority.

(* ================================================================== *)
(** ** Seeded registry of Priority and sample data *)
(* ================================================================== *)

Module Sample.

(** [success_codes] and [error_codes] of [fillup_api_responce_code_details],
    as the rows it appends (the description of the 400 entry, which is not
    read by any property, is shortened). *)
Definition priority_success_codes : list Priority.ResponseCodeRow :=
  [Priority.mkResponseCode (PStr "200") (PStr "Dispatched") (PStr "Processing");
   Priority.mkResponseCode (PStr "200") (PStr "In Transit") (PStr "In Transit");
   Priority.mkResponseCode (PStr "200") (PStr "Delivered") (PStr "Delivered");
   Priority.mkResponseCode (PStr "200") (PStr "Canceled") (PStr "Canceled");
   Priority.mkResponseCode (PStr "200") (PStr "Exception") (PStr "Exception")].

Definition priority_error_codes : list Priority.ErrorCodeRow :=
  [Priority.mkErrorCode (PStr "400")
     (PStr "Error converting value to type IdentifierType.") (PStr "Exception");
   Priority.mkErrorCode (PStr "401")
     (PStr "Authorization Error: Incorrect API Key Send.") (PStr "Exception");
   Priority.mkErrorCode (PStr "500")
     (PStr "No shipments found matching identifier type PurchaseOrder with value DN-5361s1")
     (PStr "DN Not Found")].

Definition priority_settings : Priority.Settings :=
  Priority.mkSettings (PStr "key-1") "https://api.priority1.com"
    "/v2/ltl/shipments/status" (PStr "PURCHASE_ORDER")
    priority_success_codes priority_error_codes.

(** A [cint] for the samples: it agrees with [frappe.utils.cint] on
    integers and on strings of decimal digits, and is [0], the default of
    [cint], on everything else. *)
Fixpoint digits (s : string) (acc : Z) : option Z :=
  match s with
  | EmptyString => Some acc
  | String c rest =>
      let n := Z.of_nat (nat_of_ascii c) in
      if ((48 <=? n) && (n <=? 57))%Z then digits rest (10 * acc + (n - 48))%Z
      else None
  end.

Definition cint0 (v : value) : Z :=
  match v with
  | PInt z => z
  | PBool b => Z.b2z b
  | PStr EmptyString => 0
  | PStr s => match digits s 0 with Some z => z | None => 0 end
  | _ => 0
  end.

(** A few rows of the UPS registry, as [fillup_status_code_data] seeds
    them, read back with integer codes. *)
Definition ups_settings : UPS.Settings :=
  UPS.mkSettings "https://onlinetools.ups.com/security/v1/oauth/token" "A1B2C3"
    "client" "secret" "jammy" "en_US" "https://onlinetools.ups.com"
    "/api/track/v1/reference/details/" "/api/track/v1/details/" 30
    "SmallPackage"
    [UPS.mkRow (PInt 3) (PStr "Shipment Ready for UPS") (PStr "Processing");
     UPS.mkRow (PInt 5) (PStr "On the Way") (PStr "In Transit");
     UPS.mkRow (PInt 11) (PStr "Delivered") (PStr "Delivered")].

Definition ups_package (tid code : string) : value :=
  PDict [("trackingNumber", PStr tid);
         ("currentStatus", PDict [("description", PStr "-"); ("code", PStr code)])].

(** A UPS answer to a by-reference lookup, with the given packages. *)
Definition ups_answer (packages : list value) : value :=
  PDict [("trackResponse",
          PDict [("shipment",
                  PList [PDict [("inquiryNumber", PStr "DN-0001");
                                ("package", PList packages)]])])].


(** A FedEx answer with one track result. *)
Definition fedex_answer (tn code status_code description : value) : value :=
  PDict [("transactionId", PStr "624deea6-b709-470c-8c39-4b5511281492");
         ("output",
          PDict [("completeTrackResults",
                  PList [PDict [("trackingNumber", tn);
                                ("trackResults",
                                 PList [PDict [("statusCode", status_code);
                                               ("latestStatusDetail",
                                                PDict [("code", code);
                                                       ("description",
                                                        description)])]])]])])].

(** A few rows of the FedEx registry, as
    [fill_status_code_details_in_parcel_service_settings] seeds them. *)
Definition fedex_settings : FedEx.Settings :=
  FedEx.mkSettings "https://apis.fedex.com" "/oauth/token" "client" "secret"
    PNone [FedEx.mkAccount (PStr "Stores - J") (PStr "740561073")]
    "/track/v1/referencenumbers" "/track/v1/trackingnumbers" PNone 5 PNone PNone
    [FedEx.mkTrackingCode (PStr "OC") (PStr "Processing");
     FedEx.mkTrackingCode (PStr "IT") (PStr "In Transit");
     FedEx.mkTrackingCode (PStr "DL") (PStr "Delivered")]
    [FedEx.mkErrorCode (PStr "TRACKING.REFERENCENUMBER.NOTFOUND")
       (PStr "Exception")].

(** A Priority answer with one shipment. *)
Definition priority_answer (id status : value) : value :=
  PDict [("shipments", PList [PDict [("id", id); ("status", status)]])].

(** A carrier that never answers, and a clock. *)

Definition env0 : Env :=
  mkEnv cint0 "2024-05-02" "2024-05-02 10:15:00.000000"
        (fun d _ => d) (fun d _ => d) "0f8fad5b-d9cb-469f-a165-70867728950e"
        "Traceback (most recent call last): ..."
        (fun s => if s =? "{}" then Some (PDict []) else None)
        (fun _ _ => "") (fun _ => "")
        (fun _ => ConnectionFailed).

(** A carrier whose token endpoint cannot be reached and whose tracking
    endpoint rejects the request. *)
Definition env1 : Env :=
  mkEnv cint0 "2024-05-02" "2024-05-02 10:15:00.000000"
        (fun d _ => d) (fun d _ => d) "0f8fad5b-d9cb-469f-a165-70867728950e"
        "Traceback (most recent call last): ..."
        (fun s => if s =? "{}" then Some (PDict []) else None)
        (fun _ _ => "") (fun _ => "")
        (fun r =>
           if req_method r =? "POST" then ConnectionFailed
           else Response 401 "Invalid Authentication Information" None).

(** A submitted Delivery Note that has not been polled yet. *)
Definition dn0 : DeliveryNote :=
  mkDN "DN-0001" "2024-05-01" (PStr "Stores - J") PNone PNone PNone PNone PNone
       PNone [].

Definition db0 : DB := mkDB dn0 [] [] [] [].

End Sample.

(* ================================================================== *)
(** ** Vocabulary of the properties *)
(* ================================================================== *)

(** The mode that a Delivery Note calls for when a poll starts. *)
Definition mode_at_start (d : DeliveryNote) : string :=
  if py_eq (tracking_number d) PNone then "By Reference" else "By Tracking ID".

(** A FedEx answer that carries shipment data: the first complete track
    result [track], its first track result [first] and the latest status
    detail [detail] of that one. *)
Definition fedex_tracks (response : value)
    (track first detail : list (string * value)) : Prop :=
  exists kv okv rest1 rest2,
    response = PDict kv
    /\ Py.assoc "output" kv = Some (PDict okv)
    /\ Py.assoc "completeTrackResults" okv = Some (PList (PDict track :: rest1))
    /\ Py.assoc "trackResults" track = Some (PList (PDict first :: rest2))
    /\ Py.assoc "latestStatusDetail" first = Some (PDict detail).

(** A UPS answer that carries shipment data: no warnings, and a list of
    packages whose first one has a tracking number and a current status
    code. *)
Definition ups_tracks (result : value) (packages : list value)
    (package0 : list (string * value)) (tid code : value) : Prop :=
  exists kv tkv skv rest ckv tail,
    result = PDict kv
    /\ Py.assoc "trackResponse" kv = Some (PDict tkv)
    /\ Py.assoc "shipment" tkv = Some (PList (PDict skv :: rest))
    /\ Py.assoc "warnings" skv = None
    /\ Py.assoc "package" skv = Some (PList packages)
    /\ packages = PDict package0 :: tail
    /\ Py.assoc "trackingNumber" package0 = Some tid
    /\ Py.assoc "currentStatus" package0 = Some (PDict ckv)
    /\ Py.assoc "code" ckv = Some code.


(** A Priority answer that carries shipment data: a first shipment that is
    not empty. *)
Definition priority_tracks (response : value) (shipment : list (string * value))
    : Prop :=
  exists kv rest,
    response = PDict kv
    /\ Py.assoc "shipments" kv = Some (PList (PDict shipment :: rest))
    /\ shipment <> [].

(** The status that the FedEx normaliser derives from the first track
    result: the registry entry of its [statusCode], or else the description
    of its latest status detail. *)
Definition fedex_status (fs : FedEx.Settings)
    (first detail : list (string * value)) : value :=
  or_ (match dict_find (FedEx.success_map fs) (attr first "statusCode") with
       | Some v => v
       | None => PNone
       end)
      (attr detail "description").

(** The document that a FedEx poll with shipment data saves. *)
Definition fedex_saved (env : Env) (fs : FedEx.Settings) (api_type : string)
    (track first detail : list (string * value)) (d : DeliveryNote)
    : DeliveryNote :=
  let d := set_custom_last_api_call (PStr (now env)) d in
  let d := if api_type =? "By Reference"
           then set_tracking_number (attr track "trackingNumber") d else d in
  let d := set_custom_tracking_code (attr detail "code") d in
  let d := set_custom_tracking (fedex_status fs first detail) d in
  FedEx.processing_rule env d.

(** What a call of [update_delivery_note_with_fedex_details] can do to the
    stored Delivery Note: nothing, or one of its four saves.  [failed] tells
    whether the call was given a transport error. *)
Inductive fedex_effect (env : Env) (api_type : string) (failed : bool)
    : (DeliveryNote -> DeliveryNote) -> Prop :=
| fedex_nothing :
    fedex_effect env api_type failed (fun d => d)
| fedex_exception :
    failed = true ->
    fedex_effect env api_type failed
      (fun d => set_custom_tracking (PStr "Exception") d)
| fedex_carrier_error (code status : value) :
    failed = false ->
    fedex_effect env api_type failed
      (fun d => set_custom_tracking status (set_custom_tracking_code code d))
| fedex_by_reference (tn code status : value) :
    failed = false ->
    (api_type =? "By Reference") = true ->
    fedex_effect env api_type failed
      (fun d =>
         FedEx.processing_rule env
           (set_custom_tracking status
              (set_custom_tracking_code code
                 (set_tracking_number tn
                    (set_custom_last_api_call (PStr (now env)) d)))))
| fedex_by_tracking_id (code status : value) :
    failed = false ->
    (api_type =? "By Tracking ID") = true ->
    fedex_effect env api_type failed
      (fun d =>
         FedEx.processing_rule env
           (set_custom_tracking status
              (set_custom_tracking_code code
                 (set_custom_last_api_call (PStr (now env)) d)))).

(** Two runs of the same call, from two stored documents, have the same
    effect, one of those that [P] lists. *)
Definition same_effect (P : (DeliveryNote -> DeliveryNote) -> Prop)
    (d1 d1' d2 d2' : DeliveryNote) : Prop :=
  exists g, P g /\ d1' = g d1 /\ d2' = g d2.

(** What a call of [update_delivery_note_with_priority_details] can do
    to the stored Delivery Note. *)
Inductive priority_effect (env : Env) (failed : bool)
    : (DeliveryNote -> DeliveryNote) -> Prop :=
| priority_nothing :
    priority_effect env failed (fun d => d)
| priority_exception :
    failed = true ->
    priority_effect env failed
      (fun d => set_custom_tracking (PStr "Exception") d)
| priority_error_status (status : value) :
    failed = true ->
    priority_effect env failed (fun d => set_custom_tracking status d)
| priority_incident (status : value) :
    failed = true ->
    priority_effect env failed
      (fun d => Priority.incident_rule env (set_custom_tracking status d))
| priority_shipment (tn status : value) :
    failed = false ->
    priority_effect env failed
      (fun d =>
         set_custom_last_api_call (PStr (now env))
           (set_custom_tracking status
              (set_custom_tracking_code (PStr "200")
                 (set_tracking_number tn d)))).

(** The child rows that the by-reference loop of UPS appends, when every
    package has its fields and a registered status code. *)
Fixpoint package_rows (env : Env) (st : UPS.Settings) (packages : list value)
    : result (list TrackingDetail) :=
  match packages with
  | [] => Ok []
  | package :: rest =>
      match getitem package "trackingNumber" with
      | Raise e => Raise e
      | Ok tid =>
      match getitem package "currentStatus" with
      | Raise e => Raise e
      | Ok cs =>
      match getitem cs "code" with
      | Raise e => Raise e
      | Ok code =>
      match dict_getitem (UPS.code_status_map st) (PInt (cint env code)) with
      | Raise e => Raise e
      | Ok desc =>
          match package_rows env st rest with
          | Raise e => Raise e
          | Ok rows => Ok (mkDetail tid code desc :: rows)
          end
      end end end end
  end.

Definition add_rows (rows : list TrackingDetail) (d : DeliveryNote)
    : DeliveryNote :=
  fold_left (fun d r => append_custom_tracking_details r d) rows d.

(** What a call of [set_data_in_delivery_note] can do to the stored
    Delivery Note. *)
Inductive ups_effect (env : Env) (tracking_method : string) (failed : bool)
    : (DeliveryNote -> DeliveryNote) -> Prop :=
| ups_nothing :
    ups_effect env tracking_method failed (fun d => d)
| ups_exception :
    failed = true ->
    ups_effect env tracking_method failed
      (fun d => set_custom_tracking (PStr "ERPNext Exception") d)
| ups_not_found :
    failed = false ->
    ups_effect env tracking_method failed
      (fun d => set_custom_tracking (PStr "DN Not Found In UPS") d)
| ups_by_reference (tid code status : value) (rows : list TrackingDetail) :
    failed = false ->
    (tracking_method =? "By Reference") = true ->
    ups_effect env tracking_method failed
      (fun d =>
         add_rows rows
           (set_custom_last_api_call (PStr (now env))
              (set_custom_tracking status
                 (set_custom_tracking_code code
                    (set_tracking_number tid d)))))
| ups_by_tracking_id (code status : value) :
    failed = false ->
    (tracking_method =? "By Tracking ID") = true ->
    ups_effect env tracking_method failed
      (fun d =>
         set_custom_last_api_call (PStr (now env))
           (set_custom_tracking status (set_custom_tracking_code code d))).


(** A UPS answer to a lookup by tracking id: the first package has
    activities, the first of which has a status code. *)
Definition ups_activity (result : value) (code : value) : Prop :=
  exists kv tkv skv rest pkv ptail akv atail stkv,
    result = PDict kv
    /\ Py.assoc "trackResponse" kv = Some (PDict tkv)
    /\ Py.assoc "shipment" tkv = Some (PList (PDict skv :: rest))
    /\ Py.assoc "warnings" skv = None
    /\ Py.assoc "package" skv = Some (PList (PDict pkv :: ptail))
    /\ Py.assoc "activity" pkv = Some (PList (PDict akv :: atail))
    /\ Py.assoc "status" akv = Some (PDict stkv)
    /\ Py.assoc "statusCode" stkv = Some code.

(** [m.get(k)] for a key that can be hashed. *)
Definition lookup_or_none (m : dict) (k : value) : value :=
  match dict_find m k with
  | Some v => v
  | None => PNone
  end.

(** The stored state with another Delivery Note in it. *)
Definition with_doc (d : DeliveryNote) (s : DB) : DB :=
  mkDB d (error_log s) (request_log s) (cache s) (sent s).


Definition ups_tracking_request (env : Env) (us : UPS.Settings) (dn : string)
    (d : DeliveryNote) (token : value) : Request :=
  mkRequest "GET" (fst (fst (UPS.lookup env us dn d)))
    [("Authorization", PStr ("Bearer " ++ format (repr env) token));
     ("transId", PStr (uuid4 env));
     ("transactionSrc", PStr (UPS.ups_app_name us))]
    (snd (fst (UPS.lookup env us dn d))) [] None (PDict []).

(** The same two requests of FedEx. *)
Definition fedex_oauth_request (fs : FedEx.Settings) : Request :=
  mkRequest "POST" (FedEx.fedex_server_url fs ++ FedEx.fedex_oauth_token_url fs)
    [("Content-Type", PStr "application/x-www-form-urlencoded")]
    []
    [("grant_type", "client_credentials");
     ("client_id", FedEx.fedex_client_id fs);
     ("client_secret", FedEx.fedex_client_secret fs)]
    None PNone.

Definition fedex_tracking_request (env : Env) (fs : FedEx.Settings) (dn : string)
    (d : DeliveryNote) (token : value) : Request :=
  let l :=
    FedEx.lookup env fs dn d
      [("Authorization", PStr ("Bearer " ++ format (repr env) token));
       ("content-type", PStr "application/json");
       ("x-locale", or_ (FedEx.x_locale fs) (PStr "en_US"))]
      (FedEx.find_account (FedEx.account_number_details fs) (set_warehouse d)) in
  mkRequest "POST" (snd (fst (fst l))) (snd (fst l)) [] [] None (snd l).

(** The fields that the error branches of Priority leave alone. *)
Definition same_tracking_data (d d' : DeliveryNote) : Prop :=
  tracking_number d' = tracking_number d
  /\ custom_tracking_code d' = custom_tracking_code d
  /\ custom_last_api_call d' = custom_last_api_call d
  /\ custom_last_date_for_processing_status d'
     = custom_last_date_for_processing_status d
  /\ custom_tracking_details d' = custom_tracking_details d.

(* ================================================================== *)
(** ** Vocabulary of the further properties *)
(* ================================================================== *)

(** Rows of the FedEx registry with the codes that
    [fill_status_code_details_in_parcel_service_settings] seeds twice, in
    the order in which it seeds them. *)
Definition fedex_repeated_codes : list FedEx.TrackingCodeRow :=
  [FedEx.mkTrackingCode (PStr "CA") (PStr "Cancelled");
   FedEx.mkTrackingCode (PStr "EA") (PStr "In Transit");
   FedEx.mkTrackingCode (PStr "RC") (PStr "In Transit");
   FedEx.mkTrackingCode (PStr "SP") (PStr "Split In Transit");
   FedEx.mkTrackingCode (PStr "EA") (PStr "In Transit");
   FedEx.mkTrackingCode (PStr "SP") (PStr "Split In Tranist");
   FedEx.mkTrackingCode (PStr "CA") (PStr "Carrier");
   FedEx.mkTrackingCode (PStr "RC") (PStr "Recipient");
   FedEx.mkTrackingCode (PStr "SP") (PStr "Split In Transit")].

Definition fedex_repeated_settings : FedEx.Settings :=
  FedEx.mkSettings "https://apis.fedex.com" "/oauth/token" "client" "secret"
    PNone [] "/track/v1/referencenumbers" "/track/v1/trackingnumbers" PNone 5
    PNone PNone fedex_repeated_codes [].

(** A UPS answer whose first shipment has no warnings and an empty list of
    packages. *)
Definition ups_no_packages (result : value) : Prop :=
  exists kv tkv skv rest,
    result = PDict kv
    /\ Py.assoc "trackResponse" kv = Some (PDict tkv)
    /\ Py.assoc "shipment" tkv = Some (PList (PDict skv :: rest))
    /\ Py.assoc "warnings" skv = None
    /\ Py.assoc "package" skv = Some (PList []).

(** A UPS answer whose first package has an empty list of activities. *)
Definition ups_no_activity (result : value) : Prop :=
  exists kv tkv skv rest pkv ptail,
    result = PDict kv
    /\ Py.assoc "trackResponse" kv = Some (PDict tkv)
    /\ Py.assoc "shipment" tkv = Some (PList (PDict skv :: rest))
    /\ Py.assoc "warnings" skv = None
    /\ Py.assoc "package" skv = Some (PList (PDict pkv :: ptail))
    /\ Py.assoc "activity" pkv = Some (PList []).

(** What a call of [make_api_request] leaves behind, for the request [q]
    it was asked to send: it returns a pair, never raises, sends [q] and
    nothing else, writes one Integration Request, and has an error exactly
    when the answer is not a JSON body under one of the success codes. *)
Definition request_outcome {E : Type} (truthy_ : option E -> bool) (env : Env)
    (codes : list Z) (service : string) (q : Request) (s : DB)
    (r : DB * result (value * option E)) : Prop :=
  exists result error,
    snd r = Ok (result, error)
    /\ doc (fst r) = doc s
    /\ cache (fst r) = cache s
    /\ sent (fst r) = (sent s ++ [q])%list
    /\ request_log (fst r)
       = (request_log s
          ++ [(service, if truthy_ error then "Failed" else "Completed")])%list
    /\ (error = None <->
        exists code content,
          http env q = Response code content (Some result)
          /\ existsb (Z.eqb code) codes = true)
    /\ (error <> None -> result = PDict [])
    /\ ((exists code content json,
           http env q = Response code content json
           /\ existsb (Z.eqb code) codes = false) ->
        exists entry, error_log (fst r) = (error_log s ++ [entry])%list)
    /\ ((forall code content json,
           http env q = Response code content json ->
           existsb (Z.eqb code) codes = true) ->
        error_log (fst r) = error_log s).

(** The tracking request of Priority, with a given key. *)
Definition priority_tracking_request (env : Env) (ps : Priority.Settings)
    (dn : string) (token : value) : Request :=
  mkRequest "POST"
    (Priority.priority_base_url ps ++ Priority.priority_tracking_url ps)
    [("X-API-KEY", PStr (format (repr env) token));
     ("Content-Type", PStr "application/json")]
    [] [] None
    (PDict [("identifierType", Priority.shipment_identifier_type ps);
            ("identifierValue", PStr dn)]).

(** The stored state after a token was put in the cache. *)
Definition with_token (key : string) (token : value) (lifetime : option Z)
    (q : list Request) (s : DB) : DB :=
  mkDB (doc s) (error_log s) (request_log s)
       ((key, (token, lifetime)) :: cache s) (sent s ++ q)%list.


(** [fillup_api_responce_code_details] of [priority_integration.py]: the
    two tables it seeds and the settings document it saves. *)
Module PrioritySeed.

(** The double quote and the backslash of the 400 description. *)
Definition dq : string := String (ascii_of_nat 34) "".
Definition bs : string := String (ascii_of_nat 92) "".

Definition success_codes : list Priority.ResponseCodeRow :=
  [Priority.mkResponseCode (PStr "200") (PStr "Dispatched") (PStr "Processing");
   Priority.mkResponseCode (PStr "200") (PStr "In Transit") (PStr "In Transit");
   Priority.mkResponseCode (PStr "200") (PStr "Delivered") (PStr "Delivered");
   Priority.mkResponseCode (PStr "200") (PStr "Canceled") (PStr "Canceled");
   Priority.mkResponseCode (PStr "200") (PStr "Exception") (PStr "Exception")].

Definition error_codes : list Priority.ErrorCodeRow :=
  [Priority.mkErrorCode (PStr "400")
     (PStr ("Error converting value " ++ bs ++ dq ++ "SALES_aORDER" ++ bs ++ dq
            ++ " to type 'Priority1.API.Areas.LTL.Models.V2.IdentifierType'."
            ++ " Path 'identifierType', line 2, position 34."))
     (PStr "Exception");
   Priority.mkErrorCode (PStr "401")
     (PStr "Authorization Error: Incorrect API Key Send.") (PStr "Exception");
   Priority.mkErrorCode (PStr "500")
     (PStr "No shipments found matching identifier type PurchaseOrder with value DN-5361s1")
     (PStr "DN Not Found")].

(** [settings.append('response_code_details', {...})] for each code. *)
Definition append_response_codes (rows : list Priority.ResponseCodeRow)
    (settings : Priority.Settings) : Priority.Settings :=
  Priority.mkSettings (Priority.priority_api_key settings)
    (Priority.priority_base_url settings)
    (Priority.priority_tracking_url settings)
    (Priority.shipment_identifier_type settings)
    (Priority.response_code_details settings ++ rows)%list
    (Priority.error_code_details settings).

(** [settings.append('error_code_details', {...})] for each code. *)
Definition append_error_codes (rows : list Priority.ErrorCodeRow)
    (settings : Priority.Settings) : Priority.Settings :=
  Priority.mkSettings (Priority.priority_api_key settings)
    (Priority.priority_base_url settings)
    (Priority.priority_tracking_url settings)
    (Priority.shipment_identifier_type settings)
    (Priority.response_code_details settings)
    (Priority.error_code_details settings ++ rows)%list.

(** The settings document that the function saves. *)
Definition fillup_api_responce_code_details (settings : Priority.Settings)
    : Priority.Settings :=
  let settings :=
    match Priority.response_code_details settings with
    | [] => append_response_codes success_codes settings
    | _ => settings
    end in
  let settings :=
    match Priority.error_code_details settings with
    | [] => append_error_codes error_codes settings
    | _ => settings
    end in
  settings.

End PrioritySeed.

(** The three schedulers: [update_dn_by_schedular] of [api.py] and
    [check_and_update_eligible_delivery_note_by_scheduler] of
    [fedex_integration.py] and of [priority_integration.py].  They work on
    all the Delivery Notes of the site; what the database decides in their
    queries on columns and with comparisons that the modules do not
    themselves compute is taken from outside. *)
Module Scheduler.

(** What the queries leave to the database. *)
Record Database : Type := mkDatabase {
  (* posting_date BETWEEN 'lo' AND 'hi' *)
  between : string -> string -> string -> bool;
  (* ship_via LIKE pattern AND docstatus = 1, on the row with that name:
     two columns that no poll writes *)
  submitted_via : string -> string -> bool;
  (* custom_tracking = 'text', under the collation of the column *)
  sql_eq : value -> string -> bool;
  (* DATE_ADD(custom_incident_first_date, INTERVAL 6 DAY) > CURDATE() *)
  incident_open : value -> bool
}.

(** The site: the names of its Delivery Notes in the order in which a
    query returns them, the stored note of each name, and the logs, cache
    and requests that all polls share. *)
Record Site : Type := mkSite {
  names : list string;
  note : string -> DeliveryNote;
  site_error_log : list (string * string);
  site_request_log : list (string * string);
  site_cache : list (string * (value * option Z));
  site_sent : list Request
}.

(** The stored state that a poll of the note [dn] works on, and the site
    after that poll. *)
Definition at_note (dn : string) (st : Site) : DB :=
  mkDB (note st dn) (site_error_log st) (site_request_log st) (site_cache st)
       (site_sent st).

Definition after_poll (dn : string) (s : DB) (st : Site) : Site :=
  mkSite (names st) (fun n => if n =? dn then doc s else note st n)
         (error_log s) (request_log s) (cache s) (sent s).

Definition poll_note (poll : string -> M unit) (dn : string) (st : Site)
    : Site * result unit :=
  let (s, r) := poll dn (at_note dn st) in (after_poll dn s st, r).

(** [for dn in eligible: poll(dn['name'])]: an exception ends the loop. *)
Fixpoint for_each (poll : string -> M unit) (dns : list string) (st : Site)
    : Site * result unit :=
  match dns with
  | [] => (st, Ok tt)
  | dn :: rest =>
      match poll_note poll dn st with
      | (st', Ok _) => for_each poll rest st'
      | (st', Raise e) => (st', Raise e)
      end
  end.

Section WithEnv.

Variable env : Env.
Variable db : Database.

(** [custom_tracking IS NULL]. *)
Definition is_null (v : value) : bool := py_eq v PNone.

(** The WHERE clause of the UPS query.  The number of days that each
    scheduler reads from Parcel Service Settings is given as the integer
    that [int] makes of it. *)
Definition ups_where (end_ start : string) (dn : string) (d : DeliveryNote)
    : bool :=
  between db (posting_date d) end_ start
  && submitted_via db "%UPS%" dn
  && (sql_eq db (custom_tracking d) "Processing"
      || sql_eq db (custom_tracking d) "In Transit"
      || sql_eq db (custom_tracking d) "DN Not Found In UPS"
      || is_null (custom_tracking d)).

Definition update_dn_by_schedular (us : UPS.Settings)
    (check_no_of_days_scheduler : Z) (st : Site) : Site * result unit :=
  let start := today env in
  let end_ := add_to_date env (today env) (- check_no_of_days_scheduler) in
  let eligible_dns :=
    filter (fun dn => ups_where end_ start dn (note st dn)) (names st) in
  if (0 <? List.length eligible_dns)%nat
  then for_each (UPS.get_ups_tracking_data env us) eligible_dns st
  else (st, Ok tt).

(** The WHERE clause of the FedEx query. *)
Definition fedex_where (end_date start_date : string) (dn : string)
    (d : DeliveryNote) : bool :=
  between db (posting_date d) end_date start_date
  && submitted_via db "%FED%" dn
  && (sql_eq db (custom_tracking d) "Processing"
      || sql_eq db (custom_tracking d) "In Transit"
      || sql_eq db (custom_tracking d) "In Transit, Delayed"
      || sql_eq db (custom_tracking d) "Split In Transit"
      || sql_eq db (custom_tracking d) "Exception"
      || is_null (custom_tracking d)).

Definition fedex_scheduler (fs : FedEx.Settings)
    (check_past_no_of_days_for_scheduler : Z) (st : Site) : Site * result unit :=
  let start_date := today env in
  let end_date :=
    add_to_date env start_date (- check_past_no_of_days_for_scheduler) in
  let eligible_delivery_notes :=
    filter (fun dn => fedex_where end_date start_date dn (note st dn)) (names st) in
  if (0 <? List.length eligible_delivery_notes)%nat
  then for_each (FedEx.fetch_fedex_tracking_details env fs)
         eligible_delivery_notes st
  else (st, Ok tt).

(** The WHERE clauses of the two Priority queries. *)
Definition priority_where (end_date start_date : string) (dn : string)
    (d : DeliveryNote) : bool :=
  between db (posting_date d) end_date start_date
  && submitted_via db "PRIORITY%" dn
  && (sql_eq db (custom_tracking d) "Processing"
      || sql_eq db (custom_tracking d) "In Transit"
      || sql_eq db (custom_tracking d) "Exception"
      || is_null (custom_tracking d)).

Definition priority_where_exceptional (end_date start_date : string)
    (dn : string) (d : DeliveryNote) : bool :=
  between db (posting_date d) end_date start_date
  && submitted_via db "PRIORITY%" dn
  && (sql_eq db (custom_tracking d) "DN Not Found"
      && incident_open db (custom_incident_first_date d)).

Definition priority_scheduler (ps : Priority.Settings)
    (past_no_of_days_for_scheduler : Z) (st : Site) : Site * result unit :=
  let start_date := today env in
  let end_date := add_to_date env start_date (- past_no_of_days_for_scheduler) in
  let eligible_delivery_notes :=
    filter (fun dn => priority_where end_date start_date dn (note st dn))
           (names st) in
  let exceptional_delivery_notes :=
    filter (fun dn => priority_where_exceptional end_date start_date dn
                        (note st dn))
           (names st) in
  match (if (0 <? List.length eligible_delivery_notes)%nat
         then for_each (Priority.fetch_priority_tracking_details env ps)
                eligible_delivery_notes st
         else (st, Ok tt)) with
  | (st', Raise e) => (st', Raise e)
  | (st', Ok _) =>
      if (0 <? List.length exceptional_delivery_notes)%nat
      then for_each (Priority.fetch_priority_tracking_details env ps)
             exceptional_delivery_notes st'
      else (st', Ok tt)
  end.

End WithEnv.

End Scheduler.

(** A database that compares texts exactly, for the samples. *)
Definition exact_database : Scheduler.Database :=
  Scheduler.mkDatabase (fun _ _ _ => true) (fun _ _ => true)
    (fun v text => py_eq v (PStr text)) (fun _ => true).

(** A site with the two Delivery Notes of the samples. *)
Definition site0 : Scheduler.Site :=
  Scheduler.mkSite ["DN-0001"; "DN-0002"]
    (fun n => if n =? "DN-0002"
              then mkDN "DN-0002" "2024-05-01" (PStr "Stores - J") PNone
                        (PStr "Delivered") PNone PNone PNone PNone []
              else Sample.dn0)
    [] [] [] [].










(** What the second of two applications of an outcome may add to the
    first: nothing, or a later time of the last call on a record that the
    first application had stamped. *)
Definition restamped (env env' : Env) (once twice : DeliveryNote) : Prop :=
  twice = once
  \/ (custom_last_api_call once = PStr (now env)
      /\ twice = set_custom_last_api_call (PStr (now env')) once).

(** The site of the samples on the next day. *)
Definition env0_later : Env :=
  mkEnv Sample.cint0 "2024-05-03" "2024-05-03 08:30:00.000000"
        (fun d _ => d) (fun d _ => d) "7c9e6679-7425-40de-944b-e07fc1f90ae7"
        "Traceback (most recent call last): ..."
        (fun s => if s =? "{}" then Some (PDict []) else None)
        (fun _ _ => "") (fun _ => "")
        (fun _ => ConnectionFailed).

(* ================================================================== *)
(** ** Properties *)
(* ================================================================== *)

(** Running the monad: the steps that a proof unfolds. *)
Ltac run :=
  unfold Frappe.bind, Frappe.lift, Frappe.ret, Frappe.raise, Frappe.get_doc,
         Frappe.save, Frappe.log_error, Frappe.msgprint, Frappe.try_except,
         Frappe.create_request_log, Frappe.requests_request,
         Frappe.cache_get_value, Frappe.cache_set_value; cbn [fst snd doc].

(** The operation that a term evaluates first: the scrutinee at the head
    of its nest of matches. *)
Ltac head t :=
  lazymatch t with
  | fst ?x => head x
  | snd ?x => head x
  | doc ?x => head x
  | sent ?x => head x
  | cache ?x => head x
  | error_log ?x => head x
  | andb ?a _ => head a
  | negb ?a => head a
  | match ?x with Ok _ => _ | Raise _ => _ end => head x
  | match ?x with (_, _) => _ end => head x
  | match ?x with Some _ => _ | None => _ end => head x
  | match ?x with ErrStr _ => _ | ErrTuple _ => _ end => head x
  | match ?x with Priority.ErrTraceback _ => _ | Priority.ErrDict _ _ => _ end =>
      head x
  | (if ?b then _ else _) => head b
  | (match ?x with Ok _ => _ | Raise _ => _ end) _ => head x
  | (match ?x with (_, _) => _ end) _ => head x
  | (match ?x with Some _ => _ | None => _ end) _ => head x
  | (match ?x with ErrStr _ => _ | ErrTuple _ => _ end) _ => head x
  | (match ?x with Priority.ErrTraceback _ => _ | Priority.ErrDict _ _ => _ end) _ =>
      head x
  | (if ?b then _ else _) _ => head b
  | _ => t
  end.

Ltac simpl_run :=
  cbn [fst snd doc sent cache error_log request_log andb negb] in *.

(** Case analysis on the next Python operation of a term. *)
Ltac step_in t :=
  let h := head t in
  lazymatch h with
  | t => fail "nothing left to run"
  | _ => destruct h eqn:?; simpl_run
  end.

(** Run the left-hand side of an equation to its end. *)
Ltac run_left :=
  repeat match goal with
         | |- ?l = _ => step_in l
         end.


(** A field compared with [None] is absent exactly when it is [PNone]. *)
Lemma py_eq_none (v : value) : py_eq v PNone = true <-> v = PNone.
Proof. destruct v; cbn; split; intro H; try discriminate; reflexivity. Qed.

Lemma py_eq_none_false (v : value) : py_eq v PNone = false <-> v <> PNone.
Proof.
  destruct v; cbn; split; intro H; try discriminate; try congruence;
    reflexivity.
Qed.




Lemma ups_lookup_mode (env : Env) (st : UPS.Settings) (dn : string)
    (d : DeliveryNote) :
  snd (UPS.lookup env st dn d) = mode_at_start d.
Proof.
  unfold UPS.lookup, mode_at_start.
  destruct (py_eq (tracking_number d) PNone); reflexivity.
Qed.

Lemma fedex_lookup_mode (env : Env) (st : FedEx.Settings) (dn : string)
    (d : DeliveryNote) (h : list (string * value)) (acc : value) :
  fst (fst (fst (FedEx.lookup env st dn d h acc))) = mode_at_start d.
Proof.
  unfold FedEx.lookup, mode_at_start.
  destruct (py_eq (tracking_number d) PNone); reflexivity.
Qed.


Lemma ups_set_data_sent (env : Env) (st : UPS.Settings) (dn : string)
    (result : value) (error : option ApiError) (mode : string) (s : DB) :
  sent (fst (UPS.set_data_in_delivery_note env st dn result error mode s))
  = sent s.
Proof.
  unfold UPS.set_data_in_delivery_note. run.
  run_left; reflexivity.
Qed.

Lemma ups_make_api_request_effect (env : Env) (method url : string)
    (headers : list (string * value)) (json_data : value)
    (params : list (string * string)) (codes : list Z) (service : string)
    (s : DB) :
  let r := UPS.make_api_request env method url headers json_data params codes
             service s in
  doc (fst r) = doc s
  /\ cache (fst r) = cache s
  /\ sent (fst r)
     = (sent s ++ [mkRequest method url headers params [] None json_data])%list
  /\ exists result error, snd r = Ok (result, error).
Proof.
  unfold UPS.make_api_request. run.
  destruct (http env _) as [|code content json]; cbn.
  - repeat split; eauto.
  - destruct (existsb (Z.eqb code) codes); cbn.
    + destruct json; cbn; repeat split; eauto.
    + repeat split; eauto.
Qed.

(** The client of a poll keeps the stored Delivery Note as it is. *)
Lemma ups_client_doc (env : Env) (st : UPS.Settings) (s : DB) :
  doc (fst (UPS.UPSClient env st s)) = doc s
  /\ exists h, snd (UPS.UPSClient env st s) = Ok h.
Proof.
  unfold UPS.UPSClient, UPS.get_auth_token. run.
  destruct (negb (truthy (cache_find UPS.ACCESS_TOKEN_KEY (cache s)))); cbn;
    [|eauto].
  destruct (http env _) as [|code content [j|]]; cbn; eauto.
  unfold Frappe._dict, Frappe.lift. destruct (attrs j); cbn; eauto.
Qed.

(** A UPS poll reads the Delivery Note once: the request it sends and the
    [tracking_method] it hands to the normaliser both come from the lookup
    made on the document as stored when the poll started, and the
    normaliser starts from that same stored document. *)
Lemma ups_poll_shape (env : Env) (st : UPS.Settings) (dn : string) (s : DB) :
  exists s1 headers result error,
    doc s1 = doc s
    /\ (exists pre,
          sent s1
          = (pre ++ [mkRequest "GET" (fst (fst (UPS.lookup env st dn (doc s))))
                       headers (snd (fst (UPS.lookup env st dn (doc s))))
                       [] None (PDict [])])%list)
    /\ UPS.get_ups_tracking_data env st dn s
       = UPS.set_data_in_delivery_note env st dn result error
           (mode_at_start (doc s)) s1.
Proof.
  unfold UPS.get_ups_tracking_data.
  destruct (ups_client_doc env st s) as [Hd [h Hh]].
  unfold Frappe.bind at 1.
  destruct (UPS.UPSClient env st s) as [s0 r0]. cbn in Hd, Hh. subst r0.
  run. rewrite Hd.
  rewrite <- (ups_lookup_mode env st dn (doc s)).
  destruct (UPS.lookup env st dn (doc s)) as [[url params] mode]. cbn [fst snd].
  match goal with
  | |- context [UPS.make_api_request env ?m ?u ?hh ?j ?p ?c ?sv s0] =>
      pose proof (ups_make_api_request_effect env m u hh j p c sv s0) as H;
      cbv zeta in H;
      destruct (UPS.make_api_request env m u hh j p c sv s0) as [s1 r1];
      cbn [fst snd] in H;
      destruct H as (H1 & _ & H3 & result & error & H4); subst r1
  end.
  exists s1. eexists. exists result, error.
  split; [congruence|]. split; [eexists; exact H3|]. reflexivity.
Qed.

Lemma fedex_make_api_request_effect (env : Env) (method url : string)
    (headers : list (string * value)) (json_data : value) (service : string)
    (s : DB) :
  let r := FedEx.make_api_request env method url headers json_data service s in
  doc (fst r) = doc s
  /\ cache (fst r) = cache s
  /\ sent (fst r)
     = (sent s ++ [mkRequest method url headers [] [] None json_data])%list
  /\ exists result error, snd r = Ok (result, error).
Proof.
  unfold FedEx.make_api_request. run.
  destruct (http env _) as [|code content json]; cbn -[existsb].
  - repeat split; eauto.
  - destruct (existsb (Z.eqb code) [200%Z; 201%Z]); cbn.
    + destruct json; cbn; repeat split; eauto.
    + repeat split; eauto.
Qed.

Lemma fedex_client_doc (env : Env) (st : FedEx.Settings) (s : DB) :
  doc (fst (FedEx.FedExIntegration env st s)) = doc s
  /\ exists h, snd (FedEx.FedExIntegration env st s) = Ok h.
Proof.
  unfold FedEx.FedExIntegration, FedEx.get_auth_token. run.
  destruct (negb (truthy (cache_find FedEx.ACCESS_TOKEN_KEY (cache s)))); cbn;
    [|eauto].
  destruct (http env _) as [|code content [j|]]; cbn; eauto.
  unfold Frappe._dict, Frappe.lift. destruct (attrs j); cbn; eauto.
Qed.

(** A FedEx poll reads the Delivery Note once, as a UPS poll does. *)
Lemma fedex_poll_shape (env : Env) (st : FedEx.Settings) (dn : string) (s : DB) :
  exists s1 h acc result error,
    doc s1 = doc s
    /\ (exists pre,
          sent s1
          = (pre ++ [mkRequest "POST"
                       (snd (fst (fst (FedEx.lookup env st dn (doc s) h acc))))
                       (snd (fst (FedEx.lookup env st dn (doc s) h acc)))
                       [] [] None
                       (snd (FedEx.lookup env st dn (doc s) h acc))])%list)
    /\ FedEx.fetch_fedex_tracking_details env st dn s
       = FedEx.update_delivery_note_with_fedex_details env st dn result error
           (mode_at_start (doc s)) s1.
Proof.
  unfold FedEx.fetch_fedex_tracking_details.
  destruct (fedex_client_doc env st s) as [Hd [h Hh]].
  unfold Frappe.bind at 1.
  destruct (FedEx.FedExIntegration env st s) as [s0 r0]. cbn in Hd, Hh. subst r0.
  run. rewrite Hd.
  match goal with
  | |- context [FedEx.lookup env st dn (doc s) ?hh ?aa] =>
      set (h1 := hh); set (a1 := aa);
      rewrite <- (fedex_lookup_mode env st dn (doc s) h1 a1);
      destruct (FedEx.lookup env st dn (doc s) h1 a1)
        as [[[mode url] hs] payload] eqn:HL
  end.
  cbn [fst snd].
  match goal with
  | |- context [FedEx.make_api_request env ?m ?u ?hh ?j ?sv s0] =>
      pose proof (fedex_make_api_request_effect env m u hh j sv s0) as H;
      cbv zeta in H;
      destruct (FedEx.make_api_request env m u hh j sv s0) as [s1 r1];
      cbn [fst snd] in H;
      destruct H as (H1 & _ & H3 & result & error & H4); subst r1
  end.
  exists s1, h1, a1, result, error. rewrite HL. cbn [fst snd].
  split; [congruence|]. split; [eexists; exact H3|]. reflexivity.
Qed.

Lemma priority_make_api_request_effect (env : Env) (method url : string)
    (headers : list (string * value)) (json_data : value) (service : string)
    (s : DB) :
  let r := Priority.make_api_request env method url headers json_data service s in
  doc (fst r) = doc s
  /\ sent (fst r)
     = (sent s ++ [mkRequest method url headers [] [] None json_data])%list
  /\ exists result error, snd r = Ok (result, error).
Proof.
  unfold Priority.make_api_request. run.
  destruct (http env _) as [|code content json]; cbn -[existsb].
  - repeat split; eauto.
  - destruct (existsb (Z.eqb code) [200%Z; 201%Z]); cbn.
    + destruct json; cbn; repeat split; eauto.
    + repeat split; eauto.
Qed.

Lemma priority_update_sent (env : Env) (st : Priority.Settings) (dn : string)
    (response : value) (error : option Priority.ApiError) (s : DB) :
  sent (fst (Priority.update_delivery_note_with_priority_details env st dn
               response error s))
  = sent s.
Proof.
  unfold Priority.update_delivery_note_with_priority_details. run.
  run_left; reflexivity.
Qed.

(** A Priority poll never looks at the tracking number: whatever the
    Delivery Note holds, the one request it sends identifies the shipment
    by the Delivery Note's name and the identifier type of the settings. *)
Lemma priority_poll_request (env : Env) (st : Priority.Settings) (dn : string)
    (s : DB) :
  exists headers,
    sent (fst (Priority.fetch_priority_tracking_details env st dn s))
    = (sent s
       ++ [mkRequest "POST"
             (Priority.priority_base_url st ++ Priority.priority_tracking_url st)
             headers [] [] None
             (PDict [("identifierType", Priority.shipment_identifier_type st);
                     ("identifierValue", PStr dn)])])%list.
Proof.
  unfold Priority.fetch_priority_tracking_details.
  unfold Frappe.bind at 1.
  assert (Hc : sent (fst (Priority.PriorityIntegration env st s)) = sent s
               /\ exists h, snd (Priority.PriorityIntegration env st s) = Ok h).
  { unfold Priority.PriorityIntegration, Priority.get_auth_token. run.
    destruct (negb (truthy (cache_find Priority.ACCESS_TOKEN_KEY (cache s))));
      cbn; eauto. }
  destruct Hc as [Hs [h Hh]].
  destruct (Priority.PriorityIntegration env st s) as [s0 r0].
  cbn in Hs, Hh. subst r0.
  unfold Frappe.bind.
  match goal with
  | |- context [Priority.make_api_request env ?m ?u ?hh ?j ?sv s0] =>
      pose proof (priority_make_api_request_effect env m u hh j sv s0) as H;
      cbv zeta in H;
      destruct (Priority.make_api_request env m u hh j sv s0) as [s1 r1];
      cbn [fst snd] in H;
      destruct H as (_ & H3 & result & error & H4); subst r1
  end.
  rewrite priority_update_sent. rewrite H3, Hs. eexists. reflexivity.
Qed.

Lemma mode_at_start_by_tracking_id (d : DeliveryNote) :
  mode_at_start d = "By Tracking ID" <-> tracking_number d <> PNone.
Proof.
  unfold mode_at_start.
  destruct (py_eq (tracking_number d) PNone) eqn:E.
  - apply py_eq_none in E. split; [discriminate | congruence].
  - apply py_eq_none_false in E. split; auto.
Qed.

Lemma mode_at_start_by_reference (d : DeliveryNote) :
  mode_at_start d = "By Reference" <-> tracking_number d = PNone.
Proof.
  unfold mode_at_start.
  destruct (py_eq (tracking_number d) PNone) eqn:E.
  - apply py_eq_none in E. split; auto.
  - apply py_eq_none_false in E. split; [discriminate | congruence].
Qed.

(** C6, as the code has it.  For UPS and FedEx the lookup is "By Tracking
    ID" exactly when the stored tracking number is not [None] and "By
    Reference" otherwise; a by-reference UPS request carries the pick-up
    date window and [refNumType] of the settings, a by-reference FedEx
    request the ship-date window and the reference type; the poll sends the
    request of that lookup and hands the same mode to the normaliser, which
    starts from the document as it was stored at poll start.  A Priority
    poll has no such choice: it always asks by the Delivery Note's name. *)
Theorem lookup_mode_decided_at_poll_start
    (env : Env) (us : UPS.Settings) (fs : FedEx.Settings)
    (ps : Priority.Settings) (dn : string) (d : DeliveryNote)
    (h : list (string * value)) (acc : value) :
  (snd (UPS.lookup env us dn d) = "By Tracking ID" <-> tracking_number d <> PNone)
  /\ (snd (UPS.lookup env us dn d) = "By Reference" <-> tracking_number d = PNone)
  /\ (tracking_number d = PNone ->
      UPS.lookup env us dn d
      = (UPS.ups_server_url us ++ UPS.track_by_reference_number_url us ++ dn,
         [("locale", UPS.locale us);
          ("fromPickUpDate",
           strftime env
             (add_to_date env (today env) (- UPS.check_no_of_days_api us))
             "%Y%m%d");
          ("toPickUpDate", strftime env (today env) "%Y%m%d");
          ("refNumType", UPS.ref_number_type us)],
         "By Reference"))
  /\ (fst (fst (fst (FedEx.lookup env fs dn d h acc))) = "By Tracking ID"
      <-> tracking_number d <> PNone)
  /\ (fst (fst (fst (FedEx.lookup env fs dn d h acc))) = "By Reference"
      <-> tracking_number d = PNone)
  /\ (tracking_number d = PNone ->
      exists rest,
        get (snd (FedEx.lookup env fs dn d h acc)) "referencesInformation"
        = Ok (PDict
                (("type", or_ (FedEx.reference_type fs) (PStr "SHIPPER_REFERENCE"))
                 :: ("value", PStr dn) :: rest))
        /\ Py.assoc "shipDateBegin" rest
           = Some (PStr (strftime env (add_to_date env (posting_date d) (-2))
                                  "%Y-%m-%d"))
        /\ Py.assoc "shipDateEnd" rest
           = Some (PStr (strftime env
                           (add_to_date env (posting_date d)
                                        (FedEx.check_for_no_of_days fs))
                           "%Y-%m-%d")))
  /\ (forall s, doc s = d ->
      exists s1 headers result error,
        doc s1 = d
        /\ (exists pre,
              sent s1
              = (pre ++ [mkRequest "GET" (fst (fst (UPS.lookup env us dn d)))
                           headers (snd (fst (UPS.lookup env us dn d)))
                           [] None (PDict [])])%list)
        /\ UPS.get_ups_tracking_data env us dn s
           = UPS.set_data_in_delivery_note env us dn result error
               (mode_at_start d) s1)
  /\ (forall s, doc s = d ->
      exists s1 h' acc' result error,
        doc s1 = d
        /\ (exists pre,
              sent s1
              = (pre ++ [mkRequest "POST"
                           (snd (fst (fst (FedEx.lookup env fs dn d h' acc'))))
                           (snd (fst (FedEx.lookup env fs dn d h' acc')))
                           [] [] None
                           (snd (FedEx.lookup env fs dn d h' acc'))])%list)
        /\ FedEx.fetch_fedex_tracking_details env fs dn s
           = FedEx.update_delivery_note_with_fedex_details env fs dn result
               error (mode_at_start d) s1)
  /\ (forall s, doc s = d ->
      exists headers,
        sent (fst (Priority.fetch_priority_tracking_details env ps dn s))
        = (sent s
           ++ [mkRequest "POST"
                 (Priority.priority_base_url ps
                  ++ Priority.priority_tracking_url ps)
                 headers [] [] None
                 (PDict [("identifierType", Priority.shipment_identifier_type ps);
                         ("identifierValue", PStr dn)])])%list).
Proof.
  rewrite ups_lookup_mode, fedex_lookup_mode.
  split; [apply mode_at_start_by_tracking_id|].
  split; [apply mode_at_start_by_reference|].
  split.
  { intro H. unfold UPS.lookup. rewrite H. reflexivity. }
  split; [apply mode_at_start_by_tracking_id|].
  split; [apply mode_at_start_by_reference|].
  split.
  { intro H. unfold FedEx.lookup. rewrite H. cbn. eexists. split; [reflexivity|].
    split; reflexivity. }
  split.
  { intros s <-. apply ups_poll_shape. }
  split.
  { intros s <-. apply fedex_poll_shape. }
  intros s _. apply priority_poll_request.
Qed.

(** At C6 as stated: a Priority shipment whose tracking number is known is
    still looked up by reference, by the Delivery Note's name, and with no
    date window. *)
Lemma priority_known_tracking_number_polled_by_reference :
  let d := set_tracking_number (PStr "PRO-7781") Sample.dn0 in
  tracking_number d <> PNone
  /\ sent (fst (Priority.fetch_priority_tracking_details Sample.env0
                  Sample.priority_settings "DN-0001" (mkDB d [] [] [] [])))
     = [mkRequest "POST" "https://api.priority1.com/v2/ltl/shipments/status"
          [("X-API-KEY", PStr "key-1"); ("Content-Type", PStr "application/json")]
          [] [] None
          (PDict [("identifierType", PStr "PURCHASE_ORDER");
                  ("identifierValue", PStr "DN-0001")])].
Proof. split; [discriminate | reflexivity]. Qed.

Lemma lookup_mode_decided_at_poll_start_witness :
  snd (UPS.lookup Sample.env0
         (UPS.mkSettings "" "" "" "" "" "en_US" "https://onlinetools.ups.com"
            "/api/track/v1/reference/details/" "/api/track/v1/details/" 30
            "SmallPackage" [])
         "DN-0001" Sample.dn0)
  = "By Reference".
Proof.
  apply (lookup_mode_decided_at_poll_start Sample.env0
           (UPS.mkSettings "" "" "" "" "" "en_US" "https://onlinetools.ups.com"
              "/api/track/v1/reference/details/" "/api/track/v1/details/" 30
              "SmallPackage" [])
           (FedEx.mkSettings "" "" "" "" PNone [] "" "" PNone 5 PNone PNone [] [])
           Sample.priority_settings "DN-0001" Sample.dn0 [] PNone).
  reflexivity.
Defined.

(** C10: presence of the tracking number is a comparison with [None], not
    a test for a non-empty string.  A Delivery Note whose tracking number
    is the empty string is polled "By Tracking ID": UPS is asked at the
    inquiry endpoint with an empty identifier after it and none of the
    by-reference parameters, FedEx is sent [trackingNumber = ""], and each
    poll sends that request and hands "By Tracking ID" to its normaliser. *)
Theorem empty_tracking_number_polls_by_tracking_id
    (env : Env) (us : UPS.Settings) (fs : FedEx.Settings) (dn : string)
    (d : DeliveryNote) (Hempty : tracking_number d = PStr "") :
  UPS.lookup env us dn d
  = (UPS.ups_server_url us ++ UPS.track_by_inquiry_number_url us ++ "",
     [("locale", UPS.locale us); ("returnSignature", "false");
      ("returnMilestones", "false"); ("returnPOD", "false")],
     "By Tracking ID")
  /\ (forall h acc,
      FedEx.lookup env fs dn d h acc
      = ("By Tracking ID",
         FedEx.fedex_server_url fs ++ FedEx.fedex_track_by_tracking_id fs,
         h,
         PDict [("includeDetailedScans",
                 or_ (FedEx.include_detailed_scan fs) (PStr "True"));
                ("trackingInfo",
                 PList [PDict [("trackingNumberInfo",
                                PDict [("trackingNumber", PStr "")])]])]))
  /\ (forall s, doc s = d ->
      exists s1 headers result error pre,
        sent s1
        = (pre ++ [mkRequest "GET"
                     (UPS.ups_server_url us ++ UPS.track_by_inquiry_number_url us
                      ++ "")
                     headers
                     [("locale", UPS.locale us); ("returnSignature", "false");
                      ("returnMilestones", "false"); ("returnPOD", "false")]
                     [] None (PDict [])])%list
        /\ UPS.get_ups_tracking_data env us dn s
           = UPS.set_data_in_delivery_note env us dn result error
               "By Tracking ID" s1)
  /\ (forall s, doc s = d ->
      exists s1 headers result error pre,
        sent s1
        = (pre ++ [mkRequest "POST"
                     (FedEx.fedex_server_url fs
                      ++ FedEx.fedex_track_by_tracking_id fs)
                     headers [] [] None
                     (PDict [("includeDetailedScans",
                              or_ (FedEx.include_detailed_scan fs) (PStr "True"));
                             ("trackingInfo",
                              PList [PDict [("trackingNumberInfo",
                                             PDict [("trackingNumber",
                                                     PStr "")])]])])])%list
        /\ FedEx.fetch_fedex_tracking_details env fs dn s
           = FedEx.update_delivery_note_with_fedex_details env fs dn result
               error "By Tracking ID" s1).
Proof.
  assert (Hu : UPS.lookup env us dn d
               = (UPS.ups_server_url us ++ UPS.track_by_inquiry_number_url us ++ "",
                  [("locale", UPS.locale us); ("returnSignature", "false");
                   ("returnMilestones", "false"); ("returnPOD", "false")],
                  "By Tracking ID")).
  { unfold UPS.lookup. rewrite Hempty. reflexivity. }
  assert (Hf : forall h acc,
             FedEx.lookup env fs dn d h acc
             = ("By Tracking ID",
                FedEx.fedex_server_url fs ++ FedEx.fedex_track_by_tracking_id fs,
                h,
                PDict [("includeDetailedScans",
                        or_ (FedEx.include_detailed_scan fs) (PStr "True"));
                       ("trackingInfo",
                        PList [PDict [("trackingNumberInfo",
                                       PDict [("trackingNumber", PStr "")])]])])).
  { intros h acc. unfold FedEx.lookup. rewrite Hempty. reflexivity. }
  assert (Hm : mode_at_start d = "By Tracking ID").
  { unfold mode_at_start. rewrite Hempty. reflexivity. }
  split; [exact Hu|]. split; [exact Hf|]. split.
  - intros s <-.
    destruct (ups_poll_shape env us dn s)
      as (s1 & headers & result & error & _ & [pre Hs] & Hp).
    rewrite Hu in Hs. rewrite Hm in Hp. cbn [fst snd] in Hs.
    exists s1, headers, result, error, pre. split; assumption.
  - intros s <-.
    destruct (fedex_poll_shape env fs dn s)
      as (s1 & h' & acc' & result & error & _ & [pre Hs] & Hp).
    rewrite Hf in Hs. rewrite Hm in Hp. cbn [fst snd] in Hs.
    exists s1, h', result, error, pre. split; assumption.
Qed.

Lemma empty_tracking_number_polls_by_tracking_id_witness :
  tracking_number (set_tracking_number (PStr "") Sample.dn0) = PStr ""
  /\ fst (fst (fst (FedEx.lookup Sample.env0
                      (FedEx.mkSettings "https://apis.fedex.com" "/oauth/token" ""
                         "" PNone [] "/track/v1/referencenumbers"
                         "/track/v1/trackingnumbers" PNone 5 PNone PNone [] [])
                      "DN-0001" (set_tracking_number (PStr "") Sample.dn0)
                      [] PNone)))
     = "By Tracking ID".
Proof.
  split; [reflexivity|].
  destruct (empty_tracking_number_polls_by_tracking_id Sample.env0
              (UPS.mkSettings "" "" "" "" "" "en_US" "https://onlinetools.ups.com"
                 "/api/track/v1/reference/details/" "/api/track/v1/details/" 30
                 "SmallPackage" [])
              (FedEx.mkSettings "https://apis.fedex.com" "/oauth/token" ""
                 "" PNone [] "/track/v1/referencenumbers"
                 "/track/v1/trackingnumbers" PNone 5 PNone PNone [] [])
              "DN-0001" (set_tracking_number (PStr "") Sample.dn0) eq_refl)
    as (_ & Hf & _).
  rewrite Hf. reflexivity.
Defined.

(** *** Answers that carry shipment data *)

Lemma assoc_mem (k : string) (kv : list (string * value)) (v : value) :
  Py.assoc k kv = Some v -> mem k (map fst kv) = true.
Proof.
  induction kv as [|[k' v'] kv IH]; cbn; [discriminate|].
  rewrite (String.eqb_sym k k').
  destruct (k' =? k); cbn; auto.
Qed.

Lemma assoc_not_mem (k : string) (kv : list (string * value)) :
  Py.assoc k kv = None -> mem k (map fst kv) = false.
Proof.
  induction kv as [|[k' v'] kv IH]; cbn; [reflexivity|].
  rewrite (String.eqb_sym k k').
  destruct (k' =? k); cbn; [discriminate | auto].
Qed.

Lemma assoc_nonempty (k : string) (kv : list (string * value)) (v : value) :
  Py.assoc k kv = Some v -> truthy (PDict kv) = true.
Proof. destruct kv; [discriminate | reflexivity]. Qed.

Lemma truthy_cons (x : value) (l : list value) : truthy (PList (x :: l)) = true.
Proof. reflexivity. Qed.

Lemma get_assoc (k : string) (kv : list (string * value)) (v : value) :
  Py.assoc k kv = Some v -> get (PDict kv) k = Ok v.
Proof. intro H. cbn. rewrite H. reflexivity. Qed.

Lemma getitem_assoc (k : string) (kv : list (string * value)) (v : value) :
  Py.assoc k kv = Some v -> getitem (PDict kv) k = Ok v.
Proof. intro H. cbn. rewrite H. reflexivity. Qed.

Lemma get_attr (k : string) (kv : list (string * value)) :
  get (PDict kv) k = Ok (attr kv k).
Proof. reflexivity. Qed.

(** A FedEx answer with shipment data and no transport error is saved in
    one write: the poll returns normally and the stored document is
    [fedex_saved], the rest of the stored state staying as it was. *)
Lemma fedex_data_found (env : Env) (fs : FedEx.Settings) (dn : string)
    (response : value) (error : option ApiError) (api_type : string) (s : DB)
    (track first detail : list (string * value)) :
  error_truthy error = false ->
  fedex_tracks response track first detail ->
  hashable (attr first "statusCode") = true ->
  api_type = "By Reference" \/ api_type = "By Tracking ID" ->
  FedEx.update_delivery_note_with_fedex_details env fs dn response error
    api_type s
  = (mkDB (fedex_saved env fs api_type track first detail (doc s))
          (error_log s) (request_log s) (cache s) (sent s),
     Ok tt).
Proof.
  intros He (kv & okv & rest1 & rest2 & -> & Ho & Hc & Ht & Hd) Hh Hapi.
  unfold FedEx.update_delivery_note_with_fedex_details, FedEx.status_of,
    FedEx.first_track_result.
  run. rewrite He.
  rewrite (assoc_nonempty _ _ _ Ho).
  rewrite (get_assoc _ _ _ Ho), (getitem_assoc _ _ _ Ho).
  rewrite (assoc_nonempty _ _ _ Hc). cbn [fst snd].
  rewrite (get_assoc _ _ _ Hc). rewrite truthy_cons. cbn [getitem0 fst snd].
  rewrite (assoc_nonempty _ _ _ Ht).
  rewrite (get_assoc _ _ _ Ht). cbn [getitem0 keys fst snd].
  rewrite (assoc_mem _ _ _ Hd). cbn [negb andb].
  rewrite (get_assoc _ _ _ Hd). rewrite !get_attr. cbn [fst snd].
  unfold dict_get. rewrite Hh. cbn [fst snd].
  unfold fedex_saved, fedex_status, or_.
  destruct Hapi as [-> | ->]; cbn [String.eqb Ascii.eqb Bool.eqb andb];
    match goal with
    | |- context [truthy ?m] => destruct (truthy m)
    end; cbn; reflexivity.
Qed.

(** *** Every call has one of a few effects on the stored document *)

Ltac run_both :=
  repeat match goal with
         | |- same_effect _ _ ?t1 _ ?t2 => first [step_in t1 | step_in t2]
         end.

Lemma fedex_two_runs (env : Env) (fs : FedEx.Settings) (dn : string)
    (response : value) (error : option ApiError) (api_type : string)
    (s1 s2 : DB) :
  same_effect (fedex_effect env api_type (error_truthy error))
    (doc s1)
    (doc (fst (FedEx.update_delivery_note_with_fedex_details env fs dn response
                 error api_type s1)))
    (doc s2)
    (doc (fst (FedEx.update_delivery_note_with_fedex_details env fs dn response
                 error api_type s2))).
Proof.
  unfold FedEx.update_delivery_note_with_fedex_details, FedEx.status_of,
    FedEx.first_track_result, FedEx.loads.
  run.
  run_both.
  all: unfold same_effect.
  all: first
    [ exists (fun d => d); split; [constructor | split; reflexivity]
    | eexists; split; [apply fedex_exception; first [assumption | reflexivity] | split; reflexivity]
    | eexists; split; [eapply fedex_carrier_error; first [eassumption | reflexivity] | split; reflexivity]
    | eexists; split; [eapply fedex_by_reference; first [eassumption | reflexivity] | split; reflexivity]
    | eexists; split; [eapply fedex_by_tracking_id; first [eassumption | reflexivity] | split; reflexivity] ].
Qed.

Lemma priority_two_runs (env : Env) (ps : Priority.Settings) (dn : string)
    (response : value) (error : option Priority.ApiError) (s1 s2 : DB) :
  same_effect (priority_effect env (Priority.error_truthy error))
    (doc s1)
    (doc (fst (Priority.update_delivery_note_with_priority_details env ps dn
                 response error s1)))
    (doc s2)
    (doc (fst (Priority.update_delivery_note_with_priority_details env ps dn
                 response error s2))).
Proof.
  unfold Priority.update_delivery_note_with_priority_details.
  run.
  run_both.
  all: unfold same_effect.
  all: first
    [ exists (fun d => d); split; [constructor | split; reflexivity]
    | eexists; split; [apply priority_exception; first [assumption | reflexivity] | split; reflexivity]
    | eexists; split; [eapply priority_error_status; first [eassumption | reflexivity] | split; reflexivity]
    | eexists; split; [eapply priority_incident; first [eassumption | reflexivity] | split; reflexivity]
    | eexists; split; [eapply priority_shipment; first [eassumption | reflexivity] | split; reflexivity] ].
Qed.

Lemma append_packages_rows (env : Env) (st : UPS.Settings) (l : list value)
    (d : DeliveryNote) :
  UPS.append_packages env st l d
  = match package_rows env st l with
    | Ok rows => Ok (add_rows rows d)
    | Raise e => Raise e
    end.
Proof.
  revert d.
  induction l as [|p l IH]; intro d; cbn [UPS.append_packages package_rows];
    [reflexivity|].
  destruct (getitem p "trackingNumber") as [tid|]; [|reflexivity].
  destruct (getitem p "currentStatus") as [cs|]; [|reflexivity].
  destruct (getitem cs "code") as [code|]; [|reflexivity].
  destruct (dict_getitem (UPS.code_status_map st) (PInt (cint env code)))
    as [desc|]; [|reflexivity].
  rewrite IH. destruct (package_rows env st l); reflexivity.
Qed.

Lemma ups_two_runs (env : Env) (us : UPS.Settings) (dn : string)
    (result : value) (error : option ApiError) (mode : string) (s1 s2 : DB) :
  same_effect (ups_effect env mode (error_truthy error))
    (doc s1)
    (doc (fst (UPS.set_data_in_delivery_note env us dn result error mode s1)))
    (doc s2)
    (doc (fst (UPS.set_data_in_delivery_note env us dn result error mode s2))).
Proof.
  unfold UPS.set_data_in_delivery_note.
  run.
  repeat match goal with
         | |- same_effect _ _ ?t1 _ ?t2 =>
             first [ progress rewrite append_packages_rows
                   | step_in t1 | step_in t2 ]
         end.
  all: unfold same_effect.
  all: first
    [ exists (fun d => d); split; [constructor | split; reflexivity]
    | eexists; split; [apply ups_exception; first [assumption | reflexivity] | split; reflexivity]
    | eexists; split; [apply ups_not_found; first [assumption | reflexivity] | split; reflexivity]
    | eexists; split; [eapply ups_by_reference; first [eassumption | reflexivity] | split; reflexivity]
    | eexists; split; [eapply ups_by_tracking_id; first [eassumption | reflexivity] | split; reflexivity] ].
Qed.

(** *** Applying the same outcome twice *)


(** Rows are appended after the scalar fields are set, and setting those
    again afterwards changes nothing. *)
Lemma add_rows_scalars (rows : list TrackingDetail) (d : DeliveryNote) :
  add_rows rows d
  = mkDN (name d) (posting_date d) (set_warehouse d) (tracking_number d)
         (custom_tracking d) (custom_tracking_code d) (custom_last_api_call d)
         (custom_last_date_for_processing_status d)
         (custom_incident_first_date d) (custom_tracking_details d ++ rows)%list.
Proof.
  unfold add_rows. revert d.
  induction rows as [|r rows IH]; intro d; cbn.
  - rewrite app_nil_r. destruct d; reflexivity.
  - rewrite IH. cbn. now rewrite <- app_assoc.
Qed.

Lemma processing_rule_twice (env : Env) (f : DeliveryNote -> DeliveryNote)
    (status : value) (d : DeliveryNote) :
  (forall x, custom_tracking (f x) = status) ->
  (forall x, custom_last_date_for_processing_status (f x)
             = custom_last_date_for_processing_status x) ->
  (forall x v, f (set_custom_last_date_for_processing_status v x)
               = set_custom_last_date_for_processing_status v (f x)) ->
  (forall x, f (f x) = f x) ->
  FedEx.processing_rule env (f (FedEx.processing_rule env (f d)))
  = FedEx.processing_rule env (f d).
Proof.
  intros Hs Hd Hc Hi. unfold FedEx.processing_rule.
  rewrite !Hs.
  destruct (py_eq status (PStr "Processing")) eqn:E; cbn [andb negb].
  - destruct (py_eq (custom_last_date_for_processing_status (f d)) PNone) eqn:E2.
    + rewrite Hc, Hi. reflexivity.
    + rewrite Hi, E2. reflexivity.
  - rewrite Hc, Hi. reflexivity.
Qed.









(** With the same reading of the clock, a record that was at most stamped
    again is the same record. *)
Lemma restamped_same_clock (env env' : Env) (once twice : DeliveryNote) :
  now env' = now env -> restamped env env' once twice -> twice = once.
Proof.
  intros Hn [H | [H1 H2]]; [exact H|].
  rewrite H2, Hn, <- H1. destruct once; reflexivity.
Qed.




(** With two readings of the clock the second application is seen in the
    record: a Priority answer with shipment data, applied on the next day,
    leaves the time of that day. *)
Lemma second_application_stamps_again :
  let apply env s :=
    fst (Priority.update_delivery_note_with_priority_details env
           Sample.priority_settings "DN-0001"
           (Sample.priority_answer (PStr "P1-0001") (PStr "In Transit")) None
           s) in
  custom_last_api_call (doc (apply Sample.env0 Sample.db0))
  = PStr "2024-05-02 10:15:00.000000"
  /\ custom_last_api_call (doc (apply env0_later (apply Sample.env0 Sample.db0)))
     = PStr "2024-05-03 08:30:00.000000"
  /\ doc (apply env0_later (apply Sample.env0 Sample.db0))
     = set_custom_last_api_call (PStr "2024-05-03 08:30:00.000000")
         (doc (apply Sample.env0 Sample.db0)).
Proof. cbv zeta. repeat split; reflexivity. Qed.

(** *** The date of entering "Processing" *)

Lemma ups_effect_keeps_processing_date (env : Env) (mode : string)
    (failed : bool) (g : DeliveryNote -> DeliveryNote) (d : DeliveryNote) :
  ups_effect env mode failed g ->
  custom_last_date_for_processing_status (g d)
  = custom_last_date_for_processing_status d.
Proof.
  intros [ | _ | _ | tid code status rows _ _ | code status _ _];
    try reflexivity.
  rewrite add_rows_scalars. reflexivity.
Qed.

Lemma priority_effect_keeps_processing_date (env : Env) (failed : bool)
    (g : DeliveryNote -> DeliveryNote) (d : DeliveryNote) :
  priority_effect env failed g ->
  custom_last_date_for_processing_status (g d)
  = custom_last_date_for_processing_status d.
Proof.
  intros [ | _ | status _ | status _ | tn status _]; try reflexivity.
  unfold Priority.incident_rule.
  destruct (py_eq _ _); reflexivity.
Qed.

(** The rule itself, on a document whose status has just been written. *)
Lemma processing_rule_spec (env : Env) (d : DeliveryNote) :
  let d' := FedEx.processing_rule env d in
  custom_tracking d' = custom_tracking d
  /\ custom_last_api_call d' = custom_last_api_call d
  /\ tracking_number d' = tracking_number d
  /\ custom_tracking_code d' = custom_tracking_code d
  /\ (py_eq (custom_tracking d) (PStr "Processing") = true ->
      custom_last_date_for_processing_status d = PNone ->
      custom_last_date_for_processing_status d' = PStr (today env))
  /\ (py_eq (custom_tracking d) (PStr "Processing") = true ->
      custom_last_date_for_processing_status d <> PNone ->
      custom_last_date_for_processing_status d'
      = custom_last_date_for_processing_status d)
  /\ (py_eq (custom_tracking d) (PStr "Processing") = false ->
      custom_last_date_for_processing_status d' = PNone).
Proof.
  unfold FedEx.processing_rule.
  destruct (py_eq (custom_tracking d) (PStr "Processing")) eqn:E;
    destruct (py_eq (custom_last_date_for_processing_status d) PNone) eqn:E2;
    cbn; repeat split; intros; try reflexivity; try discriminate.
  - apply py_eq_none in E2. contradiction.
  - apply py_eq_none_false in E2. contradiction.
Qed.

Lemma fedex_saved_twice (env : Env) (fs : FedEx.Settings) (api_type : string)
    (track first detail : list (string * value)) (d : DeliveryNote) :
  fedex_saved env fs api_type track first detail
    (fedex_saved env fs api_type track first detail d)
  = fedex_saved env fs api_type track first detail d.
Proof.
  unfold fedex_saved. cbv zeta.
  destruct (api_type =? "By Reference").
  - apply (processing_rule_twice env
             (fun x => set_custom_tracking (fedex_status fs first detail)
                         (set_custom_tracking_code (attr detail "code")
                            (set_tracking_number (attr track "trackingNumber")
                               (set_custom_last_api_call (PStr (now env)) x))))
             (fedex_status fs first detail) d); reflexivity.
  - apply (processing_rule_twice env
             (fun x => set_custom_tracking (fedex_status fs first detail)
                         (set_custom_tracking_code (attr detail "code")
                            (set_custom_last_api_call (PStr (now env)) x)))
             (fedex_status fs first detail) d); reflexivity.
Qed.

(** C2, as the code has it.  The rule belongs to FedEx alone.  A FedEx
    poll that finds shipment data returns normally and stores the status
    together with the date: when the status is "Processing" and the date
    is absent the date becomes today, when the status is "Processing" and
    the date is present it stays, and with any other status it is cleared;
    a second poll with the same answer leaves the date as the first left
    it.  No UPS poll and no Priority poll ever changes that date. *)
Theorem processing_date_rule (env : Env) (us : UPS.Settings)
    (fs : FedEx.Settings) (ps : Priority.Settings) (dn : string) (s : DB) :
  (forall response error api_type track first detail,
     error_truthy error = false ->
     fedex_tracks response track first detail ->
     hashable (attr first "statusCode") = true ->
     api_type = "By Reference" \/ api_type = "By Tracking ID" ->
     let poll s :=
       FedEx.update_delivery_note_with_fedex_details env fs dn response error
         api_type s in
     let status := fedex_status fs first detail in
     let before := custom_last_date_for_processing_status (doc s) in
     let after := custom_last_date_for_processing_status (doc (fst (poll s))) in
     snd (poll s) = Ok tt
     /\ custom_tracking (doc (fst (poll s))) = status
     /\ (py_eq status (PStr "Processing") = true -> before = PNone ->
         after = PStr (today env))
     /\ (py_eq status (PStr "Processing") = true -> before <> PNone ->
         after = before)
     /\ (py_eq status (PStr "Processing") = false -> after = PNone)
     /\ custom_last_date_for_processing_status (doc (fst (poll (fst (poll s)))))
        = after)
  /\ (forall result error tracking_method,
        custom_last_date_for_processing_status
          (doc (fst (UPS.set_data_in_delivery_note env us dn result error
                       tracking_method s)))
        = custom_last_date_for_processing_status (doc s))
  /\ (forall response error,
        custom_last_date_for_processing_status
          (doc (fst (Priority.update_delivery_note_with_priority_details env ps
                       dn response error s)))
        = custom_last_date_for_processing_status (doc s)).
Proof.
  split; [|split].
  - intros response error api_type track first detail He Ht Hh Hapi.
    cbv zeta.
    rewrite !(fedex_data_found env fs dn response error api_type _ track first
                detail He Ht Hh Hapi).
    cbn [fst snd doc].
    pose proof (processing_rule_spec env
                  (set_custom_tracking (fedex_status fs first detail)
                     (set_custom_tracking_code (attr detail "code")
                        (if api_type =? "By Reference"
                         then set_tracking_number (attr track "trackingNumber")
                                (set_custom_last_api_call (PStr (now env)) (doc s))
                         else set_custom_last_api_call (PStr (now env)) (doc s)))))
      as H.
    cbv zeta in H. destruct H as (H1 & _ & _ & _ & H5 & H6 & H7).
    assert (Hd : custom_last_date_for_processing_status
                   (set_custom_tracking (fedex_status fs first detail)
                      (set_custom_tracking_code (attr detail "code")
                         (if api_type =? "By Reference"
                          then set_tracking_number (attr track "trackingNumber")
                                 (set_custom_last_api_call (PStr (now env))
                                    (doc s))
                          else set_custom_last_api_call (PStr (now env)) (doc s))))
                 = custom_last_date_for_processing_status (doc s)).
    { destruct (api_type =? "By Reference"); reflexivity. }
    rewrite Hd in H5, H6. cbn [custom_tracking set_custom_tracking] in H1, H5, H6, H7.
    refine (conj eq_refl (conj _ (conj _ (conj _ (conj _ _))))).
    + exact H1.
    + exact H5.
    + exact H6.
    + exact H7.
    + rewrite fedex_saved_twice. reflexivity.
  - intros result error mode.
    destruct (ups_two_runs env us dn result error mode s s) as (g & Hg & H1 & _).
    rewrite H1. eapply ups_effect_keeps_processing_date; eassumption.
  - intros response error.
    destruct (priority_two_runs env ps dn response error s s)
      as (g & Hg & H1 & _).
    rewrite H1. eapply priority_effect_keeps_processing_date; eassumption.
Qed.

(** At C2 as stated: a Priority poll and a UPS poll whose status is
    "Processing", on a Delivery Note whose date of entering "Processing" is
    absent, both store the status and leave the date absent. *)
Lemma priority_and_ups_keep_processing_date_absent :
  let p := doc (fst (Priority.update_delivery_note_with_priority_details
                       Sample.env0 Sample.priority_settings "DN-0001"
                       (Sample.priority_answer (PStr "PRO-7781")
                          (PStr "Dispatched"))
                       None Sample.db0)) in
  let u := doc (fst (UPS.set_data_in_delivery_note Sample.env0
                       Sample.ups_settings "DN-0001"
                       (Sample.ups_answer
                          [Sample.ups_package "1Z999AA10123456784" "3"])
                       None "By Reference" Sample.db0)) in
  custom_last_date_for_processing_status (doc Sample.db0) = PNone
  /\ custom_tracking p = PStr "Processing"
  /\ custom_last_date_for_processing_status p = PNone
  /\ custom_tracking u = PStr "Processing"
  /\ custom_last_date_for_processing_status u = PNone.
Proof. cbv zeta. repeat split; reflexivity. Qed.

Lemma processing_date_rule_witness :
  let poll s :=
    FedEx.update_delivery_note_with_fedex_details Sample.env0
      Sample.fedex_settings "DN-0001"
      (Sample.fedex_answer (PStr "794644790138") (PStr "OC") (PStr "OC")
         (PStr "Order Created"))
      None "By Reference" s in
  custom_tracking (doc (fst (poll Sample.db0))) = PStr "Processing"
  /\ custom_last_date_for_processing_status (doc (fst (poll Sample.db0)))
     = PStr "2024-05-02".
Proof.
  cbv zeta.
  destruct (processing_date_rule Sample.env0 Sample.ups_settings
              Sample.fedex_settings Sample.priority_settings "DN-0001"
              Sample.db0) as (H & _ & _).
  specialize (H (Sample.fedex_answer (PStr "794644790138") (PStr "OC")
                   (PStr "OC") (PStr "Order Created"))
                None "By Reference"
                [("trackingNumber", PStr "794644790138");
                 ("trackResults",
                  PList [PDict [("statusCode", PStr "OC");
                                ("latestStatusDetail",
                                 PDict [("code", PStr "OC");
                                        ("description", PStr "Order Created")])]])]
                [("statusCode", PStr "OC");
                 ("latestStatusDetail",
                  PDict [("code", PStr "OC");
                         ("description", PStr "Order Created")])]
                [("code", PStr "OC"); ("description", PStr "Order Created")]
                eq_refl).
  cbv zeta in H.
  destruct H as (_ & Hs & Hd & _).
  - unfold fedex_tracks, Sample.fedex_answer.
    do 4 eexists. repeat split; reflexivity.
  - reflexivity.
  - left; reflexivity.
  - split; [exact Hs|]. apply Hd; reflexivity.
Defined.

(** *** The save of each path *)

Ltac use_shape :=
  repeat first
    [ match goal with
      | H : Py.assoc ?k ?kv = Some _ |- context [getitem (PDict ?kv) ?k] =>
          rewrite (getitem_assoc _ _ _ H)
      | H : Py.assoc ?k ?kv = Some _ |- context [get (PDict ?kv) ?k] =>
          rewrite (get_assoc _ _ _ H)
      | H : Py.assoc _ ?kv = Some _ |- context [truthy (PDict ?kv)] =>
          rewrite (assoc_nonempty _ _ _ H)
      | H : Py.assoc ?k ?kv = Some _ |- context [mem ?k (map fst ?kv)] =>
          rewrite (assoc_mem _ _ _ H)
      | H : Py.assoc ?k ?kv = None |- context [mem ?k (map fst ?kv)] =>
          rewrite (assoc_not_mem _ _ H)
      | |- context [truthy (PList (_ :: _))] => rewrite truthy_cons
      end
    | progress cbn [fst snd doc getitem0 keys len List.length Nat.ltb Nat.leb
                    andb negb] ].


Lemma ups_by_reference_found (env : Env) (us : UPS.Settings) (dn : string)
    (result : value) (error : option ApiError) (s : DB)
    (packages : list value) (package0 : list (string * value))
    (tid code : value) :
  error_truthy error = false ->
  ups_tracks result packages package0 tid code ->
  UPS.set_data_in_delivery_note env us dn result error "By Reference" s
  = match package_rows env us packages with
    | Ok rows =>
        (with_doc
           (add_rows rows
              (set_custom_last_api_call (PStr (now env))
                 (set_custom_tracking (UPS.parent_jammy_status_code env us code)
                    (set_custom_tracking_code code
                       (set_tracking_number tid (doc s))))))
           s,
         Ok tt)
    | Raise e => (s, Raise e)
    end.
Proof.
  intros He (kv & tkv & skv & rest & ckv & tail & -> & H1 & H2 & H3 & H4 & ->
             & H5 & H6 & H7).
  unfold UPS.set_data_in_delivery_note, with_doc. run. rewrite He.
  use_shape. cbn [String.eqb Ascii.eqb Bool.eqb iter]. use_shape.
  rewrite append_packages_rows.
  destruct (package_rows env us (PDict package0 :: tail)); reflexivity.
Qed.



Lemma priority_data_found (env : Env) (ps : Priority.Settings) (dn : string)
    (response : value) (error : option Priority.ApiError) (s : DB)
    (shipment : list (string * value)) :
  Priority.error_truthy error = false ->
  priority_tracks response shipment ->
  hashable (attr shipment "status") = true ->
  Priority.update_delivery_note_with_priority_details env ps dn response error s
  = (with_doc
       (set_custom_last_api_call (PStr (now env))
          (set_custom_tracking
             (lookup_or_none (Priority.success_map ps) (attr shipment "status"))
             (set_custom_tracking_code (PStr "200")
                (set_tracking_number (attr shipment "id") (doc s)))))
       s,
     Ok tt).
Proof.
  intros He (kv & rest & -> & H1 & Hne) Hh.
  unfold Priority.update_delivery_note_with_priority_details, with_doc,
    lookup_or_none.
  run. rewrite He. use_shape.
  assert (Ht : truthy (PDict shipment) = true)
    by (destruct shipment; [contradiction | reflexivity]).
  rewrite Ht. rewrite !get_attr. use_shape.
  unfold dict_get. rewrite Hh. reflexivity.
Qed.

(** *** The time of the last poll *)







(** *** Codes that the registry does not know *)

Lemma dict_get_total (m : dict) (k : value) :
  hashable k = true -> dict_get m k = Ok (lookup_or_none m k).
Proof. intro H. unfold dict_get, lookup_or_none. rewrite H. reflexivity. Qed.

(** C1, as the code has it.  On the FedEx and Priority paths the registry
    is read with [dict.get], which returns for every code that can be a
    key and raises for none of them.  A FedEx poll with shipment data
    stores the registry's status when the code is registered with a
    non-empty status, and otherwise (the code is not registered, or its
    status is empty) the description that the carrier sent, which is
    [None] when it sent none.  A Priority poll with shipment data
    stores the registry's status for the carrier's status text, and [None]
    when that text is not registered. *)
Theorem unregistered_code_falls_back (env : Env) (fs : FedEx.Settings)
    (ps : Priority.Settings) (dn : string) (s : DB) :
  (forall k, hashable k = true ->
     dict_get (FedEx.success_map fs) k
     = Ok (lookup_or_none (FedEx.success_map fs) k)
     /\ dict_get (FedEx.error_map fs) k
        = Ok (lookup_or_none (FedEx.error_map fs) k)
     /\ dict_get (Priority.success_map ps) k
        = Ok (lookup_or_none (Priority.success_map ps) k)
     /\ dict_get (Priority.error_map ps) k
        = Ok (lookup_or_none (Priority.error_map ps) k))
  /\ (forall response error api_type track first detail,
        error_truthy error = false ->
        fedex_tracks response track first detail ->
        hashable (attr first "statusCode") = true ->
        api_type = "By Reference" \/ api_type = "By Tracking ID" ->
        let r := FedEx.update_delivery_note_with_fedex_details env fs dn response
                   error api_type s in
        let registered :=
          dict_find (FedEx.success_map fs) (attr first "statusCode") in
        snd r = Ok tt
        /\ (forall status, registered = Some status -> truthy status = true ->
            custom_tracking (doc (fst r)) = status)
        /\ (forall status, registered = Some status -> truthy status = false ->
            custom_tracking (doc (fst r)) = attr detail "description")
        /\ (registered = None ->
            custom_tracking (doc (fst r)) = attr detail "description")
        /\ (registered = None -> Py.assoc "description" detail = None ->
            custom_tracking (doc (fst r)) = PNone))
  /\ (forall response error shipment,
        Priority.error_truthy error = false ->
        priority_tracks response shipment ->
        hashable (attr shipment "status") = true ->
        let r := Priority.update_delivery_note_with_priority_details env ps dn
                   response error s in
        let registered :=
          dict_find (Priority.success_map ps) (attr shipment "status") in
        snd r = Ok tt
        /\ (forall status, registered = Some status ->
            custom_tracking (doc (fst r)) = status)
        /\ (registered = None -> custom_tracking (doc (fst r)) = PNone)).
Proof.
  split; [|split].
  - intros k Hk. repeat split; apply dict_get_total; exact Hk.
  - intros response error api_type track first detail He Ht Hh Hapi.
    cbv zeta.
    rewrite (fedex_data_found env fs dn response error api_type s track first
               detail He Ht Hh Hapi).
    cbn [fst snd doc]. unfold fedex_saved. cbv zeta.
    match goal with
    | |- context [FedEx.processing_rule env ?x] =>
        destruct (processing_rule_spec env x) as (H1 & _)
    end.
    rewrite H1. cbn [custom_tracking set_custom_tracking].
    unfold fedex_status, or_.
    split; [reflexivity|]. split; [|split; [|split]].
    + intros status Hr Hs. rewrite Hr, Hs. reflexivity.
    + intros status Hr Hs. rewrite Hr, Hs. reflexivity.
    + intros Hr. rewrite Hr. reflexivity.
    + intros Hr Hd. rewrite Hr. cbn. unfold attr. rewrite Hd. reflexivity.
  - intros response error shipment He Ht Hh.
    cbv zeta.
    rewrite (priority_data_found env ps dn response error s shipment He Ht Hh).
    cbn [fst snd doc with_doc custom_tracking set_custom_tracking
         set_custom_last_api_call].
    unfold lookup_or_none.
    split; [reflexivity|]. split.
    + intros status Hr. rewrite Hr. reflexivity.
    + intros Hr. rewrite Hr. reflexivity.
Qed.

(** At C1 as stated: a Priority poll whose status text is not registered,
    and a FedEx poll whose code is not registered and that carries no
    description, both store [None] as the status, not a string and not
    "Unmapped". *)
Lemma unregistered_status_is_stored_as_none :
  let p := Priority.update_delivery_note_with_priority_details Sample.env0
             Sample.priority_settings "DN-0001"
             (Sample.priority_answer (PStr "PRO-7781") (PStr "Picked Up"))
             None Sample.db0 in
  let f := FedEx.update_delivery_note_with_fedex_details Sample.env0
             Sample.fedex_settings "DN-0001"
             (PDict [("output",
                      PDict [("completeTrackResults",
                              PList [PDict [("trackingNumber",
                                             PStr "794644790138");
                                            ("trackResults",
                                             PList [PDict [("statusCode",
                                                            PStr "ZZ");
                                                           ("latestStatusDetail",
                                                            PDict [("code",
                                                                    PStr "ZZ")])]])]])])])
             None "By Tracking ID" Sample.db0 in
  snd p = Ok tt /\ custom_tracking (doc (fst p)) = PNone
  /\ snd f = Ok tt /\ custom_tracking (doc (fst f)) = PNone.
Proof. cbv zeta. repeat split; reflexivity. Qed.

Lemma unregistered_code_falls_back_witness :
  let r := FedEx.update_delivery_note_with_fedex_details Sample.env0
             Sample.fedex_settings "DN-0001"
             (Sample.fedex_answer (PStr "794644790138") (PStr "HL") (PStr "HL")
                (PStr "Hold at location"))
             None "By Tracking ID" Sample.db0 in
  custom_tracking (doc (fst r)) = PStr "Hold at location".
Proof.
  cbv zeta.
  destruct (unregistered_code_falls_back Sample.env0 Sample.fedex_settings
              Sample.priority_settings "DN-0001" Sample.db0) as (_ & H & _).
  specialize (H (Sample.fedex_answer (PStr "794644790138") (PStr "HL")
                   (PStr "HL") (PStr "Hold at location"))
                None "By Tracking ID"
                [("trackingNumber", PStr "794644790138");
                 ("trackResults",
                  PList [PDict [("statusCode", PStr "HL");
                                ("latestStatusDetail",
                                 PDict [("code", PStr "HL");
                                        ("description",
                                         PStr "Hold at location")])]])]
                [("statusCode", PStr "HL");
                 ("latestStatusDetail",
                  PDict [("code", PStr "HL");
                         ("description", PStr "Hold at location")])]
                [("code", PStr "HL"); ("description", PStr "Hold at location")]
                eq_refl).
  cbv zeta in H.
  destruct H as (_ & _ & _ & Hd & _).
  - unfold fedex_tracks, Sample.fedex_answer.
    do 4 eexists. repeat split; reflexivity.
  - reflexivity.
  - right; reflexivity.
  - apply Hd. reflexivity.
Defined.

(** *** The first package of a by-reference answer *)

(** Where every package carries a registered status code, a UPS
    by-reference answer is saved with the tracking number and the status
    code of the first package, the registry's status for that code and the
    time of the poll. *)
Lemma ups_first_package_captured (env : Env) (us : UPS.Settings) (dn : string)
    (result : value) (error : option ApiError) (s : DB)
    (packages : list value) (package0 : list (string * value))
    (tid code : value) (rows : list TrackingDetail) :
  error_truthy error = false ->
  ups_tracks result packages package0 tid code ->
  package_rows env us packages = Ok rows ->
  let r := UPS.set_data_in_delivery_note env us dn result error "By Reference"
             s in
  snd r = Ok tt
  /\ tracking_number (doc (fst r)) = tid
  /\ custom_tracking_code (doc (fst r)) = code
  /\ custom_tracking (doc (fst r)) = UPS.parent_jammy_status_code env us code
  /\ custom_last_api_call (doc (fst r)) = PStr (now env).
Proof.
  intros He Ht Hr. cbv zeta.
  rewrite (ups_by_reference_found env us dn result error s packages package0 tid
             code He Ht).
  rewrite Hr. cbn [fst snd doc with_doc]. rewrite add_rows_scalars.
  repeat split; reflexivity.
Qed.

(** C3 at a by-reference answer of two packages, the first with the
    registered code "5" and the second with a code that the registry does
    not hold.  The registry maps "5" to "In Transit", and an answer with
    the first package alone is saved with its tracking number, the code
    "5", the status "In Transit" and the time of the poll; but with the
    second package the loop over the packages raises [KeyError] before the
    save: the call stores nothing, neither the tracking number nor the
    status nor the time. *)
Theorem ups_by_reference_unregistered_package_raises :
  let poll packages :=
    UPS.set_data_in_delivery_note Sample.env0 Sample.ups_settings "DN-0001"
      (Sample.ups_answer packages) None "By Reference" Sample.db0 in
  let first := Sample.ups_package "1Z999AA10123456784" "5" in
  let second := Sample.ups_package "1Z999AA10123456795" "150" in
  UPS.parent_jammy_status_code Sample.env0 Sample.ups_settings (PStr "5")
  = PStr "In Transit"
  /\ snd (poll [first]) = Ok tt
  /\ tracking_number (doc (fst (poll [first]))) = PStr "1Z999AA10123456784"
  /\ custom_tracking_code (doc (fst (poll [first]))) = PStr "5"
  /\ custom_tracking (doc (fst (poll [first]))) = PStr "In Transit"
  /\ custom_last_api_call (doc (fst (poll [first])))
     = PStr "2024-05-02 10:15:00.000000"
  /\ poll [first; second] = (Sample.db0, Raise KeyError)
  /\ tracking_number (doc (fst (poll [first; second]))) = PNone
  /\ custom_tracking (doc (fst (poll [first; second]))) = PNone.
Proof. cbv zeta. repeat split; reflexivity. Qed.

(** The code that FedEx looks up is the [statusCode] of the first track
    result, while the code it stores is the [code] of the latest status
    detail: an answer without [statusCode] gets the carrier's description
    as its status even when the stored code is registered. *)
Lemma fedex_looks_up_statusCode :
  let r := FedEx.update_delivery_note_with_fedex_details Sample.env0
             Sample.fedex_settings "DN-0001"
             (PDict [("output",
                      PDict [("completeTrackResults",
                              PList [PDict [("trackingNumber",
                                             PStr "794644790138");
                                            ("trackResults",
                                             PList [PDict [("latestStatusDetail",
                                                            PDict [("code",
                                                                    PStr "OC");
                                                                   ("description",
                                                                    PStr "Order Created")])]])]])])])
             None "By Reference" Sample.db0 in
  dict_find (FedEx.success_map Sample.fedex_settings) (PStr "OC")
  = Some (PStr "Processing")
  /\ tracking_number (doc (fst r)) = PStr "794644790138"
  /\ custom_tracking_code (doc (fst r)) = PStr "OC"
  /\ custom_tracking (doc (fst r)) = PStr "Order Created".
Proof. cbv zeta. repeat split; reflexivity. Qed.

(** *** Transport errors *)


Lemma priority_traceback_saved (env : Env) (ps : Priority.Settings)
    (dn : string) (response : value) (tb : string) (s : DB) :
  tb <> "" ->
  let r := Priority.update_delivery_note_with_priority_details env ps dn
             response (Some (Priority.ErrTraceback tb)) s in
  snd r = Ok tt
  /\ doc (fst r) = set_custom_tracking (PStr "Exception") (doc s).
Proof.
  intro Hne. unfold Priority.update_delivery_note_with_priority_details. run.
  cbn [Priority.error_truthy Priority.is_dict].
  destruct (tb =? "") eqn:E; [apply String.eqb_eq in E; contradiction|].
  cbn. split; reflexivity.
Qed.

(** C7 at FedEx: a transport error whose text is not JSON, such as the
    traceback that [make_api_request] returns after a network failure,
    makes [json.loads] raise before anything is logged or saved.  The call
    ends in [JSONDecodeError] and the stored state is untouched: no
    "Exception" status is written.  The one-element tuple that
    [make_api_request] builds for an empty body ends in [TypeError] the
    same way. *)
Theorem fedex_unparseable_error_raises (env : Env) (fs : FedEx.Settings)
    (dn : string) (response : value) (api_type : string) (s : DB)
    (text : string) :
  text <> "" ->
  json_loads env text = None ->
  FedEx.update_delivery_note_with_fedex_details env fs dn response
    (Some (ErrStr text)) api_type s
  = (s, Raise JSONDecodeError)
  /\ FedEx.update_delivery_note_with_fedex_details env fs dn response
       (Some (ErrTuple text)) api_type s
     = (s, Raise TypeError).
Proof.
  intros Hne Hj.
  unfold FedEx.update_delivery_note_with_fedex_details, FedEx.loads. run.
  cbn [error_truthy].
  destruct (text =? "") eqn:E; [apply String.eqb_eq in E; contradiction|].
  cbn [negb]. rewrite Hj. split; reflexivity.
Qed.

Lemma fedex_unparseable_error_raises_witness :
  FedEx.update_delivery_note_with_fedex_details Sample.env0
    Sample.fedex_settings "DN-0001" (PDict [])
    (Some (ErrStr "Traceback (most recent call last): ..."))
    "By Reference" Sample.db0
  = (Sample.db0, Raise JSONDecodeError).
Proof.
  apply (fedex_unparseable_error_raises Sample.env0 Sample.fedex_settings
           "DN-0001" (PDict []) "By Reference" Sample.db0
           "Traceback (most recent call last): ...").
  - discriminate.
  - reflexivity.
Defined.

(** The same from the poll itself: when the carrier cannot be reached,
    [fetch_fedex_tracking_details] ends in [JSONDecodeError] and the
    Delivery Note is stored as it was. *)
Lemma fedex_poll_unreachable_carrier :
  let r := FedEx.fetch_fedex_tracking_details Sample.env0 Sample.fedex_settings
             "DN-0001" Sample.db0 in
  snd r = Raise JSONDecodeError /\ doc (fst r) = Sample.dn0.
Proof. cbv zeta. split; reflexivity. Qed.

(** What Priority does with an HTTP error whose code is not registered:
    [error_map.get] returns [None] and reading its description raises. *)
Lemma priority_unregistered_http_code_raises :
  let r := Priority.update_delivery_note_with_priority_details Sample.env0
             Sample.priority_settings "DN-0001" (PDict [])
             (Some (Priority.ErrDict (Some "<html>502 Bad Gateway</html>") 502))
             Sample.db0 in
  snd r = Raise AttributeError /\ doc (fst r) = Sample.dn0.
Proof. cbv zeta. split; reflexivity. Qed.

(** *** A token that could not be issued *)







Lemma fedex_update_sent (env : Env) (fs : FedEx.Settings) (dn : string)
    (response : value) (error : option ApiError) (api_type : string) (s : DB) :
  sent (fst (FedEx.update_delivery_note_with_fedex_details env fs dn response
               error api_type s))
  = sent s.
Proof.
  unfold FedEx.update_delivery_note_with_fedex_details, FedEx.status_of,
    FedEx.first_track_result, FedEx.loads.
  run. run_left; reflexivity.
Qed.






(** *** The first incident of Priority *)

Lemma priority_500_saved (env : Env) (settings : Priority.Settings)
    (dn : string) (response : value) (content : option string) (descr : value)
    (s : DB) :
  dict_find (Priority.error_map settings) (PStr "500")
  = Some (PDict [("priority_error_description", descr);
                 ("jammy_description", PStr "DN Not Found")]) ->
  let r := Priority.update_delivery_note_with_priority_details env settings dn
             response (Some (Priority.ErrDict content 500)) s in
  snd r = Ok tt
  /\ doc (fst r)
     = Priority.incident_rule env
         (set_custom_tracking (PStr "DN Not Found") (doc s)).
Proof.
  intro Hreg.
  unfold Priority.update_delivery_note_with_priority_details.
  run. cbn -[Priority.error_map Priority.incident_rule].
  unfold dict_get. cbn -[Priority.error_map Priority.incident_rule].
  rewrite Hreg. cbn -[Priority.incident_rule]. split; reflexivity.
Qed.

Lemma incident_rule_spec (env : Env) (status : value) (d : DeliveryNote) :
  let d' := Priority.incident_rule env (set_custom_tracking status d) in
  custom_tracking d' = status
  /\ (custom_incident_first_date d = PNone ->
      custom_incident_first_date d' = PStr (today env))
  /\ (custom_incident_first_date d <> PNone ->
      custom_incident_first_date d' = custom_incident_first_date d)
  /\ same_tracking_data d d'.
Proof.
  unfold Priority.incident_rule, same_tracking_data. cbn.
  destruct (py_eq (custom_incident_first_date d) PNone) eqn:E; cbn.
  - apply py_eq_none in E. repeat split; try reflexivity. congruence.
  - apply py_eq_none_false in E. repeat split; try reflexivity. congruence.
Qed.

(** A Priority poll whose carrier answers with the status [code] and a body
    hands the normaliser the error [dict] of that code. *)
Lemma priority_poll_http_error (env : Env) (ps : Priority.Settings) (dn : string)
    (s : DB) (code : Z) (content : string) (json : option value) :
  (forall q, http env q = Response code content json) ->
  code <> 200%Z -> code <> 201%Z ->
  exists s1,
    doc s1 = doc s
    /\ Priority.fetch_priority_tracking_details env ps dn s
       = Priority.update_delivery_note_with_priority_details env ps dn (PDict [])
           (Some (Priority.ErrDict
                    (if negb (content =? "") then Some content else None) code))
           s1.
Proof.
  intros Hq H200 H201.
  unfold Priority.fetch_priority_tracking_details, Priority.PriorityIntegration,
    Priority.get_auth_token, Priority.make_api_request.
  run.
  assert (E1 : (code =? 200)%Z = false) by (apply Z.eqb_neq; exact H200).
  assert (E2 : (code =? 201)%Z = false) by (apply Z.eqb_neq; exact H201).
  destruct (negb (truthy (cache_find Priority.ACCESS_TOKEN_KEY (cache s))));
    cbn [fst snd]; rewrite !Hq; cbn [existsb]; rewrite E1, E2; cbn [orb];
    destruct (negb (content =? "")); cbn [fst snd];
    eexists; (split; [|reflexivity]); reflexivity.
Qed.

(** C9: a Priority poll that ends in an HTTP 500 whose registered entry
    maps to "DN Not Found" returns normally, stores that status, stamps
    [custom_incident_first_date] with today when it was absent, leaves an
    already set date alone, and touches no other field; this holds for the
    normaliser given the error of the carrier, and for the whole poll when
    the carrier answers 500. *)
Theorem priority_500_dn_not_found
    (env : Env) (settings : Priority.Settings) (dn : string) (descr : value)
    (s : DB)
    (Hreg : dict_find (Priority.error_map settings) (PStr "500")
            = Some (PDict [("priority_error_description", descr);
                           ("jammy_description", PStr "DN Not Found")])) :
  let outcome (r : DB * result unit) :=
    let d := doc s in
    let d' := doc (fst r) in
    snd r = Ok tt
    /\ custom_tracking d' = PStr "DN Not Found"
    /\ (custom_incident_first_date d = PNone ->
        custom_incident_first_date d' = PStr (today env))
    /\ (custom_incident_first_date d <> PNone ->
        custom_incident_first_date d' = custom_incident_first_date d)
    /\ same_tracking_data d d' in
  (forall response content,
     outcome (Priority.update_delivery_note_with_priority_details env settings
                dn response (Some (Priority.ErrDict content 500)) s))
  /\ (forall content json,
        (forall q, http env q = Response 500 content json) ->
        outcome (Priority.fetch_priority_tracking_details env settings dn s)).
Proof.
  cbv zeta. split.
  - intros response content.
    destruct (priority_500_saved env settings dn response content descr s Hreg)
      as (Hr & Hd).
    rewrite Hd. split; [exact Hr|].
    apply (incident_rule_spec env (PStr "DN Not Found") (doc s)).
  - intros content json Hq.
    destruct (priority_poll_http_error env settings dn s 500 content json Hq)
      as (s1 & Hs1 & Hp); [discriminate | discriminate |].
    rewrite Hp.
    destruct (priority_500_saved env settings dn (PDict [])
                (if negb (content =? "") then Some content else None) descr s1
                Hreg) as (Hr & Hd).
    rewrite Hd, Hs1. split; [exact Hr|].
    apply (incident_rule_spec env (PStr "DN Not Found") (doc s)).
Qed.

Lemma priority_500_dn_not_found_witness :
  let r := Priority.update_delivery_note_with_priority_details Sample.env0
             Sample.priority_settings "DN-0001" (PDict [])
             (Some (Priority.ErrDict (Some "No shipments found") 500))
             Sample.db0 in
  dict_find (Priority.error_map Sample.priority_settings) (PStr "500")
  = Some (PDict [("priority_error_description",
                  PStr "No shipments found matching identifier type PurchaseOrder with value DN-5361s1");
                 ("jammy_description", PStr "DN Not Found")])
  /\ custom_tracking (doc (fst r)) = PStr "DN Not Found"
  /\ custom_incident_first_date (doc (fst r)) = PStr "2024-05-02".
Proof.
  cbv zeta. split; [reflexivity|].
  destruct (priority_500_dn_not_found Sample.env0 Sample.priority_settings
              "DN-0001"
              (PStr "No shipments found matching identifier type PurchaseOrder with value DN-5361s1")
              Sample.db0 eq_refl) as (H & _).
  destruct (H (PDict []) (Some "No shipments found")) as (_ & Hs & Hi & _).
  split; [exact Hs | apply Hi; reflexivity].
Defined.

(* ================================================================== *)
(** ** Further properties of the modules *)
(* ================================================================== *)

(** *** The registries built from the settings rows *)

Lemma b2z_eqb (x y : bool) : (Z.b2z x =? Z.b2z y)%Z = Bool.eqb x y.
Proof. destruct x, y; reflexivity. Qed.

(** Keys that are equal behave alike against any other key. *)
Lemma py_eq_left (a b c : value) :
  py_eq a b = true -> py_eq a c = py_eq b c.
Proof.
  destruct a as [|x|x|x|x|x], b as [|y|y|y|y|y]; cbn; try discriminate;
    intro H.
  - reflexivity.
  - apply Bool.eqb_prop in H. subst. reflexivity.
  - apply Z.eqb_eq in H. subst.
    destruct c; cbn; try reflexivity. now rewrite b2z_eqb.
  - apply Z.eqb_eq in H. subst.
    destruct c; cbn; try reflexivity. now rewrite b2z_eqb.
  - apply Z.eqb_eq in H. subst. reflexivity.
  - apply String.eqb_eq in H. subst. reflexivity.
Qed.

Lemma py_eq_sym (a b : value) : py_eq a b = py_eq b a.
Proof.
  destruct a, b; cbn; try reflexivity.
  - destruct b, b0; reflexivity.
  - apply Z.eqb_sym.
  - apply Z.eqb_sym.
  - apply Z.eqb_sym.
  - apply String.eqb_sym.
Qed.

Lemma py_eq_right (a b c : value) :
  py_eq a b = true -> py_eq c a = py_eq c b.
Proof.
  intro H. rewrite (py_eq_sym c a), (py_eq_sym c b). now apply py_eq_left.
Qed.

(** Reading a dictionary after [update]: the key just written, or any key
    equal to it, gives the new value; every other key reads as before. *)
Lemma dict_find_update (m : dict) (k1 v k : value) :
  dict_find (dict_update m k1 v) k
  = if py_eq k1 k then Some v else dict_find m k.
Proof.
  induction m as [|[k' v'] m IH]; cbn.
  - reflexivity.
  - destruct (py_eq k' k1) eqn:E1; cbn.
    + rewrite (py_eq_left k' k1 k E1). destruct (py_eq k1 k); reflexivity.
    + rewrite IH. destruct (py_eq k' k) eqn:E2; [|reflexivity].
      destruct (py_eq k1 k) eqn:E3; [|reflexivity].
      rewrite (py_eq_right k1 k k' E3) in E1. congruence.
Qed.

Section Registry.

Context {R : Type} (key val : R -> value).

Let build (rows : list R) (m : dict) : dict :=
  fold_left (fun m r => dict_update m (key r) (val r)) rows m.

Lemma build_no_row (rows : list R) (m : dict) (k : value) :
  (forall x, In x rows -> py_eq (key x) k = false) ->
  dict_find (build rows m) k = dict_find m k.
Proof.
  revert m. induction rows as [|r rows IH]; intros m H; cbn.
  - reflexivity.
  - unfold build in IH. rewrite IH by (intros x Hx; apply H; now right).
    rewrite dict_find_update, (H r) by now left. reflexivity.
Qed.

Lemma build_last_row (before after : list R) (r : R) (m : dict) (k : value) :
  py_eq (key r) k = true ->
  (forall x, In x after -> py_eq (key x) k = false) ->
  dict_find (build (before ++ r :: after) m) k = Some (val r).
Proof.
  intros Hr Ha. unfold build. rewrite fold_left_app. cbn.
  change (dict_find (build after
                       (dict_update
                          (fold_left (fun m r => dict_update m (key r) (val r))
                                     before m)
                          (key r) (val r))) k = Some (val r)).
  rewrite build_no_row by exact Ha.
  rewrite dict_find_update, Hr. reflexivity.
Qed.

End Registry.

(** X1: every registry that the modules build from the settings rows
    ([code_status_map] of UPS, both maps of [create_map_with_description]
    of FedEx and of Priority) gives, for a code, the status of the last row
    with that code: earlier rows with the same code are shadowed, and a
    code that no row has is not found. *)
Theorem registry_last_row_wins (us : UPS.Settings) (fs : FedEx.Settings)
    (ps : Priority.Settings) (k : value) :
  (forall before r after,
     UPS.status_code_description us = (before ++ r :: after)%list ->
     py_eq (UPS.status_code r) k = true ->
     (forall x, In x after -> py_eq (UPS.status_code x) k = false) ->
     dict_find (UPS.code_status_map us) k = Some (UPS.jammy_description r))
  /\ ((forall x, In x (UPS.status_code_description us) ->
                 py_eq (UPS.status_code x) k = false) ->
      dict_find (UPS.code_status_map us) k = None)
  /\ (forall before r after,
        FedEx.tracking_code_description fs = (before ++ r :: after)%list ->
        py_eq (FedEx.fedex_status_code r) k = true ->
        (forall x, In x after -> py_eq (FedEx.fedex_status_code x) k = false) ->
        dict_find (FedEx.success_map fs) k
        = Some (FedEx.tracking_jammy_description r))
  /\ ((forall x, In x (FedEx.tracking_code_description fs) ->
                 py_eq (FedEx.fedex_status_code x) k = false) ->
      dict_find (FedEx.success_map fs) k = None)
  /\ (forall before r after,
        FedEx.error_code_description fs = (before ++ r :: after)%list ->
        py_eq (FedEx.fedex_error_code r) k = true ->
        (forall x, In x after -> py_eq (FedEx.fedex_error_code x) k = false) ->
        dict_find (FedEx.error_map fs) k
        = Some (FedEx.error_jammy_description r))
  /\ ((forall x, In x (FedEx.error_code_description fs) ->
                 py_eq (FedEx.fedex_error_code x) k = false) ->
      dict_find (FedEx.error_map fs) k = None)
  /\ (forall before r after,
        Priority.response_code_details ps = (before ++ r :: after)%list ->
        py_eq (Priority.priority_status_description r) k = true ->
        (forall x, In x after ->
                   py_eq (Priority.priority_status_description x) k = false) ->
        dict_find (Priority.success_map ps) k
        = Some (Priority.success_jammy_description r))
  /\ ((forall x, In x (Priority.response_code_details ps) ->
                 py_eq (Priority.priority_status_description x) k = false) ->
      dict_find (Priority.success_map ps) k = None)
  /\ (forall before r after,
        Priority.error_code_details ps = (before ++ r :: after)%list ->
        py_eq (Priority.response_code r) k = true ->
        (forall x, In x after -> py_eq (Priority.response_code x) k = false) ->
        dict_find (Priority.error_map ps) k
        = Some (PDict [("priority_error_description",
                        Priority.priority_error_code_description r);
                       ("jammy_description", Priority.jammy_description r)]))
  /\ ((forall x, In x (Priority.error_code_details ps) ->
                 py_eq (Priority.response_code x) k = false) ->
      dict_find (Priority.error_map ps) k = None).
Proof.
  unfold UPS.code_status_map, FedEx.success_map, FedEx.error_map,
    Priority.success_map, Priority.error_map.
  repeat split.
  - intros before r after -> Hr Ha.
    apply (build_last_row UPS.status_code UPS.jammy_description); assumption.
  - intro H.
    apply (build_no_row UPS.status_code UPS.jammy_description); assumption.
  - intros before r after -> Hr Ha.
    apply (build_last_row FedEx.fedex_status_code
             FedEx.tracking_jammy_description); assumption.
  - intro H.
    apply (build_no_row FedEx.fedex_status_code
             FedEx.tracking_jammy_description); assumption.
  - intros before r after -> Hr Ha.
    apply (build_last_row FedEx.fedex_error_code
             FedEx.error_jammy_description); assumption.
  - intro H.
    apply (build_no_row FedEx.fedex_error_code
             FedEx.error_jammy_description); assumption.
  - intros before r after -> Hr Ha.
    apply (build_last_row Priority.priority_status_description
             Priority.success_jammy_description); assumption.
  - intro H.
    apply (build_no_row Priority.priority_status_description
             Priority.success_jammy_description); assumption.
  - intros before r after -> Hr Ha.
    apply (build_last_row Priority.response_code
             (fun r => PDict [("priority_error_description",
                               Priority.priority_error_code_description r);
                              ("jammy_description",
                               Priority.jammy_description r)])); assumption.
  - intro H.
    apply (build_no_row Priority.response_code
             (fun r => PDict [("priority_error_description",
                               Priority.priority_error_code_description r);
                              ("jammy_description",
                               Priority.jammy_description r)])); assumption.
Qed.

Lemma registry_last_row_wins_witness :
  dict_find (FedEx.success_map fedex_repeated_settings) (PStr "CA")
  = Some (PStr "Carrier").
Proof.
  destruct (registry_last_row_wins Sample.ups_settings fedex_repeated_settings
              Sample.priority_settings (PStr "CA")) as (_ & _ & H & _).
  apply (H [FedEx.mkTrackingCode (PStr "CA") (PStr "Cancelled");
            FedEx.mkTrackingCode (PStr "EA") (PStr "In Transit");
            FedEx.mkTrackingCode (PStr "RC") (PStr "In Transit");
            FedEx.mkTrackingCode (PStr "SP") (PStr "Split In Transit");
            FedEx.mkTrackingCode (PStr "EA") (PStr "In Transit");
            FedEx.mkTrackingCode (PStr "SP") (PStr "Split In Tranist")]
           (FedEx.mkTrackingCode (PStr "CA") (PStr "Carrier"))
           [FedEx.mkTrackingCode (PStr "RC") (PStr "Recipient");
            FedEx.mkTrackingCode (PStr "SP") (PStr "Split In Transit")]).
  - reflexivity.
  - reflexivity.
  - intros x [<- | [<- | []]]; reflexivity.
Defined.

(** *** The two lookups of UPS *)

Lemma parent_loop_is_lookup (env : Env) (us : UPS.Settings) (code : value) :
  UPS.parent_jammy_status_code env us code
  = match dict_find (UPS.code_status_map us) (PInt (cint env code)) with
    | Some v => v
    | None => PStr ""
    end.
Proof.
  unfold UPS.parent_jammy_status_code, UPS.code_status_map.
  set (k := PInt (cint env code)).
  assert (H : forall rows acc m,
             acc = match dict_find m k with Some v => v | None => PStr "" end ->
             fold_left (fun acc status =>
                          if py_eq (UPS.status_code status) k
                          then UPS.jammy_description status else acc) rows acc
             = match dict_find
                       (fold_left (fun m status =>
                                     dict_update m (UPS.status_code status)
                                       (UPS.jammy_description status)) rows m) k
               with Some v => v | None => PStr "" end).
  { induction rows as [|r rows IH]; intros acc m Hacc; cbn; [exact Hacc|].
    apply IH. rewrite dict_find_update.
    destruct (py_eq (UPS.status_code r) k); [reflexivity | exact Hacc]. }
  apply H. reflexivity.
Qed.

(** X2: the two ways in which [set_data_in_delivery_note] reads the
    registry agree on every registered code: the loop for the parent
    status and the subscript of [code_status_map] give the same status.
    On a code that is not registered they part: the loop gives the empty
    string and the subscript raises [KeyError]. *)
Theorem ups_parent_loop_and_map_agree (env : Env) (us : UPS.Settings)
    (code : value) :
  let key := PInt (cint env code) in
  (forall status,
     dict_find (UPS.code_status_map us) key = Some status ->
     UPS.parent_jammy_status_code env us code = status
     /\ dict_getitem (UPS.code_status_map us) key = Ok status)
  /\ (dict_find (UPS.code_status_map us) key = None ->
      UPS.parent_jammy_status_code env us code = PStr ""
      /\ dict_getitem (UPS.code_status_map us) key = Raise KeyError).
Proof.
  cbv zeta. rewrite parent_loop_is_lookup. unfold dict_getitem. cbn [hashable].
  split.
  - intros status H. rewrite H. split; reflexivity.
  - intro H. rewrite H. split; reflexivity.
Qed.

Lemma ups_parent_loop_and_map_agree_witness :
  UPS.parent_jammy_status_code Sample.env0 Sample.ups_settings (PStr "11")
  = PStr "Delivered"
  /\ UPS.parent_jammy_status_code Sample.env0 Sample.ups_settings (PStr "150")
     = PStr "".
Proof.
  destruct (ups_parent_loop_and_map_agree Sample.env0 Sample.ups_settings
              (PStr "11")) as (H1 & _).
  destruct (ups_parent_loop_and_map_agree Sample.env0 Sample.ups_settings
              (PStr "150")) as (_ & H2).
  split.
  - apply (H1 (PStr "Delivered")). reflexivity.
  - apply H2. reflexivity.
Defined.

(** X3: a UPS answer whose code is not in the registry is lost.  By
    reference, when the code of the first package is not registered, and
    by tracking id, when the code of the latest activity is not
    registered, the call raises [KeyError] and the stored state is exactly
    what it was: the empty-string status of the parent loop is never
    saved. *)
Theorem ups_unregistered_code_stores_nothing (env : Env) (us : UPS.Settings)
    (dn : string) (result : value) (error : option ApiError) (s : DB)
    (code : value)
    (He : error_truthy error = false)
    (Hreg : dict_find (UPS.code_status_map us) (PInt (cint env code)) = None) :
  (forall packages package0 tid,
     ups_tracks result packages package0 tid code ->
     UPS.set_data_in_delivery_note env us dn result error "By Reference" s
     = (s, Raise KeyError))
  /\ (ups_activity result code ->
      UPS.set_data_in_delivery_note env us dn result error "By Tracking ID" s
      = (s, Raise KeyError)).
Proof.
  split.
  - intros packages package0 tid Ht.
    rewrite (ups_by_reference_found env us dn result error s packages package0
               tid code He Ht).
    destruct Ht as (kv & tkv & skv & rest & ckv & tail & _ & _ & _ & _ & _ & ->
                    & H5 & H6 & H7).
    cbn [package_rows].
    rewrite (getitem_assoc _ _ _ H5), (getitem_assoc _ _ _ H6),
      (getitem_assoc _ _ _ H7).
    unfold dict_getitem. cbn [hashable]. rewrite Hreg. reflexivity.
  - intros (kv & tkv & skv & rest & pkv & ptail & akv & atail & stkv & -> & H1
            & H2 & H3 & H4 & H5 & H6 & H7).
    unfold UPS.set_data_in_delivery_note. run. rewrite He.
    use_shape. cbn [String.eqb Ascii.eqb Bool.eqb]. use_shape.
    unfold dict_getitem. cbn [hashable]. rewrite Hreg. reflexivity.
Qed.

Lemma ups_unregistered_code_stores_nothing_witness :
  UPS.set_data_in_delivery_note Sample.env0 Sample.ups_settings "DN-0001"
    (Sample.ups_answer [Sample.ups_package "1Z999AA10123456795" "150"])
    None "By Reference" Sample.db0
  = (Sample.db0, Raise KeyError).
Proof.
  destruct (ups_unregistered_code_stores_nothing Sample.env0 Sample.ups_settings
              "DN-0001"
              (Sample.ups_answer [Sample.ups_package "1Z999AA10123456795" "150"])
              None Sample.db0 (PStr "150") eq_refl eq_refl) as (H & _).
  apply (H [Sample.ups_package "1Z999AA10123456795" "150"]
           [("trackingNumber", PStr "1Z999AA10123456795");
            ("currentStatus",
             PDict [("description", PStr "-"); ("code", PStr "150")])]
           (PStr "1Z999AA10123456795")).
  unfold ups_tracks, Sample.ups_answer, Sample.ups_package.
  do 6 eexists. repeat split; reflexivity.
Defined.

(** X4: a UPS answer without data changes nothing.  When the first
    shipment has no warnings and its list of packages is empty, with either
    tracking method, and when a lookup by tracking id finds a package whose
    list of activities is empty, the call returns normally and the stored
    state is exactly what it was: no status, no code and no time of the
    poll is written. *)
Theorem ups_empty_answer_stores_nothing (env : Env) (us : UPS.Settings)
    (dn : string) (result : value) (error : option ApiError) (s : DB)
    (He : error_truthy error = false) :
  (ups_no_packages result ->
   forall tracking_method,
     UPS.set_data_in_delivery_note env us dn result error tracking_method s
     = (s, Ok tt))
  /\ (ups_no_activity result ->
      UPS.set_data_in_delivery_note env us dn result error "By Tracking ID" s
      = (s, Ok tt)).
Proof.
  split.
  - intros (kv & tkv & skv & rest & -> & H1 & H2 & H3 & H4) mode.
    unfold UPS.set_data_in_delivery_note. run. rewrite He.
    use_shape. reflexivity.
  - intros (kv & tkv & skv & rest & pkv & ptail & -> & H1 & H2 & H3 & H4 & H5).
    unfold UPS.set_data_in_delivery_note. run. rewrite He.
    use_shape. cbn [String.eqb Ascii.eqb Bool.eqb]. use_shape. reflexivity.
Qed.

Lemma ups_empty_answer_stores_nothing_witness :
  UPS.set_data_in_delivery_note Sample.env0 Sample.ups_settings "DN-0001"
    (Sample.ups_answer []) None "By Reference" Sample.db0
  = (Sample.db0, Ok tt).
Proof.
  destruct (ups_empty_answer_stores_nothing Sample.env0 Sample.ups_settings
              "DN-0001" (Sample.ups_answer []) None Sample.db0 eq_refl)
    as (H & _).
  apply H. unfold ups_no_packages, Sample.ups_answer.
  do 4 eexists. repeat split; reflexivity.
Defined.

(** *** One request, one answer *)

Ltac outcome_leaf :=
  unfold request_outcome; cbn [fst snd doc cache sent request_log error_log];
  do 2 eexists; split; [reflexivity|]; split; [reflexivity|];
  split; [reflexivity|]; split; [reflexivity|]; split; [reflexivity|];
  repeat split; intros;
  repeat match goal with
         | H : exists _, _ |- _ => destruct H
         | H : _ /\ _ |- _ => destruct H
         | Hq : http ?e ?q = _, H : http ?e ?q = _ |- _ =>
             rewrite Hq in H
         | H : Response _ _ _ = Response _ _ _ |- _ =>
             injection H as ? ? ?; subst
         | Hq : http ?e ?q = _,
           H : forall code content json, http ?e ?q = _ -> _ |- _ =>
             specialize (H _ _ _ Hq)
         end;
  try discriminate; try congruence; try reflexivity;
  try (do 2 eexists; split; eassumption);
  try (eexists; reflexivity).

(** X5: [make_api_request] of each module never raises and always returns
    a pair.  It sends the one request it was given, leaves the Delivery
    Note and the token cache alone and writes one Integration Request,
    "Failed" exactly when the error it returns is truthy.  The error is
    [None] exactly when the carrier answered under a success code with a
    JSON body, which is then the result; with any error the result is the
    empty dictionary.  An Error Log is written exactly for an answer
    outside the success codes. *)
Theorem make_api_request_outcome (env : Env) (method url : string)
    (headers : list (string * value)) (json_data : value)
    (params : list (string * string)) (codes : list Z) (service : string)
    (s : DB) :
  request_outcome error_truthy env codes service
    (mkRequest method url headers params [] None json_data) s
    (UPS.make_api_request env method url headers json_data params codes
       service s)
  /\ request_outcome error_truthy env [200%Z; 201%Z] service
       (mkRequest method url headers [] [] None json_data) s
       (FedEx.make_api_request env method url headers json_data service s)
  /\ request_outcome Priority.error_truthy env [200%Z; 201%Z] service
       (mkRequest method url headers [] [] None json_data) s
       (Priority.make_api_request env method url headers json_data service s).
Proof.
  split; [|split].
  - unfold UPS.make_api_request. run.
    destruct (http env _) as [|code content json] eqn:Hq; cbn -[existsb];
      [outcome_leaf|].
    destruct (existsb (Z.eqb code) codes) eqn:Hc; cbn -[existsb];
      [destruct json as [j|]; cbn -[existsb]|]; outcome_leaf.
  - unfold FedEx.make_api_request. run.
    destruct (http env _) as [|code content json] eqn:Hq; cbn -[existsb];
      [outcome_leaf|].
    destruct (existsb (Z.eqb code) [200%Z; 201%Z]) eqn:Hc; cbn -[existsb];
      [destruct json as [j|]; cbn -[existsb]|]; outcome_leaf.
  - unfold Priority.make_api_request. run.
    destruct (http env _) as [|code content json] eqn:Hq; cbn -[existsb];
      [outcome_leaf|].
    destruct (existsb (Z.eqb code) [200%Z; 201%Z]) eqn:Hc; cbn -[existsb];
      [destruct json as [j|]; cbn -[existsb]|]; outcome_leaf.
Qed.

(** *** The token cache *)

Lemma client_cache_hit (env : Env) (us : UPS.Settings) (fs : FedEx.Settings)
    (ps : Priority.Settings) (s : DB) :
  (truthy (cache_find UPS.ACCESS_TOKEN_KEY (cache s)) = true ->
   UPS.UPSClient env us s
   = (s, Ok [("Authorization",
              PStr ("Bearer "
                    ++ format (repr env)
                         (cache_find UPS.ACCESS_TOKEN_KEY (cache s))))]))
  /\ (truthy (cache_find FedEx.ACCESS_TOKEN_KEY (cache s)) = true ->
      FedEx.FedExIntegration env fs s
      = (s, Ok [("Authorization",
                 PStr ("Bearer "
                       ++ format (repr env)
                            (cache_find FedEx.ACCESS_TOKEN_KEY (cache s))))]))
  /\ (truthy (cache_find Priority.ACCESS_TOKEN_KEY (cache s)) = true ->
      Priority.PriorityIntegration env ps s
      = (s, Ok [("X-API-KEY",
                 PStr (format (repr env)
                         (cache_find Priority.ACCESS_TOKEN_KEY (cache s))))])).
Proof.
  split; [|split]; intro H.
  - unfold UPS.UPSClient. run. rewrite H. reflexivity.
  - unfold FedEx.FedExIntegration. run. rewrite H. reflexivity.
  - unfold Priority.PriorityIntegration. run. rewrite H. reflexivity.
Qed.

(** X6: a poll with a token in the cache sends one request.  When the
    cached value of the carrier is truthy, the poll asks for no token: the
    only request it sends is the tracking request, which carries the
    cached value ("Bearer <token>" for UPS and FedEx, the bare value for
    Priority, where the key of the settings is not read). *)
Theorem poll_with_cached_token_sends_one_request (env : Env)
    (us : UPS.Settings) (fs : FedEx.Settings) (ps : Priority.Settings)
    (dn : string) (s : DB) :
  (truthy (cache_find UPS.ACCESS_TOKEN_KEY (cache s)) = true ->
   let r := UPS.get_ups_tracking_data env us dn s in
   sent (fst r)
   = (sent s ++ [ups_tracking_request env us dn (doc s)
                   (cache_find UPS.ACCESS_TOKEN_KEY (cache s))])%list)
  /\ (truthy (cache_find FedEx.ACCESS_TOKEN_KEY (cache s)) = true ->
      let r := FedEx.fetch_fedex_tracking_details env fs dn s in
      sent (fst r)
      = (sent s ++ [fedex_tracking_request env fs dn (doc s)
                      (cache_find FedEx.ACCESS_TOKEN_KEY (cache s))])%list)
  /\ (truthy (cache_find Priority.ACCESS_TOKEN_KEY (cache s)) = true ->
      let r := Priority.fetch_priority_tracking_details env ps dn s in
      sent (fst r)
      = (sent s ++ [priority_tracking_request env ps dn
                      (cache_find Priority.ACCESS_TOKEN_KEY (cache s))])%list).
Proof.
  destruct (client_cache_hit env us fs ps s) as (Hu & Hf & Hp).
  split; [|split]; intro H; cbv zeta.
  - specialize (Hu H).
    unfold UPS.get_ups_tracking_data. unfold Frappe.bind at 1. rewrite Hu.
    run. unfold ups_tracking_request.
    destruct (UPS.lookup env us dn (doc s)) as [[url params] mode].
    cbn [fst snd headers_update String.eqb Ascii.eqb Bool.eqb].
    match goal with
    | |- context [UPS.make_api_request env ?m ?u ?hh ?j ?p ?c ?sv s] =>
        pose proof (ups_make_api_request_effect env m u hh j p c sv s) as E;
        cbv zeta in E;
        destruct (UPS.make_api_request env m u hh j p c sv s) as [s1 r1];
        cbn [fst snd] in E;
        destruct E as (_ & _ & E3 & result & error & E4); subst r1
    end.
    cbn [fst snd]. rewrite ups_set_data_sent. exact E3.
  - specialize (Hf H).
    unfold FedEx.fetch_fedex_tracking_details. unfold Frappe.bind at 1.
    rewrite Hf. run. unfold fedex_tracking_request.
    cbn [fst snd headers_update String.eqb Ascii.eqb Bool.eqb].
    match goal with
    | |- context [FedEx.lookup env fs dn (doc s) ?h ?a] =>
        destruct (FedEx.lookup env fs dn (doc s) h a)
          as [[[mode url] hs] payload]
    end.
    cbn [fst snd].
    match goal with
    | |- context [FedEx.make_api_request env ?m ?u ?hh ?j ?sv s] =>
        pose proof (fedex_make_api_request_effect env m u hh j sv s) as E;
        cbv zeta in E;
        destruct (FedEx.make_api_request env m u hh j sv s) as [s1 r1];
        cbn [fst snd] in E;
        destruct E as (_ & _ & E3 & result & error & E4); subst r1
    end.
    cbn [fst snd]. rewrite fedex_update_sent. exact E3.
  - specialize (Hp H).
    unfold Priority.fetch_priority_tracking_details. unfold Frappe.bind at 1.
    rewrite Hp. run. unfold priority_tracking_request.
    cbn [fst snd headers_update String.eqb Ascii.eqb Bool.eqb].
    match goal with
    | |- context [Priority.make_api_request env ?m ?u ?hh ?j ?sv s] =>
        pose proof (priority_make_api_request_effect env m u hh j sv s) as E;
        cbv zeta in E;
        destruct (Priority.make_api_request env m u hh j sv s) as [s1 r1];
        cbn [fst snd] in E;
        destruct E as (_ & E3 & result & error & E4); subst r1
    end.
    cbn [fst snd]. rewrite priority_update_sent. exact E3.
Qed.

Lemma poll_with_cached_token_sends_one_request_witness :
  sent (fst (Priority.fetch_priority_tracking_details Sample.env0
               Sample.priority_settings "DN-0001"
               (with_token Priority.ACCESS_TOKEN_KEY (PStr "key-0") None []
                  Sample.db0)))
  = [priority_tracking_request Sample.env0 Sample.priority_settings "DN-0001"
       (PStr "key-0")].
Proof.
  destruct (poll_with_cached_token_sends_one_request Sample.env0
              Sample.ups_settings Sample.fedex_settings
              Sample.priority_settings "DN-0001"
              (with_token Priority.ACCESS_TOKEN_KEY (PStr "key-0") None []
                 Sample.db0)) as (_ & _ & H).
  apply H. reflexivity.
Defined.


(** X8: the key of Priority, once cached, outlives the settings.  With
    nothing truthy in the cache the client caches the key of the settings,
    without a lifetime and without a request; when that key is truthy,
    every later client, also one built after the key in the settings has
    been changed, still sends the cached key. *)
Theorem priority_key_is_cached_for_good (env : Env) (ps ps' : Priority.Settings)
    (s : DB) :
  truthy (cache_find Priority.ACCESS_TOKEN_KEY (cache s)) = false ->
  truthy (Priority.priority_api_key ps) = true ->
  let s' := with_token Priority.ACCESS_TOKEN_KEY (Priority.priority_api_key ps)
              None [] s in
  let header :=
    [("X-API-KEY", PStr (format (repr env) (Priority.priority_api_key ps)))] in
  fst (Priority.PriorityIntegration env ps s) = s'
  /\ snd (Priority.PriorityIntegration env ps s) = Ok header
  /\ Priority.PriorityIntegration env ps' s' = (s', Ok header).
Proof.
  intros Hc Ht. cbv zeta.
  unfold Priority.PriorityIntegration, Priority.get_auth_token, with_token. run.
  rewrite Hc. cbn [negb fst snd cache cache_find].
  rewrite String.eqb_refl, Ht, app_nil_r. cbn [negb]. repeat split; reflexivity.
Qed.


Lemma priority_key_is_cached_for_good_witness :
  Priority.PriorityIntegration Sample.env0
    (Priority.mkSettings (PStr "key-2") "" "" PNone [] [])
    (fst (Priority.PriorityIntegration Sample.env0 Sample.priority_settings
            Sample.db0))
  = (with_token Priority.ACCESS_TOKEN_KEY (PStr "key-1") None [] Sample.db0,
     Ok [("X-API-KEY", PStr "key-1")]).
Proof.
  destruct (priority_key_is_cached_for_good Sample.env0
              Sample.priority_settings
              (Priority.mkSettings (PStr "key-2") "" "" PNone [] [])
              Sample.db0 eq_refl eq_refl) as (H1 & _ & H3).
  rewrite H1. exact H3.
Defined.

(** *** What a poll never changes *)

Lemma ups_effect_keeps_tracking_number (env : Env) (mode : string)
    (failed : bool) (g : DeliveryNote -> DeliveryNote) (d : DeliveryNote) :
  ups_effect env mode failed g ->
  (mode =? "By Reference") = false ->
  tracking_number (g d) = tracking_number d.
Proof.
  intros [ | _ | _ | tid code status rows _ Hm | code status _ _] H;
    try reflexivity.
  congruence.
Qed.

Lemma fedex_effect_keeps_tracking_number (env : Env) (api_type : string)
    (failed : bool) (g : DeliveryNote -> DeliveryNote) (d : DeliveryNote) :
  fedex_effect env api_type failed g ->
  (api_type =? "By Reference") = false ->
  tracking_number (g d) = tracking_number d.
Proof.
  intros [ | _ | code status _ | tn code status _ Hm | code status _ _] H;
    try reflexivity.
  - congruence.
  - match goal with
    | |- context [FedEx.processing_rule env ?x] =>
        destruct (processing_rule_spec env x) as (_ & _ & Ht & _)
    end.
    rewrite Ht. reflexivity.
Qed.

(** X9: a tracking number, once known, is kept.  When the stored tracking
    number is not [None] as a UPS or FedEx poll starts, it is the same
    after the poll, whatever the carrier answers and whether the poll
    returns or raises; so the next poll looks the shipment up by tracking
    id again. *)
Theorem known_tracking_number_is_kept (env : Env) (us : UPS.Settings)
    (fs : FedEx.Settings) (dn : string) (s : DB)
    (Hknown : tracking_number (doc s) <> PNone) :
  let u := doc (fst (UPS.get_ups_tracking_data env us dn s)) in
  let f := doc (fst (FedEx.fetch_fedex_tracking_details env fs dn s)) in
  tracking_number u = tracking_number (doc s)
  /\ mode_at_start u = "By Tracking ID"
  /\ tracking_number f = tracking_number (doc s)
  /\ mode_at_start f = "By Tracking ID".
Proof.
  cbv zeta.
  assert (Hm : mode_at_start (doc s) = "By Tracking ID")
    by (apply mode_at_start_by_tracking_id; exact Hknown).
  assert (Hu : tracking_number (doc (fst (UPS.get_ups_tracking_data env us dn s)))
               = tracking_number (doc s)).
  { destruct (ups_poll_shape env us dn s)
      as (s1 & headers & result & error & Hd & _ & Hp).
    rewrite Hp, Hm.
    destruct (ups_two_runs env us dn result error "By Tracking ID" s1 s1)
      as (g & Hg & H1 & _).
    rewrite H1, <- Hd.
    eapply ups_effect_keeps_tracking_number; [exact Hg | reflexivity]. }
  assert (Hf : tracking_number
                 (doc (fst (FedEx.fetch_fedex_tracking_details env fs dn s)))
               = tracking_number (doc s)).
  { destruct (fedex_poll_shape env fs dn s)
      as (s1 & h & acc & result & error & Hd & _ & Hp).
    rewrite Hp, Hm.
    destruct (fedex_two_runs env fs dn result error "By Tracking ID" s1 s1)
      as (g & Hg & H1 & _).
    rewrite H1, <- Hd.
    eapply fedex_effect_keeps_tracking_number; [exact Hg | reflexivity]. }
  split; [exact Hu|]. split.
  - apply mode_at_start_by_tracking_id. rewrite Hu. exact Hknown.
  - split; [exact Hf|].
    apply mode_at_start_by_tracking_id. rewrite Hf. exact Hknown.
Qed.

Lemma known_tracking_number_is_kept_witness :
  tracking_number
    (doc (fst (UPS.get_ups_tracking_data Sample.env1 Sample.ups_settings
                 "DN-0001"
                 (mkDB (set_tracking_number (PStr "1Z999AA10123456784")
                          Sample.dn0) [] [] [] []))))
  = PStr "1Z999AA10123456784".
Proof.
  apply (known_tracking_number_is_kept Sample.env1 Sample.ups_settings
           Sample.fedex_settings "DN-0001"
           (mkDB (set_tracking_number (PStr "1Z999AA10123456784") Sample.dn0)
                 [] [] [] [])).
  discriminate.
Defined.

Lemma ups_effect_keeps_incident_date (env : Env) (mode : string)
    (failed : bool) (g : DeliveryNote -> DeliveryNote) (d : DeliveryNote) :
  ups_effect env mode failed g ->
  custom_incident_first_date (g d) = custom_incident_first_date d.
Proof.
  intros [ | _ | _ | tid code status rows _ _ | code status _ _];
    try reflexivity.
  rewrite add_rows_scalars. reflexivity.
Qed.

Lemma fedex_effect_keeps_incident_date (env : Env) (api_type : string)
    (failed : bool) (g : DeliveryNote -> DeliveryNote) (d : DeliveryNote) :
  fedex_effect env api_type failed g ->
  custom_incident_first_date (g d) = custom_incident_first_date d.
Proof.
  intros [ | _ | code status _ | tn code status _ _ | code status _ _];
    try reflexivity.
  all: unfold FedEx.processing_rule.
  all: repeat match goal with
              | |- context [if ?b then _ else _] => destruct b
              end; reflexivity.
Qed.

(** X10: the date of the first incident is written once and never again.
    A Priority call changes [custom_incident_first_date] only when the
    date is absent, to today, and this only for an HTTP error with the
    code 500; a date that is set survives every Priority call, the
    successful ones included, and no UPS or FedEx call changes the date at
    all. *)
Theorem incident_date_is_never_cleared (env : Env) (us : UPS.Settings)
    (fs : FedEx.Settings) (ps : Priority.Settings) (dn : string) (s : DB) :
  let before := custom_incident_first_date (doc s) in
  (forall response error,
     let after :=
       custom_incident_first_date
         (doc (fst (Priority.update_delivery_note_with_priority_details env ps
                      dn response error s))) in
     after = before
     \/ (before = PNone /\ after = PStr (today env)
         /\ exists content, error = Some (Priority.ErrDict content 500)))
  /\ (forall result error tracking_method,
        custom_incident_first_date
          (doc (fst (UPS.set_data_in_delivery_note env us dn result error
                       tracking_method s)))
        = before)
  /\ (forall response error api_type,
        custom_incident_first_date
          (doc (fst (FedEx.update_delivery_note_with_fedex_details env fs dn
                       response error api_type s)))
        = before).
Proof.
  cbv zeta. split; [|split].
  - intros response error.
    unfold Priority.update_delivery_note_with_priority_details. run.
    repeat match goal with
           | |- custom_incident_first_date (doc (fst ?t)) = _ \/ _ => step_in t
           end.
    all: try (left; reflexivity).
    destruct (py_eq (Priority.error_code error) (PInt 500)) eqn:E5;
      [|left; reflexivity].
    unfold Priority.incident_rule. cbn.
    destruct (py_eq (custom_incident_first_date (doc s)) PNone) eqn:E.
    + right. apply py_eq_none in E. split; [exact E|]. split; [reflexivity|].
      destruct error as [[tb|content code]|]; try discriminate.
      exists content. cbn in E5. apply Z.eqb_eq in E5. subst. reflexivity.
    + left. reflexivity.
  - intros result error mode.
    destruct (ups_two_runs env us dn result error mode s s) as (g & Hg & H1 & _).
    rewrite H1. eapply ups_effect_keeps_incident_date; eassumption.
  - intros response error api_type.
    destruct (fedex_two_runs env fs dn response error api_type s s)
      as (g & Hg & H1 & _).
    rewrite H1. eapply fedex_effect_keeps_incident_date; eassumption.
Qed.

(** *** Seeding the registry of Priority *)

Lemma to_int_not_nil (z : Z) :
  Z.to_int z <> Decimal.Pos Decimal.Nil /\ Z.to_int z <> Decimal.Neg Decimal.Nil.
Proof.
  destruct z; cbn; split; try discriminate; intro H; injection H as H;
    now apply DecimalPos.Unsigned.to_uint_nonnil in H.
Qed.

(** Different numbers are written differently. *)
Lemma decimal_inj (a b : Z) : decimal a = decimal b -> a = b.
Proof.
  intro H. apply (f_equal NilZero.int_of_string) in H. unfold decimal in H.
  destruct (to_int_not_nil a), (to_int_not_nil b).
  rewrite !NilZero.isi in H by assumption.
  injection H as H. apply (f_equal Z.of_int) in H.
  now rewrite !DecimalZ.of_to in H.
Qed.

Lemma decimal_eqb (a b : Z) : a <> b -> (decimal a =? decimal b) = false.
Proof.
  intro H. apply String.eqb_neq. intro E. apply H. now apply decimal_inj.
Qed.

(** X11: the seeding of the Priority registry fills only what is empty.
    Each of the two tables is seeded when, and only when, it has no row; a
    table that has rows is kept as it is, whatever they are, and the other
    settings are not touched.  After one run no table is empty, so a second
    run changes nothing. *)
Theorem priority_seeding_fills_empty_tables (settings : Priority.Settings) :
  let seeded := PrioritySeed.fillup_api_responce_code_details settings in
  (Priority.response_code_details settings = [] ->
   Priority.response_code_details seeded = PrioritySeed.success_codes)
  /\ (Priority.response_code_details settings <> [] ->
      Priority.response_code_details seeded
      = Priority.response_code_details settings)
  /\ (Priority.error_code_details settings = [] ->
      Priority.error_code_details seeded = PrioritySeed.error_codes)
  /\ (Priority.error_code_details settings <> [] ->
      Priority.error_code_details seeded = Priority.error_code_details settings)
  /\ Priority.priority_api_key seeded = Priority.priority_api_key settings
  /\ Priority.priority_base_url seeded = Priority.priority_base_url settings
  /\ Priority.priority_tracking_url seeded
     = Priority.priority_tracking_url settings
  /\ Priority.shipment_identifier_type seeded
     = Priority.shipment_identifier_type settings
  /\ Priority.response_code_details seeded <> []
  /\ Priority.error_code_details seeded <> []
  /\ PrioritySeed.fillup_api_responce_code_details seeded = seeded.
Proof.
  destruct settings as [key base url type rc ec].
  unfold PrioritySeed.fillup_api_responce_code_details,
    PrioritySeed.append_response_codes, PrioritySeed.append_error_codes.
  destruct rc as [|r rc], ec as [|e ec]; cbn;
    repeat split; intros; try reflexivity; try discriminate; congruence.
Qed.

Lemma priority_seeding_fills_empty_tables_witness :
  Priority.error_code_details
    (PrioritySeed.fillup_api_responce_code_details
       (Priority.mkSettings (PStr "key-1") "" "" PNone
          [Priority.mkResponseCode (PStr "200") (PStr "Dispatched")
             (PStr "In Transit")] []))
  = PrioritySeed.error_codes
  /\ Priority.response_code_details
       (PrioritySeed.fillup_api_responce_code_details
          (Priority.mkSettings (PStr "key-1") "" "" PNone
             [Priority.mkResponseCode (PStr "200") (PStr "Dispatched")
                (PStr "In Transit")] []))
     = [Priority.mkResponseCode (PStr "200") (PStr "Dispatched")
          (PStr "In Transit")].
Proof.
  destruct (priority_seeding_fills_empty_tables
              (Priority.mkSettings (PStr "key-1") "" "" PNone
                 [Priority.mkResponseCode (PStr "200") (PStr "Dispatched")
                    (PStr "In Transit")] []))
    as (_ & H2 & H3 & _).
  split; [apply H3; reflexivity | apply H2; discriminate].
Defined.

(** An HTTP error whose code has no entry in the error registry: the
    error is logged, then reading the status of the missing entry raises,
    and nothing is saved. *)
Lemma priority_unregistered_code_raises (env : Env) (ps : Priority.Settings)
    (dn : string) (response : value) (content : option string) (code : Z)
    (s : DB) :
  dict_find (Priority.error_map ps) (PStr (decimal code)) = None ->
  let r := Priority.update_delivery_note_with_priority_details env ps dn
             response (Some (Priority.ErrDict content code)) s in
  snd r = Raise AttributeError
  /\ doc (fst r) = doc s
  /\ exists message,
       error_log (fst r)
       = (error_log s ++ [("Priority Tracking API Failed", message)])%list.
Proof.
  intro H. cbv zeta.
  unfold Priority.update_delivery_note_with_priority_details. run.
  cbn [Priority.error_truthy Priority.is_dict Priority.error_code py_eq format].
  fold (decimal code). unfold dict_get. cbn [hashable]. rewrite H.
  destruct (code =? 401)%Z; cbn [fst snd doc error_log get];
    (split; [reflexivity|]; split; [reflexivity|]; eexists; reflexivity).
Qed.

(** X12: with the registry as it is seeded, Priority can take three HTTP
    errors.  The seeded error registry has an entry for the codes 400, 401
    and 500 and for no other; an HTTP error with any other code (404, 429,
    502, ...) is logged and then makes the call raise [AttributeError],
    with nothing saved: the Delivery Note keeps the status it had. *)
Theorem priority_seeded_registry_takes_three_codes (env : Env)
    (settings : Priority.Settings) (dn : string) (response : value)
    (content : option string) (code : Z) (s : DB)
    (Hempty : Priority.error_code_details settings = []) :
  let seeded := PrioritySeed.fillup_api_responce_code_details settings in
  let r := Priority.update_delivery_note_with_priority_details env seeded dn
             response (Some (Priority.ErrDict content code)) s in
  (dict_find (Priority.error_map seeded) (PStr (decimal code)) = None <->
   code <> 400%Z /\ code <> 401%Z /\ code <> 500%Z)
  /\ (code <> 400%Z -> code <> 401%Z -> code <> 500%Z ->
      snd r = Raise AttributeError
      /\ doc (fst r) = doc s
      /\ exists message,
           error_log (fst r)
           = (error_log s ++ [("Priority Tracking API Failed", message)])%list).
Proof.
  cbv zeta.
  assert (Hmap : Priority.error_map
                   (PrioritySeed.fillup_api_responce_code_details settings)
                 = Priority.error_map
                     (Priority.mkSettings PNone "" "" PNone []
                        PrioritySeed.error_codes)).
  { unfold Priority.error_map.
    destruct (priority_seeding_fills_empty_tables settings)
      as (_ & _ & H3 & _).
    rewrite (H3 Hempty). reflexivity. }
  assert (Hiff : dict_find
                   (Priority.error_map
                      (PrioritySeed.fillup_api_responce_code_details settings))
                   (PStr (decimal code)) = None
                 <-> code <> 400%Z /\ code <> 401%Z /\ code <> 500%Z).
  { rewrite Hmap.
    remember (decimal code) as x eqn:Hx.
    assert (Hd : forall n, x = decimal n -> code = n)
      by (intros n E; apply decimal_inj; congruence).
    match goal with
    | |- context [dict_find ?m0 _] => set (m := m0); vm_compute in m; subst m
    end.
    cbn -[String.eqb].
    destruct ("400" =? x) eqn:E400; cbn -[String.eqb].
    { apply String.eqb_eq in E400. split; [discriminate|].
      intros (H & _). exfalso. apply H, Hd. now rewrite <- E400. }
    destruct ("401" =? x) eqn:E401; cbn -[String.eqb].
    { apply String.eqb_eq in E401. split; [discriminate|].
      intros (_ & H & _). exfalso. apply H, Hd. now rewrite <- E401. }
    destruct ("500" =? x) eqn:E500; cbn -[String.eqb].
    { apply String.eqb_eq in E500. split; [discriminate|].
      intros (_ & _ & H). exfalso. apply H, Hd. now rewrite <- E500. }
    split; [|reflexivity]. intros _.
    repeat split; intros ->; vm_compute in Hx; subst x;
      vm_compute in E400, E401, E500; discriminate. }
  split; [exact Hiff|].
  intros H1 H2 H3.
  apply priority_unregistered_code_raises. apply Hiff. auto.
Qed.

Lemma priority_seeded_registry_takes_three_codes_witness :
  let r := Priority.update_delivery_note_with_priority_details Sample.env0
             (PrioritySeed.fillup_api_responce_code_details
                (Priority.mkSettings (PStr "key-1") "" "" PNone [] []))
             "DN-0001" (PDict [])
             (Some (Priority.ErrDict (Some "<html>502 Bad Gateway</html>") 502))
             Sample.db0 in
  snd r = Raise AttributeError /\ doc (fst r) = doc Sample.db0.
Proof.
  cbv zeta.
  destruct (priority_seeded_registry_takes_three_codes Sample.env0
              (Priority.mkSettings (PStr "key-1") "" "" PNone [] [])
              "DN-0001" (PDict []) (Some "<html>502 Bad Gateway</html>") 502
              Sample.db0 eq_refl) as (_ & H).
  destruct H as (H1 & H2 & _); try discriminate.
  split; assumption.
Defined.

(* ------------------------------------------------------------------ *)
(** ** The schedulers *)
(* ------------------------------------------------------------------ *)

Import Scheduler.

(** *** The schedulers when the carrier cannot be reached *)

(** One poll of each carrier when no request gets through: UPS stores
    "ERPNext Exception" and Priority stores "Exception", and both return;
    FedEx ends in [JSONDecodeError] on the traceback and stores nothing. *)
Lemma ups_poll_outage (env : Env) (us : UPS.Settings) (dn : string) (s : DB) :
  truthy (cache_find UPS.ACCESS_TOKEN_KEY (cache s)) = false ->
  (forall q, http env q = ConnectionFailed) ->
  get_traceback env <> "" ->
  let r := UPS.get_ups_tracking_data env us dn s in
  snd r = Ok tt
  /\ doc (fst r) = set_custom_tracking (PStr "ERPNext Exception") (doc s)
  /\ cache (fst r) = cache s.
Proof.
  intros Hc Ho Ht. cbv zeta.
  unfold UPS.get_ups_tracking_data, UPS.UPSClient, UPS.get_auth_token.
  run. rewrite Hc. cbn [negb]. rewrite Ho.
  cbn [fst snd doc format].
  destruct (UPS.lookup env us dn (doc s)) as [[url params] mode] eqn:HL.
  cbn [fst snd headers_update String.eqb Ascii.eqb Bool.eqb].
  unfold UPS.make_api_request. run. simpl_run. rewrite Ho. cbn [fst snd].
  unfold UPS.set_data_in_delivery_note. run. cbn [error_truthy].
  destruct (get_traceback env =? "") eqn:E;
    [apply String.eqb_eq in E; contradiction|].
  cbn. repeat split; reflexivity.
Qed.

Lemma priority_poll_outage (env : Env) (ps : Priority.Settings) (dn : string)
    (s : DB) :
  (forall q, http env q = ConnectionFailed) ->
  get_traceback env <> "" ->
  let r := Priority.fetch_priority_tracking_details env ps dn s in
  snd r = Ok tt
  /\ doc (fst r) = set_custom_tracking (PStr "Exception") (doc s).
Proof.
  intros Ho Ht. cbv zeta.
  unfold Priority.fetch_priority_tracking_details, Priority.PriorityIntegration,
    Priority.get_auth_token.
  run.
  destruct (truthy (cache_find Priority.ACCESS_TOKEN_KEY (cache s)));
    cbn [negb fst snd];
    unfold Priority.make_api_request; run; simpl_run; rewrite Ho; cbn [fst snd];
    unfold Priority.update_delivery_note_with_priority_details; run;
    cbn [Priority.error_truthy Priority.is_dict];
    (destruct (get_traceback env =? "") eqn:E;
      [apply String.eqb_eq in E; contradiction|]);
    cbn; split; reflexivity.
Qed.

Lemma fedex_poll_outage (env : Env) (fs : FedEx.Settings) (dn : string) (s : DB) :
  truthy (cache_find FedEx.ACCESS_TOKEN_KEY (cache s)) = false ->
  (forall q, http env q = ConnectionFailed) ->
  get_traceback env <> "" ->
  json_loads env (get_traceback env) = None ->
  let r := FedEx.fetch_fedex_tracking_details env fs dn s in
  snd r = Raise JSONDecodeError
  /\ doc (fst r) = doc s
  /\ sent (fst r)
     = (sent s ++ [fedex_oauth_request fs;
                   fedex_tracking_request env fs dn (doc s) PNone])%list.
Proof.
  intros Hc Ho Ht Hj. cbv zeta.
  unfold FedEx.fetch_fedex_tracking_details, FedEx.FedExIntegration,
    FedEx.get_auth_token.
  run. rewrite Hc. cbn [negb].
  fold (fedex_oauth_request fs). rewrite Ho.
  unfold fedex_tracking_request.
  cbn [fst snd doc format headers_update String.eqb Ascii.eqb Bool.eqb].
  match goal with
  | |- context [FedEx.lookup env fs dn (doc s) ?h ?a] =>
      destruct (FedEx.lookup env fs dn (doc s) h a)
        as [[[mode url] hs] payload] eqn:HL
  end.
  cbn [fst snd].
  unfold FedEx.make_api_request. run. simpl_run. rewrite Ho. cbn [fst snd].
  unfold FedEx.update_delivery_note_with_fedex_details, FedEx.loads. run.
  cbn [error_truthy].
  destruct (get_traceback env =? "") eqn:E;
    [apply String.eqb_eq in E; contradiction|].
  cbn [negb]. rewrite Hj. cbn. rewrite <- app_assoc. repeat split; reflexivity.
Qed.

(** *** The schedulers *)

(** The [if len(...) > 0] before a loop changes nothing. *)
Lemma for_each_guard (poll : string -> M unit) (dns : list string) (st : Site) :
  (if (0 <? List.length dns)%nat then for_each poll dns st else (st, Ok tt))
  = for_each poll dns st.
Proof. destruct dns; reflexivity. Qed.

(** The names that a query returns. *)
Lemma selected_by_query (p : string -> bool) (l : list string) (n : string) :
  existsb (String.eqb n) (filter p l) = true <-> In n l /\ p n = true.
Proof.
  rewrite existsb_exists. split.
  - intros (x & Hx & E). apply String.eqb_eq in E. subst x.
    apply filter_In in Hx. exact Hx.
  - intro H. exists n. split; [apply filter_In; exact H | apply String.eqb_refl].
Qed.

(** A query that no row satisfies returns nothing. *)
Lemma filter_none (p : string -> bool) (l : list string) :
  (forall n, In n l -> p n = false) -> filter p l = [].
Proof.
  induction l as [|x l IH]; intro H; [reflexivity|].
  cbn [filter]. rewrite (H x (or_introl eq_refl)).
  apply IH. intros n Hn. apply H. right. exact Hn.
Qed.

Section Marks.

Variable poll : string -> M unit.
Variable f : DeliveryNote -> DeliveryNote.
Variable Inv : list (string * (value * option Z)) -> Prop.

Hypothesis poll_marks : forall dn s,
  Inv (cache s) ->
  snd (poll dn s) = Ok tt
  /\ doc (fst (poll dn s)) = f (doc s)
  /\ Inv (cache (fst (poll dn s))).
Hypothesis f_twice : forall d, f (f d) = f d.

(** A loop of polls that all return and all apply the same change [f] to
    their own note: it returns, and it has applied [f] to the notes it was
    given and to no other. *)
Lemma for_each_marks (dns : list string) (st : Site) :
  Inv (site_cache st) ->
  let r := for_each poll dns st in
  snd r = Ok tt
  /\ names (fst r) = names st
  /\ Inv (site_cache (fst r))
  /\ forall n, note (fst r) n
               = if existsb (String.eqb n) dns then f (note st n) else note st n.
Proof.
  revert st. induction dns as [|dn rest IH]; intros st HI; cbv zeta.
  - cbn. repeat split; try reflexivity. exact HI.
  - cbn [for_each]. unfold poll_note.
    destruct (poll_marks dn (at_note dn st) HI) as (H1 & H2 & H3).
    destruct (poll dn (at_note dn st)) as [s1 r1]. cbn [fst snd] in H1, H2, H3.
    subst r1.
    destruct (IH (after_poll dn s1 st) H3) as (K1 & K2 & K3 & K4).
    split; [exact K1|]. split; [exact K2|]. split; [exact K3|].
    intro n. rewrite K4. cbn [note after_poll existsb]. rewrite H2.
    cbn [doc at_note].
    destruct (n =? dn) eqn:E.
    + apply String.eqb_eq in E. subst n. cbn [orb].
      destruct (existsb (String.eqb dn) rest); [apply f_twice | reflexivity].
    + cbn [orb]. reflexivity.
Qed.

End Marks.

Lemma set_custom_tracking_twice (v : value) (d : DeliveryNote) :
  set_custom_tracking v (set_custom_tracking v d) = set_custom_tracking v d.
Proof. reflexivity. Qed.

(** X13: [update_dn_by_schedular] when UPS cannot be reached and no token is
    cached: the run returns, every Delivery Note that its query selected is
    stored with the status "ERPNext Exception" and is otherwise as it was,
    and no other note is changed.  The query does not select that status
    (where the database tells it apart from "Processing", "In Transit" and
    "DN Not Found In UPS"), so a second run on the same day polls nothing,
    whatever the carrier answers by then: the notes stay as the outage left
    them. *)
Theorem ups_outage_parks_selected_notes (env : Env) (db : Database)
    (us : UPS.Settings) (days : Z) (st : Site) :
  truthy (cache_find UPS.ACCESS_TOKEN_KEY (site_cache st)) = false ->
  (forall q, http env q = ConnectionFailed) ->
  get_traceback env <> "" ->
  (forall text, In text ["Processing"; "In Transit"; "DN Not Found In UPS"] ->
     sql_eq db (PStr "ERPNext Exception") text = false) ->
  let selected n :=
    In n (names st)
    /\ ups_where db (add_to_date env (today env) (- days)) (today env) n
         (note st n) = true in
  let r := update_dn_by_schedular env db us days st in
  snd r = Ok tt
  /\ (forall n, selected n ->
        note (fst r) n
        = set_custom_tracking (PStr "ERPNext Exception") (note st n))
  /\ (forall n, ~ selected n -> note (fst r) n = note st n)
  /\ (forall env',
        today env' = today env -> add_to_date env' = add_to_date env ->
        update_dn_by_schedular env' db us days (fst r) = (fst r, Ok tt)).
Proof.
  intros Hc Ho Ht Hsql. cbv zeta.
  set (p := fun dn => ups_where db (add_to_date env (today env) (- days))
                        (today env) dn (note st dn)).
  replace (update_dn_by_schedular env db us days st)
    with (for_each (UPS.get_ups_tracking_data env us) (filter p (names st)) st)
    by (unfold update_dn_by_schedular; cbv zeta; now rewrite for_each_guard).
  assert (Hpoll : forall dn s,
             truthy (cache_find UPS.ACCESS_TOKEN_KEY (cache s)) = false ->
             snd (UPS.get_ups_tracking_data env us dn s) = Ok tt
             /\ doc (fst (UPS.get_ups_tracking_data env us dn s))
                = set_custom_tracking (PStr "ERPNext Exception") (doc s)
             /\ truthy (cache_find UPS.ACCESS_TOKEN_KEY
                          (cache (fst (UPS.get_ups_tracking_data env us dn s))))
                = false).
  { intros dn s H. destruct (ups_poll_outage env us dn s H Ho Ht) as (A & B & C).
    rewrite C. repeat split; assumption. }
  destruct (for_each_marks (UPS.get_ups_tracking_data env us)
              (set_custom_tracking (PStr "ERPNext Exception"))
              (fun c => truthy (cache_find UPS.ACCESS_TOKEN_KEY c) = false)
              Hpoll (set_custom_tracking_twice _)
              (filter p (names st)) st Hc) as (K1 & K2 & _ & K4).
  split; [exact K1|].
  split; [|split].
  - intros n Hn. rewrite K4.
    rewrite (proj2 (selected_by_query p (names st) n) Hn). reflexivity.
  - intros n Hn. rewrite K4.
    destruct (existsb (String.eqb n) (filter p (names st))) eqn:E;
      [|reflexivity].
    apply selected_by_query in E. contradiction.
  - intros env' Hd Ha. unfold update_dn_by_schedular. cbv zeta.
    rewrite Hd, Ha, K2.
    match goal with
    | |- context [filter ?q (names st)] =>
        replace (filter q (names st)) with (@nil string); [reflexivity|]
    end.
    symmetry. apply filter_none. intros n Hn.
    rewrite K4.
    destruct (existsb (String.eqb n) (filter p (names st))) eqn:E.
    + unfold ups_where. cbn [custom_tracking set_custom_tracking].
      rewrite !Hsql by (cbn; tauto). cbn. rewrite !andb_false_r. reflexivity.
    + destruct (p n) eqn:Ep.
      * assert (existsb (String.eqb n) (filter p (names st)) = true)
          by (apply selected_by_query; split; assumption).
        congruence.
      * unfold p in Ep. rewrite Ep. reflexivity.
Qed.

(** X14: The FedEx scheduler when FedEx cannot be reached and no token is
    cached: the poll of the first Delivery Note that the query selected ends
    in [JSONDecodeError], which ends the run.  No note is changed, and the
    only requests sent are the token request and the tracking request of
    that first note: the other selected notes are not polled. *)
Theorem fedex_outage_ends_run_at_first_note (env : Env) (db : Database)
    (fs : FedEx.Settings) (days : Z) (st : Site) (dn : string)
    (rest : list string) :
  truthy (cache_find FedEx.ACCESS_TOKEN_KEY (site_cache st)) = false ->
  (forall q, http env q = ConnectionFailed) ->
  get_traceback env <> "" ->
  json_loads env (get_traceback env) = None ->
  filter (fun n => fedex_where db (add_to_date env (today env) (- days))
                     (today env) n (note st n))
         (names st)
  = dn :: rest ->
  let r := fedex_scheduler env db fs days st in
  snd r = Raise JSONDecodeError
  /\ (forall n, note (fst r) n = note st n)
  /\ site_sent (fst r)
     = (site_sent st
        ++ [fedex_oauth_request fs;
            fedex_tracking_request env fs dn (note st dn) PNone])%list.
Proof.
  intros Hc Ho Ht Hj Hsel. cbv zeta.
  unfold fedex_scheduler. cbv zeta. rewrite for_each_guard, Hsel.
  cbn [for_each]. unfold poll_note.
  destruct (fedex_poll_outage env fs dn (at_note dn st) Hc Ho Ht Hj)
    as (H1 & H2 & H3).
  destruct (FedEx.fetch_fedex_tracking_details env fs dn (at_note dn st))
    as [s1 r1].
  cbn [fst snd] in H1, H2, H3. subst r1. cbn [fst snd].
  split; [reflexivity|]. split.
  - intro n. cbn [note after_poll]. rewrite H2. cbn [doc at_note].
    destruct (n =? dn) eqn:E; [|reflexivity].
    apply String.eqb_eq in E. now subst n.
  - cbn [site_sent after_poll]. exact H3.
Qed.

(** X15: The Priority scheduler when Priority cannot be reached: the run
    returns, every Delivery Note selected by one of its two queries is
    stored with the status "Exception" and is otherwise as it was, and no
    other note is changed.  A note so marked satisfies the first query, so
    the next run in the same window polls it again (also a note that was
    "DN Not Found" before). *)
Theorem priority_outage_marks_notes_for_retry (env : Env) (db : Database)
    (ps : Priority.Settings) (days : Z) (st : Site) :
  (forall q, http env q = ConnectionFailed) ->
  get_traceback env <> "" ->
  sql_eq db (PStr "Exception") "Exception" = true ->
  let end_date := add_to_date env (today env) (- days) in
  let selected n :=
    In n (names st)
    /\ (priority_where db end_date (today env) n (note st n) = true
        \/ priority_where_exceptional db end_date (today env) n (note st n)
           = true) in
  let r := priority_scheduler env db ps days st in
  snd r = Ok tt
  /\ (forall n, selected n ->
        note (fst r) n = set_custom_tracking (PStr "Exception") (note st n)
        /\ priority_where db end_date (today env) n (note (fst r) n) = true)
  /\ (forall n, ~ selected n -> note (fst r) n = note st n).
Proof.
  intros Ho Ht Hsql. cbv zeta.
  unfold priority_scheduler. cbv zeta. rewrite for_each_guard.
  set (p := fun dn => priority_where db (add_to_date env (today env) (- days))
                        (today env) dn (note st dn)).
  set (q := fun dn => priority_where_exceptional db
                        (add_to_date env (today env) (- days))
                        (today env) dn (note st dn)).
  assert (Hpoll : forall dn s,
             True ->
             snd (Priority.fetch_priority_tracking_details env ps dn s) = Ok tt
             /\ doc (fst (Priority.fetch_priority_tracking_details env ps dn s))
                = set_custom_tracking (PStr "Exception") (doc s)
             /\ True).
  { intros dn s _. destruct (priority_poll_outage env ps dn s Ho Ht) as (A & B).
    repeat split; assumption. }
  pose proof (for_each_marks (Priority.fetch_priority_tracking_details env ps)
                (set_custom_tracking (PStr "Exception")) (fun _ => True)
                Hpoll (set_custom_tracking_twice _)) as Hloop.
  destruct (Hloop (filter p (names st)) st I) as (K1 & K2 & _ & K4).
  destruct (for_each (Priority.fetch_priority_tracking_details env ps)
              (filter p (names st)) st) as [st1 r1].
  cbn [fst snd] in K1, K2, K4. subst r1. rewrite for_each_guard.
  destruct (Hloop (filter q (names st)) st1 I) as (L1 & L2 & _ & L4).
  split; [exact L1|].
  assert (Hnote : forall n,
             note (fst (for_each (Priority.fetch_priority_tracking_details env ps)
                          (filter q (names st)) st1)) n
             = if existsb (String.eqb n) (filter p (names st))
                  || existsb (String.eqb n) (filter q (names st))
               then set_custom_tracking (PStr "Exception") (note st n)
               else note st n).
  { intro n. rewrite L4, K4.
    destruct (existsb (String.eqb n) (filter p (names st)));
      destruct (existsb (String.eqb n) (filter q (names st))); reflexivity. }
  split.
  - intros n (Hn & Hpq). rewrite Hnote.
    assert (E : existsb (String.eqb n) (filter p (names st))
                || existsb (String.eqb n) (filter q (names st)) = true).
    { apply orb_true_iff. destruct Hpq as [Hp | Hq]; [left | right];
        apply selected_by_query; split; assumption. }
    rewrite E. split; [reflexivity|].
    unfold priority_where, priority_where_exceptional in *.
    cbn [posting_date custom_tracking set_custom_tracking].
    rewrite Hsql.
    destruct Hpq as [H | H]; apply andb_true_iff in H; destruct H as (H & _);
      rewrite H; cbn; now rewrite !orb_true_r.
  - intros n Hn. rewrite Hnote.
    destruct (existsb (String.eqb n) (filter p (names st))) eqn:E1.
    + apply selected_by_query in E1. exfalso. apply Hn.
      split; [apply E1 | left; apply E1].
    + destruct (existsb (String.eqb n) (filter q (names st))) eqn:E2;
        [|reflexivity].
      apply selected_by_query in E2. exfalso. apply Hn.
      split; [apply E2 | right; apply E2].
Qed.

Lemma ups_outage_parks_selected_notes_witness :
  let r := Scheduler.update_dn_by_schedular Sample.env0 exact_database
             Sample.ups_settings 7 site0 in
  snd r = Ok tt
  /\ custom_tracking (Scheduler.note (fst r) "DN-0001")
     = PStr "ERPNext Exception"
  /\ Scheduler.note (fst r) "DN-0002" = Scheduler.note site0 "DN-0002"
  /\ Scheduler.update_dn_by_schedular Sample.env1 exact_database
       Sample.ups_settings 7 (fst r)
     = (fst r, Ok tt).
Proof.
  destruct (ups_outage_parks_selected_notes Sample.env0 exact_database
              Sample.ups_settings 7 site0) as (H1 & H2 & H3 & H4).
  - reflexivity.
  - reflexivity.
  - discriminate.
  - intros text [<- | [<- | [<- | []]]]; reflexivity.
  - split; [exact H1|]. split; [|split].
    + rewrite H2; [reflexivity|]. split; [left; reflexivity | reflexivity].
    + apply H3. intros [_ H]. vm_compute in H. discriminate.
    + apply H4; reflexivity.
Defined.

Lemma fedex_outage_ends_run_at_first_note_witness :
  let r := Scheduler.fedex_scheduler Sample.env0 exact_database
             Sample.fedex_settings 7 site0 in
  snd r = Raise JSONDecodeError
  /\ Scheduler.note (fst r) "DN-0001" = Sample.dn0
  /\ List.length (Scheduler.site_sent (fst r)) = 2%nat.
Proof.
  destruct (fedex_outage_ends_run_at_first_note Sample.env0 exact_database
              Sample.fedex_settings 7 site0 "DN-0001" [])
    as (H1 & H2 & H3).
  - reflexivity.
  - reflexivity.
  - discriminate.
  - reflexivity.
  - reflexivity.
  - split; [exact H1|]. split.
    + rewrite H2. reflexivity.
    + rewrite H3. reflexivity.
Defined.

Lemma priority_outage_marks_notes_for_retry_witness :
  let r := Scheduler.priority_scheduler Sample.env0 exact_database
             Sample.priority_settings 7 site0 in
  snd r = Ok tt
  /\ custom_tracking (Scheduler.note (fst r) "DN-0001") = PStr "Exception"
  /\ Scheduler.priority_where exact_database "2024-05-02" "2024-05-02"
       "DN-0001" (Scheduler.note (fst r) "DN-0001") = true
  /\ Scheduler.note (fst r) "DN-0002" = Scheduler.note site0 "DN-0002".
Proof.
  destruct (priority_outage_marks_notes_for_retry Sample.env0 exact_database
              Sample.priority_settings 7 site0) as (H1 & H2 & H3).
  - reflexivity.
  - discriminate.
  - reflexivity.
  - assert (Hsel : In "DN-0001" (Scheduler.names site0)
                   /\ (Scheduler.priority_where exact_database
                         (add_to_date Sample.env0 (today Sample.env0) (- 7))
                         (today Sample.env0) "DN-0001"
                         (Scheduler.note site0 "DN-0001") = true
                       \/ Scheduler.priority_where_exceptional exact_database
                            (add_to_date Sample.env0 (today Sample.env0) (- 7))
                            (today Sample.env0) "DN-0001"
                            (Scheduler.note site0 "DN-0001") = true)).
    { split; [left; reflexivity | left; reflexivity]. }
    destruct (H2 "DN-0001" Hsel) as (A & B).
    split; [exact H1|]. split; [|split].
    + rewrite A. reflexivity.
    + exact B.
    + apply H3. intros [_ [H | H]]; vm_compute in H; discriminate.
Defined.
